(** * Storefront back end: coupons, orders, cart, wishlist and categories

    A shallow embedding of the request handlers of [server-mongodb.js], with
    what they use of the category, product and customer schemas of the
    models.  The coupon, order, cart and wishlist models are not among the
    sources: what the handlers need of them is taken from the
    specification, and says so.

    A collection is the list of its documents in natural order; a handler is
    a function from the database (and the request) to the new database and
    the HTTP response.  Amounts are exact rationals ([Q]); quantities,
    numeric identifiers and timestamps are integers ([Z]); a string is the
    UTF-8 encoding of the JavaScript string. *)

From Stdlib Require Import ZArith QArith Qminmax Qround Lia Lqa Ascii.
From stdpp Require Import gmap strings list pretty sorting.

(** ** JavaScript helpers *)

(** [x || d] on an optional number: [undefined] and [0] are falsy. *)
Definition orElseQ (x : option Q) (d : Q) : Q :=
  match x with
  | Some v => if Qeq_bool v 0 then d else v
  | None => d
  end.

Definition orElseZ (x : Z) (d : Z) : Z := if Z.eqb x 0 then d else x.

(** A string is truthy when it is not empty. *)
Definition truthyS (s : string) : bool :=
  match s with EmptyString => false | String _ _ => true end.

Definition orElseS (x : option string) (d : string) : string :=
  match x with
  | Some s => if truthyS s then s else d
  | None => d
  end.

Definition upper_ascii (a : ascii) : ascii :=
  let n := nat_of_ascii a in
  if Nat.leb 97 n && Nat.leb n 122 then ascii_of_nat (n - 32) else a.

(** [String.prototype.toUpperCase], on the ASCII letters. *)
Fixpoint toUpperCase (s : string) : string :=
  match s with
  | EmptyString => EmptyString
  | String a r => String (upper_ascii a) (toUpperCase r)
  end.

(** The string of the given bytes. *)
Definition bytes (l : list nat) : string :=
  String.string_of_list_ascii (map ascii_of_nat l).

(** The white space and the line terminators of ECMAScript, in the UTF-8
    encoding that the strings here have: U+0009 to U+000D, U+0020, U+00A0,
    U+1680, U+2000 to U+200A, U+2028, U+2029, U+202F, U+205F, U+3000 and
    U+FEFF. *)
Definition whiteSpace : list string :=
  [bytes [9]; bytes [10]; bytes [11]; bytes [12]; bytes [13]; bytes [32];
   bytes [194; 160]; bytes [225; 154; 128];
   bytes [226; 128; 128]; bytes [226; 128; 129]; bytes [226; 128; 130];
   bytes [226; 128; 131]; bytes [226; 128; 132]; bytes [226; 128; 133];
   bytes [226; 128; 134]; bytes [226; 128; 135]; bytes [226; 128; 136];
   bytes [226; 128; 137]; bytes [226; 128; 138];
   bytes [226; 128; 168]; bytes [226; 128; 169]; bytes [226; 128; 175];
   bytes [226; 129; 159]; bytes [227; 128; 128]; bytes [239; 187; 191]].

(** [s] without the prefix [w], when it has it. *)
Fixpoint dropPrefix (w s : string) : option string :=
  match w, s with
  | EmptyString, _ => Some s
  | String a w', String b s' =>
      if Ascii.eqb a b then dropPrefix w' s' else None
  | String _ _, EmptyString => None
  end.

(** [s] without the first of the strings [ws] that it starts with. *)
Fixpoint dropFirst (ws : list string) (s : string) : option string :=
  match ws with
  | [] => None
  | w :: ws' =>
      match dropPrefix w s with
      | Some r => Some r
      | None => dropFirst ws' s
      end
  end.

(** [s] without the strings of [ws] that it starts with, one after the
    other; [n] bounds their number. *)
Fixpoint dropAll (ws : list string) (n : nat) (s : string) : string :=
  match n with
  | O => s
  | S n' =>
      match dropFirst ws s with
      | Some r => dropAll ws n' r
      | None => s
      end
  end.

Definition reverse (s : string) : string :=
  String.string_of_list_ascii (rev (String.list_ascii_of_string s)).

(** [String.prototype.trimStart] and [trimEnd]; in UTF-8 a string ends
    with a white space exactly when its bytes end with those of one. *)
Definition trimStart (s : string) : string :=
  dropAll whiteSpace (String.length s) s.

Definition trimEnd (s : string) : string :=
  reverse (dropAll (map reverse whiteSpace) (String.length s) (reverse s)).

(** [String.prototype.trim], which the [trim: true] of a schema applies
    to what is stored. *)
Definition trim (s : string) : string := trimEnd (trimStart s).

Definition startsWithSpace (s : string) : bool :=
  match dropFirst whiteSpace s with Some _ => true | None => false end.

Definition endsWithSpace (s : string) : bool :=
  match dropFirst (map reverse whiteSpace) (reverse s) with
  | Some _ => true
  | None => false
  end.

(** [arr.reduce((sum, x) => sum + f(x), 0)] *)
Definition sumQ {A} (f : A → Q) (l : list A) : Q :=
  fold_left (λ sum x, sum + f x)%Q l 0%Q.

(** [Model.findOne(filter)]: the first document that passes the filter,
    with its position in the collection. *)
Definition findOne {A} (P : A → bool) (l : list A) : option (nat * A) :=
  list_find (λ x, P x = true) l.

(** [Model.countDocuments(filter)] *)
Definition countDocuments {A} (P : A → bool) (l : list A) : nat :=
  length (List.filter P l).

(** [Model.findOneAndUpdate(filter, update)]: the first match is replaced
    by its update; [None] when nothing matches. *)
Definition findOneAndUpdate {A} (P : A → bool) (upd : A → A) (l : list A)
  : option (list A * A) :=
  match findOne P l with
  | Some (i, x) => Some (<[ i := upd x ]> l, upd x)
  | None => None
  end.

(** [Model.findOneAndDelete(filter)] *)
Definition findOneAndDelete {A} (P : A → bool) (l : list A)
  : option (list A * A) :=
  match findOne P l with
  | Some (i, x) => Some (delete i l, x)
  | None => None
  end.

(** ** Coupons *)

Module Coupon.

Inductive DiscountType := percentage | fixed.

(** Modelled from the spec: the coupon document of [models/Coupon.js],
    which is not among the sources, with the fields of the data model.
    The contract of the calculator gives its result both as
    [min(discount, subtotal)] and as a number that is not negative; the two
    agree at every subtotal only for a [discountValue] that is not
    negative, and a coupon document carries that constraint. *)
Record t := mk {
  code : string;
  discountType : DiscountType;
  discountValue : Q;
  minOrderAmount : Q;
  maxUsage : option Z;
  usedCount : Z;
  isActive : bool;
  expiresAt : option Z;
  discountValue_min : Qle_bool 0 discountValue = true
}.

(** A JavaScript number, as the calculator meets it: a value, or NaN. *)
Inductive Number := value (q : Q) | NaN.

(** [x * y], [x / 100] and [Math.min(x, y)]: NaN as soon as an operand
    is. *)
Definition times (x y : Number) : Number :=
  match x, y with
  | value a, value b => value (a * b)
  | _, _ => NaN
  end.

Definition percent (x : Number) : Number :=
  match x with
  | value a => value (a / 100)
  | NaN => NaN
  end.

Definition minimum (x y : Number) : Number :=
  match x, y with
  | value a, value b => value (Qmin a b)
  | _, _ => NaN
  end.

(** Modelled from the spec: the computation of the contract, in JavaScript
    numbers: the percentage of the subtotal or the fixed amount, clamped to
    the subtotal. *)
Definition amount (c : t) (subtotal : Number) : Number :=
  minimum (match discountType c with
           | percentage => percent (times subtotal (value (discountValue c)))
           | fixed => value (discountValue c)
           end) subtotal.

(** The four rejection reasons: "coupon inactive", "coupon expired",
    "usage limit reached" and "order below minimum amount for coupon
    eligibility". *)
Inductive Rejection := inactive | expired | usageLimitReached | belowMinimum.

(** What [calculateDiscount] returns: [{ error }] or [{ discount }]. *)
Inductive Result := error (r : Rejection) | discount (d : Q).

Definition isExpired (c : t) (now : Z) : bool :=
  match expiresAt c with
  | Some e => Z.ltb e now
  | None => false
  end.

Definition limitReached (c : t) : bool :=
  match maxUsage c with
  | Some m => Z.leb m (usedCount c)
  | None => false
  end.

(** Modelled from the spec: the method [calculateDiscount] of
    [models/Coupon.js], which is not among the sources.  The four
    preconditions are checked in the order of the contract, the first
    failure wins; then the percentage or fixed amount is clamped to the
    subtotal, which is [amount] at a subtotal that is a number.  [now] is
    the time of the call. *)
Definition calculateDiscount (c : t) (now : Z) (subtotal : Q) : Result :=
  if negb (isActive c) then error inactive
  else if isExpired c now then error expired
  else if limitReached c then error usageLimitReached
  else if negb (Qle_bool (minOrderAmount c) subtotal) then error belowMinimum
  else
    let d := match discountType c with
             | percentage => (subtotal * discountValue c / 100)%Q
             | fixed => discountValue c
             end in
    discount (Qmin d subtotal).

(** [coupon.usedCount += 1] *)
Definition use (c : t) : t :=
  mk (code c) (discountType c) (discountValue c) (minOrderAmount c)
     (maxUsage c) (usedCount c + 1)%Z (isActive c) (expiresAt c)
     (discountValue_min c).

(** The filter [{ code, isActive: true }]. *)
Definition activeWithCode (k : string) (c : t) : bool :=
  bool_decide (code c = k) && isActive c.

End Coupon.

(** ** Catalog: products and categories *)

Module Product.

(** The product document, with the fields the handlers below read or
    write ([oid] is Mongo's [_id], printed); the option schemas, the
    detailed images and the SEO fields are left out. *)
Record t := mk {
  id : Z;
  oid : string;
  name : string;
  description : string;
  price : Q;
  originalPrice : option Q;
  stock : Z;
  categoryId : Z;
  mainImage : string;
  isActive : bool
}.

End Product.

Module Category.

(** The category schema of [models/Category.js]; of the two timestamps
    only [createdAt], which the listing sorts by, is kept. *)
Record t := mk {
  id : Z;
  name : string;
  description : string;
  image : string;
  isActive : bool;
  parentId : option Z;
  order : Z;
  seoTitle : option string;
  seoDescription : option string;
  createdAt : Z
}.

(** The update document [{ isActive: false }]. *)
Definition deactivate (c : t) : t :=
  mk (id c) (name c) (description c) (image c) false (parentId c)
     (order c) (seoTitle c) (seoDescription c) (createdAt c).

End Category.

(** A product identifier as a request carries it: a JSON number, or a
    string that [Number] reads as [NaN], such as a printed [_id]. *)
Inductive ReqId := numId (n : Z) | strId (s : string).

(** ** Cart and wishlist *)

Module Cart.

Record Attachments := mkAtt { text : string; images : list string }.

Definition noAttachments : Attachments := mkAtt "" [].

(** [attachments.text || attachments.images?.length > 0] *)
Definition supplied (a : Attachments) : bool :=
  truthyS (text a) || negb (bool_decide (images a = [])).

(** A [selectedOptions] document: the option names with their values, in
    the order of the keys of the object. *)
Definition Options : Type := list (string * string).

(** The mapping from option names to values that the document stands
    for. *)
Definition mapping (o : Options) : gmap string string := list_to_map o.

(** Modelled from the spec: the cart line of [models/Cart.js], which is
    not among the sources, with the fields the handlers give it. *)
Record t := mk {
  userId : string;
  productId : Z;
  productName : string;
  price : Q;
  quantity : Z;
  image : string;
  selectedOptions : Options;
  optionsPricing : gmap string Q;
  attachments : Attachments
}.

(** [existingItem.quantity += quantity], and the attachments replaced
    when the request supplies some. *)
Definition merge (existingItem : t) (q : Z) (a : Attachments) : t :=
  mk (userId existingItem) (productId existingItem)
     (productName existingItem) (price existingItem)
     (quantity existingItem + q)%Z (image existingItem)
     (selectedOptions existingItem) (optionsPricing existingItem)
     (if supplied a then a else attachments existingItem).

(** The filter [{ userId, productId, selectedOptions }] of the cart
    queries.  The database evaluates it, and it matches an embedded
    document against the document of the filter field by field: the same
    names with the same values, in the same order. *)
Definition sameLine (u : string) (p : Z) (o : Options) (it : t) : bool :=
  bool_decide (userId it = u) && Z.eqb (productId it) p
  && bool_decide (selectedOptions it = o).

End Cart.

Module Wishlist.

Record t := mk {
  id : Z;
  userId : string;
  productId : Z;
  productName : string;
  price : Q;
  image : string
}.

(** The filter [{ userId, productId }]. *)
Definition sameEntry (u : string) (p : Z) (w : t) : bool :=
  bool_decide (userId w = u) && Z.eqb (productId w) p.

(** Modelled from the spec: the numeric identifier given to a new
    wishlist document by [models/Wishlist.js], which is not among the
    sources: "find max, add one", as the category and product schemas
    do. *)
Definition nextId (l : list t) : Z :=
  fold_right (λ w m, Z.max (id w + 1) m) 1%Z l.

End Wishlist.

(** ** Orders *)

Module Order.

(** An order line, as the requests carry it and as it is stored. *)
Record Item := mkItem {
  productId : Z;
  price : Q;
  quantity : Z;
  totalPrice : option Q
}.

(** The fields the order constructors below pass that bear on the
    totals; customer, payment and note fields are copied through and
    left out.  [POST /api/orders] passes neither [subtotal] nor
    [total]. *)
Record t := mk {
  items : list Item;
  subtotal : option Q;
  deliveryFee : Q;
  total : option Q;
  couponCode : string;
  couponDiscount : Q;
  userId : option string
}.

(** The total of a line: its [totalPrice]; a line that carries none
    counts with [price * quantity], the line total of the order
    reconciliation of the spec on the fields kept here. *)
Definition lineTotal (item : Item) : Q :=
  default (price item * inject_Z (quantity item))%Q (totalPrice item).

(** Modelled from the spec: the totals that [models/Order.js], which is
    not among the sources, derives for the document that [order.save()]
    stores: [subtotal] is the sum of the line totals and [total] is
    [subtotal + deliveryFee - couponDiscount], clamped to [>= 0], whatever
    the constructor was given for the two.  The other fields are those of
    the constructor. *)
Definition derive (o : t) : t :=
  let s := sumQ lineTotal (items o) in
  mk (items o) (Some s) (deliveryFee o)
     (Some (Qmax 0 (s + deliveryFee o - couponDiscount o)))
     (couponCode o) (couponDiscount o) (userId o).

End Order.

(** ** The database and the responses *)

Record DB := mkDB {
  products : list Product.t;
  categories : list Category.t;
  coupons : list Coupon.t;
  carts : list Cart.t;
  wishlists : list Wishlist.t;
  orders : list Order.t
}.

Definition setProducts (db : DB) (l : list Product.t) : DB :=
  mkDB l (categories db) (coupons db) (carts db) (wishlists db) (orders db).
Definition setCategories (db : DB) (l : list Category.t) : DB :=
  mkDB (products db) l (coupons db) (carts db) (wishlists db) (orders db).
Definition setCoupons (db : DB) (l : list Coupon.t) : DB :=
  mkDB (products db) (categories db) l (carts db) (wishlists db) (orders db).
Definition setCarts (db : DB) (l : list Cart.t) : DB :=
  mkDB (products db) (categories db) (coupons db) l (wishlists db) (orders db).
Definition setWishlists (db : DB) (l : list Wishlist.t) : DB :=
  mkDB (products db) (categories db) (coupons db) (carts db) l (orders db).
Definition setOrders (db : DB) (l : list Order.t) : DB :=
  mkDB (products db) (categories db) (coupons db) (carts db) (wishlists db) l.

(** The [message] of a response, one constructor for each text the
    handlers below send; [couponRejected r] is [result.error]. *)
Inductive Message :=
  | invalidCoupon          (* the 404 of coupon validation *)
  | couponRejected (r : Coupon.Rejection)
  | productNotFound
  | alreadyInWishlist
  | wishlistItemNotFound   (* 'Wishlist item not found' *)
  | wishlistItemRemoved    (* 'Item removed from wishlist' *)
  | cannotDeleteCategory (productCount : nat)
                           (* 'Cannot delete category. It has n products.' *)
  | categoryNotFound       (* 'Category not found' *)
  | categoryDeleted        (* 'Category deleted successfully' *)
  | invalidMainImage
  | failedToCreateOrder.   (* 'Failed to create order' *)

Inductive Body :=
  | message (m : Message)
  | couponBody (coupon : Coupon.t) (discountAmount : Q)
  | orderBody (o : Order.t)
  | cartBody (it : Cart.t)
  | wishlistBody (w : Wishlist.t)
  | productBody (p : Product.t)
  | categoryBody (c : Category.t)
  | categoriesBody (l : list Category.t).

Record Response := respond { status : nat; body : Body }.

(** ** Coupon validation and order creation *)

(** [POST /api/coupons/validate] with body [{ code, totalAmount }]. *)
Definition postCouponsValidate (db : DB) (now : Z) (code : string)
    (totalAmount : Q) : DB * Response :=
  match findOne (Coupon.activeWithCode (toUpperCase code)) (coupons db) with
  | None => (db, respond 404 (message invalidCoupon))
  | Some (_, coupon) =>
      match Coupon.calculateDiscount coupon now totalAmount with
      | Coupon.error r => (db, respond 400 (message (couponRejected r)))
      | Coupon.discount d => (db, respond 200 (couponBody coupon d))
      end
  end.

Module OrderReq.
Record t := mk {
  items : list Order.Item;
  couponCode : option string;
  deliveryFee : option Q;
  userId : option string
}.
End OrderReq.

(** [items.reduce((sum, item) => sum + (item.price * item.quantity), 0)] *)
Definition itemsSubtotal (items : list Order.Item) : Q :=
  sumQ (λ item, Order.price item * inject_Z (Order.quantity item))%Q items.

(** The coupon block of [POST /api/orders]: the database after it and the
    [couponDiscount] it leaves, which starts at 0. *)
Definition applyCoupon (db : DB) (now : Z) (couponCode : string)
    (items : list Order.Item) : DB * Q :=
  if truthyS couponCode then
    match findOne (Coupon.activeWithCode (toUpperCase couponCode))
                  (coupons db) with
    | Some (i, coupon) =>
        let subtotal := itemsSubtotal items in
        match Coupon.calculateDiscount coupon now subtotal with
        | Coupon.discount d =>
            (setCoupons db (<[ i := Coupon.use coupon ]> (coupons db)), d)
        | Coupon.error _ => (db, 0%Q)
        end
    | None => (db, 0%Q)
    end
  else (db, 0%Q).

(** [POST /api/orders].  [order] is the document that [order.save()]
    stores, with its derived totals, and [validate] stands for the schema
    validation that the save runs: [models/Order.js] is not among the
    sources.  When it fails the handler answers 500, after the coupon has
    been saved. *)
Definition postOrders (validate : Order.t → bool) (db : DB) (now : Z)
    (req : OrderReq.t) : DB * Response :=
  let code := orElseS (OrderReq.couponCode req) "" in
  let '(db1, couponDiscount) := applyCoupon db now code (OrderReq.items req) in
  let order :=
    Order.derive
      (Order.mk (OrderReq.items req) None
                (default 0%Q (OrderReq.deliveryFee req))
                None code couponDiscount None) in
  if validate order then
    let db2 := setOrders db1 (orders db1 ++ [order]) in
    let user := orElseS (OrderReq.userId req) "guest" in
    let db3 :=
      setCarts db2
        (List.filter (λ it, negb (bool_decide (Cart.userId it = user)))
                     (carts db2)) in
    (db3, respond 201 (orderBody order))
  else (db1, respond 500 (message failedToCreateOrder)).

Module CheckoutReq.
(** [appliedCoupon] is [appliedCoupon.code] when the request carries an
    applied coupon. *)
Record t := mk {
  items : list Order.Item;
  total : option Q;
  subtotal : option Q;
  deliveryFee : option Q;
  couponDiscount : option Q;
  appliedCoupon : option string;
  userId : option string
}.
End CheckoutReq.

(** The [items.map] of the checkout handler. *)
Definition orderItem (item : Order.Item) : Order.Item :=
  Order.mkItem (Order.productId item)
    (orElseQ (Some (Order.price item)) 0)
    (orElseZ (Order.quantity item) 1)
    (Some (orElseQ (Order.totalPrice item)
             (Order.price item * inject_Z (Order.quantity item)))).

(** [orderItems.reduce((sum, item) => sum + item.totalPrice, 0)]; every
    order item built by [orderItem] has a [totalPrice]. *)
Definition totalPrices (orderItems : list Order.Item) : Q :=
  sumQ (λ item, default 0%Q (Order.totalPrice item)) orderItems.

Definition orderSubtotal (req : CheckoutReq.t) : Q :=
  orElseQ (CheckoutReq.subtotal req)
          (totalPrices (map orderItem (CheckoutReq.items req))).
Definition orderDeliveryFee (req : CheckoutReq.t) : Q :=
  orElseQ (CheckoutReq.deliveryFee req) 0.
Definition orderCouponDiscount (req : CheckoutReq.t) : Q :=
  orElseQ (CheckoutReq.couponDiscount req) 0.
Definition orderTotal (req : CheckoutReq.t) : Q :=
  orElseQ (CheckoutReq.total req)
          (orderSubtotal req + orderDeliveryFee req - orderCouponDiscount req).

(** [POST /api/checkout]: the handler takes the totals from the request,
    with computed fall-backs, and does not consult the coupon collection;
    [order] is the document that [order.save()] stores, with its derived
    totals. *)
Definition postCheckout (validate : Order.t → bool) (db : DB)
    (req : CheckoutReq.t) : DB * Response :=
  let orderItems := map orderItem (CheckoutReq.items req) in
  let couponCode := orElseS (CheckoutReq.appliedCoupon req) "" in
  let order :=
    Order.derive
      (Order.mk orderItems (Some (orderSubtotal req)) (orderDeliveryFee req)
                (Some (orderTotal req)) couponCode (orderCouponDiscount req)
                (Some (orElseS (CheckoutReq.userId req) "guest"))) in
  if validate order then
    (setOrders db (orders db ++ [order]), respond 201 (orderBody order))
  else (db, respond 500 (message failedToCreateOrder)).

(** ** Cart *)


(** The product search of the two add-to-cart handlers: by numeric [id]
    when the identifier reads as a number, then by [_id], then by a scan of
    all products comparing [id] strictly and [_id] as strings. *)
Definition findProduct (l : list Product.t) (productId : ReqId)
  : option Product.t :=
  let first :=
    match productId with
    | numId n => snd <$> findOne (λ p, Z.eqb (Product.id p) n) l
    | strId _ => None
    end in
  match first with
  | Some product => Some product
  | None =>
      let second :=
        match productId with
        | numId _ => None      (* the cast to an ObjectId throws, caught *)
        | strId s => snd <$> findOne (λ p, String.eqb (Product.oid p) s) l
        end in
      match second with
      | Some product => Some product
      | None =>
          snd <$> findOne
            (λ p, match productId with
                  | numId n => Z.eqb (Product.id p) n
                               || String.eqb (Product.oid p) (pretty n)
                  | strId s => String.eqb (Product.oid p) s
                  end) l
      end
  end.

Module CartReq.
(** The body of an add-to-cart request.  [userId], [productName], [price]
    and [image] are read by [POST /api/cart] only. *)
Record t := mk {
  userId : option string;
  productId : ReqId;
  productName : option string;
  price : option Q;
  quantity : option Z;
  image : option string;
  selectedOptions : option Cart.Options;
  optionsPricing : option (gmap string Q);
  attachments : option Cart.Attachments
}.
End CartReq.

(** The body shared by [POST /api/cart] and [POST /api/user/:userId/cart],
    which differ in where [userId] comes from. *)
Definition addToCart (db : DB) (userId : string) (req : CartReq.t)
  : DB * Response :=
  let quantity := default 1%Z (CartReq.quantity req) in
  let selectedOptions := default [] (CartReq.selectedOptions req) in
  let optionsPricing := default ∅ (CartReq.optionsPricing req) in
  let attachments := default Cart.noAttachments (CartReq.attachments req) in
  match findProduct (products db) (CartReq.productId req) with
  | None => (db, respond 404 (message productNotFound))
  | Some product =>
      match findOne (Cart.sameLine userId (Product.id product) selectedOptions)
                    (carts db) with
      | Some (i, existingItem) =>
          let saved := Cart.merge existingItem quantity attachments in
          (setCarts db (<[ i := saved ]> (carts db)),
           respond 200 (cartBody saved))
      | None =>
          let cartItem :=
            Cart.mk userId (Product.id product) (Product.name product)
                    (Product.price product) quantity
                    (Product.mainImage product)
                    selectedOptions optionsPricing attachments in
          (setCarts db (carts db ++ [cartItem]),
           respond 201 (cartBody cartItem))
      end
  end.

(** [POST /api/cart] *)
Definition postCart (db : DB) (req : CartReq.t) : DB * Response :=
  addToCart db (default "guest" (CartReq.userId req)) req.

(** [POST /api/user/:userId/cart] *)
Definition postUserCart (db : DB) (userId : string) (req : CartReq.t)
  : DB * Response :=
  addToCart db userId req.

(** ** Wishlist *)

Module WishlistReq.
Record t := mk {
  userId : option string;
  productId : Z;
  productName : string;
  price : Q;
  image : option string
}.
End WishlistReq.

(** [POST /api/wishlist] *)
Definition postWishlist (db : DB) (req : WishlistReq.t) : DB * Response :=
  let userId := default "guest" (WishlistReq.userId req) in
  let productId := WishlistReq.productId req in
  match findOne (Wishlist.sameEntry userId productId) (wishlists db) with
  | Some _ => (db, respond 400 (message alreadyInWishlist))
  | None =>
      let wishlistItem :=
        Wishlist.mk (Wishlist.nextId (wishlists db)) userId productId
                    (WishlistReq.productName req) (WishlistReq.price req)
                    (default "" (WishlistReq.image req)) in
      (setWishlists db (wishlists db ++ [wishlistItem]),
       respond 201 (wishlistBody wishlistItem))
  end.

(** [POST /api/user/:userId/wishlist] with body [{ productId }]. *)
Definition postUserWishlist (db : DB) (userId : string) (productId : Z)
  : DB * Response :=
  match findOne (λ p, Z.eqb (Product.id p) productId) (products db) with
  | None => (db, respond 404 (message productNotFound))
  | Some (_, product) =>
      match findOne (Wishlist.sameEntry userId productId) (wishlists db) with
      | Some _ => (db, respond 400 (message alreadyInWishlist))
      | None =>
          let wishlistItem :=
            Wishlist.mk (Wishlist.nextId (wishlists db)) userId productId
                        (Product.name product) (Product.price product)
                        (Product.mainImage product) in
          (setWishlists db (wishlists db ++ [wishlistItem]),
           respond 201 (wishlistBody wishlistItem))
      end
  end.

(** [DELETE /api/wishlist/:id] *)
Definition deleteWishlist (db : DB) (id : Z) : DB * Response :=
  match findOneAndDelete (λ w, Z.eqb (Wishlist.id w) id) (wishlists db) with
  | None => (db, respond 404 (message wishlistItemNotFound))
  | Some (l, _) => (setWishlists db l, respond 200 (message wishlistItemRemoved))
  end.

(** [DELETE /api/user/:userId/wishlist/product/:productId] *)
Definition deleteUserWishlist (db : DB) (userId : string) (productId : Z)
  : DB * Response :=
  match findOneAndDelete (Wishlist.sameEntry userId productId)
                         (wishlists db) with
  | None => (db, respond 404 (message wishlistItemNotFound))
  | Some (l, _) => (setWishlists db l, respond 200 (message wishlistItemRemoved))
  end.

(** ** Categories *)

(** Newest first: the order of [sort({ createdAt: -1 })]. *)
Definition newerFirst (a b : Category.t) : Prop :=
  (Category.createdAt b ≤ Category.createdAt a)%Z.

#[local] Instance newerFirst_dec : RelDecision newerFirst :=
  λ a b, decide (Category.createdAt b ≤ Category.createdAt a)%Z.

(** [GET /api/categories] *)
Definition getCategories (db : DB) : Response :=
  respond 200
    (categoriesBody
       (merge_sort newerFirst (List.filter Category.isActive (categories db)))).

(** [GET /api/categories/:id] *)
Definition getCategory (db : DB) (id : Z) : Response :=
  match findOne (λ c, Z.eqb (Category.id c) id && Category.isActive c)
                (categories db) with
  | None => respond 404 (message categoryNotFound)
  | Some (_, category) => respond 200 (categoryBody category)
  end.

(** [DELETE /api/categories/:id] *)
Definition deleteCategory (db : DB) (categoryId : Z) : DB * Response :=
  let productCount :=
    countDocuments
      (λ p, Z.eqb (Product.categoryId p) categoryId && Product.isActive p)
      (products db) in
  if Nat.ltb 0 productCount then
    (db, respond 400 (message (cannotDeleteCategory productCount)))
  else
    match findOneAndUpdate (λ c, Z.eqb (Category.id c) categoryId)
                           Category.deactivate (categories db) with
    | None => (db, respond 404 (message categoryNotFound))
    | Some (l, _) => (setCategories db l, respond 200 (message categoryDeleted))
    end.

(** ** Product update *)

(** [/^data:image\/(jpeg|jpg|png|gif|webp|avif);base64,/.test(s)] *)
Definition isValidBase64Image (base64String : string) : bool :=
  existsb (λ ty, String.prefix ("data:image/" +:+ ty +:+ ";base64,")
                               base64String)
          ["jpeg"; "jpg"; "png"; "gif"; "webp"; "avif"].

Definition optimizeBase64Image (base64String : string) : option string :=
  if isValidBase64Image base64String then Some base64String else None.

Module ProductReq.
Record t := mk {
  name : string;
  description : option string;
  price : Q;
  originalPrice : option Q;
  stock : Z;
  categoryId : Z;
  mainImage : option string
}.
End ProductReq.

(** What the request does to the main image: [None] is the 400 answer,
    [Some None] leaves the stored image, [Some (Some s)] replaces it. *)
Definition mainImageUpdate (req : ProductReq.t) : option (option string) :=
  match ProductReq.mainImage req with
  | Some img =>
      if truthyS img then
        if isValidBase64Image img then
          Some (match optimizeBase64Image img with
                | Some optimized => if truthyS optimized then Some optimized
                                    else None
                | None => None
                end)
        else None
      else Some None
  | None => Some None
  end.

(** The [updateData] of [PUT /api/products/:id], as the update stores it:
    the schema trims the name, the description and the main image. *)
Definition updateData (req : ProductReq.t) (img : option string)
    (p : Product.t) : Product.t :=
  Product.mk (Product.id p) (Product.oid p)
    (trim (ProductReq.name req))
    (trim (orElseS (ProductReq.description req) ""))
    (ProductReq.price req)
    (match ProductReq.originalPrice req with
     | Some o => if Qle_bool o 0 then None else Some o
     | None => None
     end)
    (orElseZ (ProductReq.stock req) 0)
    (ProductReq.categoryId req)
    (default (Product.mainImage p) (trim <$> img))
    (Product.isActive p).

(** [PUT /api/products/:id] *)
Definition putProduct (db : DB) (id : Z) (req : ProductReq.t)
  : DB * Response :=
  match mainImageUpdate req with
  | None => (db, respond 400 (message invalidMainImage))
  | Some img =>
      match findOneAndUpdate (λ p, Z.eqb (Product.id p) id)
                             (updateData req img) (products db) with
      | None => (db, respond 404 (message productNotFound))
      | Some (l, product) => (setProducts db l, respond 200 (productBody product))
      end
  end.

(** ** The server *)

(** The requests modelled above. *)
Inductive Request :=
  | PostCouponsValidate (now : Z) (code : string) (totalAmount : Q)
  | PostOrders (now : Z) (req : OrderReq.t)
  | PostCheckout (req : CheckoutReq.t)
  | PostCart (req : CartReq.t)
  | PostUserCart (userId : string) (req : CartReq.t)
  | PostWishlist (req : WishlistReq.t)
  | PostUserWishlist (userId : string) (productId : Z)
  | DeleteWishlist (id : Z)
  | DeleteUserWishlist (userId : string) (productId : Z)
  | DeleteCategory (id : Z)
  | PutProduct (id : Z) (req : ProductReq.t).

Definition handle (validate : Order.t → bool) (db : DB) (r : Request)
  : DB * Response :=
  match r with
  | PostCouponsValidate now code totalAmount =>
      postCouponsValidate db now code totalAmount
  | PostOrders now req => postOrders validate db now req
  | PostCheckout req => postCheckout validate db req
  | PostCart req => postCart db req
  | PostUserCart userId req => postUserCart db userId req
  | PostWishlist req => postWishlist db req
  | PostUserWishlist userId productId => postUserWishlist db userId productId
  | DeleteWishlist id => deleteWishlist db id
  | DeleteUserWishlist userId productId =>
      deleteUserWishlist db userId productId
  | DeleteCategory id => deleteCategory db id
  | PutProduct id req => putProduct db id req
  end.

(** The database after a sequence of requests, served one after the
    other. *)
Definition run (validate : Order.t → bool) (db : DB) (rs : list Request)
  : DB :=
  fold_left (λ db r, (handle validate db r).1) rs db.

(** ** Sample data *)

Module Sample.

Definition save30 : Coupon.t :=
  Coupon.mk "SAVE30" Coupon.fixed 30 50 None 0 true None eq_refl.
Definition big150 : Coupon.t :=
  Coupon.mk "BIG150" Coupon.percentage 150 0 None 0 true None eq_refl.
Definition ten : Coupon.t :=
  Coupon.mk "TEN" Coupon.percentage 10 0 (Some 5%Z) 2 true (Some 1000%Z)
            eq_refl.
(** Active, used up, and expired at time 10. *)
Definition stale : Coupon.t :=
  Coupon.mk "STALE" Coupon.fixed 5 0 (Some 3%Z) 3 true (Some 10%Z) eq_refl.
(** Used up and switched off. *)
Definition retired : Coupon.t :=
  Coupon.mk "RETIRED" Coupon.fixed 5 0 (Some 3%Z) 3 false None eq_refl.

Definition gown : Product.t :=
  Product.mk 1 "64b7f0c2a1d3e4f5a6b7c8d9" "Gown" "Graduation gown" 250
             (Some 300%Q) 10 1 "/images/gown.jpg" true.
Definition chair : Product.t :=
  Product.mk 17 "64b7f0c2a1d3e4f5a6b7c8da" "Chair" "Child chair" 350
             (Some 500%Q) 25 2 "/images/chair.jpg" true.

Definition robes : Category.t :=
  Category.mk 1 "Robes" "" "" true None 0 None None 100.
Definition kids : Category.t :=
  Category.mk 2 "Kids" "" "" true None 0 None None 200.
Definition caps : Category.t :=
  Category.mk 3 "Caps" "" "" true None 0 None None 300.

Definition sizeM : Cart.Options := [("size", "M")].
Definition sizeL : Cart.Options := [("size", "L")].
(** The same two options, in the one order and in the other. *)
Definition sizeColor : Cart.Options := [("size", "M"); ("color", "red")].
Definition colorSize : Cart.Options := [("color", "red"); ("size", "M")].

Definition db0 : DB :=
  mkDB [gown; chair] [robes; kids; caps]
       [save30; big150; ten; stale; retired] [] [] [].

Definition accept : Order.t → bool := λ _, true.

Definition line (price : Q) (quantity : Z) : Order.Item :=
  Order.mkItem 1 price quantity None.

Definition addGown (o : Cart.Options) (q : Z) : CartReq.t :=
  CartReq.mk None (numId 1) (Some "Forged name") (Some 1%Q) (Some q)
             (Some "forged.png") (Some o) None None.

Definition order100 : OrderReq.t :=
  OrderReq.mk [line 100 1] (Some "save30") None None.
Definition order40 : OrderReq.t :=
  OrderReq.mk [line 40 1] (Some "save30") None None.
(** A checkout that claims a discount of 999 under the coupon SAVE30. *)
Definition checkout999 : CheckoutReq.t :=
  CheckoutReq.mk [line 100 1] None None None (Some 999%Q) (Some "SAVE30")
                 None.

(** A cart line whose product is not in the catalog. *)
Definition orphanLine : Cart.t :=
  Cart.mk "guest" 99 "Ghost" 10 1 "" [] ∅ Cart.noAttachments.
Definition dbOrphan : DB := setCarts db0 [orphanLine].
Definition addGhost : CartReq.t :=
  CartReq.mk None (numId 99) None None (Some 2%Z) None None None None.

(** The gown renamed and repriced. *)
Definition reprice : ProductReq.t :=
  ProductReq.mk "Gown 2" None 999 None 10 1 None.

(** A wish for product 99, which is not in the catalog. *)
Definition wishGhost : WishlistReq.t :=
  WishlistReq.mk (Some "u1") 99 "Ghost" 10 None.
Definition dbWish : DB := (postWishlist db0 wishGhost).1.

End Sample.

(** ** Statements

    The predicates the properties below are stated with: the conditions of
    the handlers, and the claims of the specification at one input. *)

Definition expiredAt (c : Coupon.t) (now : Z) : Prop :=
  ∃ e, Coupon.expiresAt c = Some e ∧ (e < now)%Z.

Definition usedUp (c : Coupon.t) : Prop :=
  ∃ m, Coupon.maxUsage c = Some m ∧ (m ≤ Coupon.usedCount c)%Z.

(** The code names an active coupon, at position [i] of the collection,
    that accepts the items' subtotal and grants [d]. *)
Definition couponAccepted (db : DB) (now : Z) (code : string)
    (items : list Order.Item) (i : nat) (coupon : Coupon.t) (d : Q) : Prop :=
  truthyS code = true
  ∧ findOne (Coupon.activeWithCode (toUpperCase code)) (coupons db)
    = Some (i, coupon)
  ∧ Coupon.calculateDiscount coupon now (itemsSubtotal items)
    = Coupon.discount d.

(** No code, or a code that names no active coupon, or a coupon that
    rejects the items' subtotal. *)
Definition couponUnused (db : DB) (now : Z) (code : string)
    (items : list Order.Item) : Prop :=
  truthyS code = false
  ∨ findOne (Coupon.activeWithCode (toUpperCase code)) (coupons db) = None
  ∨ ∃ i coupon r,
      findOne (Coupon.activeWithCode (toUpperCase code)) (coupons db)
      = Some (i, coupon)
      ∧ Coupon.calculateDiscount coupon now (itemsSubtotal items)
        = Coupon.error r.

(** The claim C3 at one run of an order path: the coupon document whose
    code the order carries has its [usedCount] one higher afterwards. *)
Definition usedCount_incremented (before after : DB) (code : string) : Prop :=
  ∃ i c c',
    findOne (λ c, bool_decide (Coupon.code c = toUpperCase code))
            (coupons before) = Some (i, c)
    ∧ coupons after !! i = Some c'
    ∧ Coupon.usedCount c' = (Coupon.usedCount c + 1)%Z.

(** The order stored by [POST /api/orders]. *)
Definition orderOf (db : DB) (now : Z) (req : OrderReq.t) : Order.t :=
  let code := orElseS (OrderReq.couponCode req) "" in
  Order.derive
    (Order.mk (OrderReq.items req) None
              (default 0%Q (OrderReq.deliveryFee req))
              None code (applyCoupon db now code (OrderReq.items req)).2 None).

(** The claim C4 at one stored order: its [couponDiscount] is what the
    calculator grants, at [subtotal], for the coupon whose code it
    carries. *)
Definition discount_recomputed (db : DB) (now : Z) (subtotal : Q)
    (o : Order.t) : Prop :=
  ∀ i coupon d,
    findOne (Coupon.activeWithCode (toUpperCase (Order.couponCode o)))
            (coupons db) = Some (i, coupon) →
    Coupon.calculateDiscount coupon now subtotal = Coupon.discount d →
    Order.couponDiscount o == d.

(** The claim C5 at one stored order. *)
Definition total_as_claimed (o : Order.t) : Prop :=
  ∃ s t,
    Order.subtotal o = Some s ∧ Order.total o = Some t
    ∧ t == Qmax 0 (s + Order.deliveryFee o - Order.couponDiscount o)
    ∧ (0 <= t)%Q
    ∧ (Order.deliveryFee o == 0 → (s < Order.couponDiscount o)%Q → t == 0).

(** The claim C6 at one answer: it carries the rejection [r]. *)
Definition rejection_reported (resp : Response) (r : Coupon.Rejection)
  : Prop :=
  status resp = 400%nat ∧ body resp = message (couponRejected r).

(** The match of the claim C7: the user, the product, and selected options
    that are the same mapping from option names to values. *)
Definition sameTuple (u : string) (p : Z) (o : Cart.Options) (it : Cart.t)
  : Prop :=
  Cart.userId it = u ∧ Cart.productId it = p
  ∧ Cart.mapping (Cart.selectedOptions it) = Cart.mapping o.

(** The first part of the claim C7 at one request: when a line matches the
    tuple, no row is created and a matching line has its quantity raised
    by the incoming quantity. *)
Definition merged_as_claimed (db : DB) (userId : string) (productId : Z)
    (req : CartReq.t) (after : DB) : Prop :=
  let o := default [] (CartReq.selectedOptions req) in
  (∃ it, it ∈ carts db ∧ sameTuple userId productId o it) →
  length (carts after) = length (carts db)
  ∧ ∃ i it it',
      carts db !! i = Some it ∧ sameTuple userId productId o it
      ∧ carts after !! i = Some it'
      ∧ Cart.quantity it'
        = (Cart.quantity it + default 1 (CartReq.quantity req))%Z.

(** The second part: with no matching line, a line is added. *)
Definition added_as_claimed (db : DB) (userId : string) (productId : Z)
    (req : CartReq.t) (after : DB) : Prop :=
  (∀ it, it ∈ carts db →
         ¬ sameTuple userId productId
             (default [] (CartReq.selectedOptions req)) it) →
  ∃ it, carts after = carts db ++ [it].

(** The request with other [productName], [price] and [image] fields. *)
Definition withBody (req : CartReq.t) (n : option string) (p : option Q)
    (img : option string) : CartReq.t :=
  CartReq.mk (CartReq.userId req) (CartReq.productId req) n p
             (CartReq.quantity req) img (CartReq.selectedOptions req)
             (CartReq.optionsPricing req) (CartReq.attachments req).

(** At most one entry per user and product. *)
Definition uniqueEntries (l : list Wishlist.t) : Prop :=
  NoDup (map (λ w, (Wishlist.userId w, Wishlist.productId w)) l).

(** The claim C9 at one answer to a request whose pair has an entry. *)
Definition duplicate_rejected (before after : DB) (resp : Response) : Prop :=
  status resp = 400%nat ∧ wishlists after = wishlists before.

(** The categories that [GET /api/categories] answers with. *)
Definition listed (db : DB) : list Category.t :=
  match body (getCategories db) with
  | categoriesBody l => l
  | _ => []
  end.

(** ** Further handlers and model methods *)

(** The answer of a handler below: the status with the JSON sent, or with
    the [message] of a refusal. *)
Inductive Reply (A : Type) :=
  | sent (status : nat) (json : A)
  | refused (status : nat) (message : string).

Arguments sent {A} status json.
Arguments refused {A} status message.

Definition statusOf {A} (r : Reply A) : nat :=
  match r with sent s _ => s | refused s _ => s end.

(** *** Images *)

(** The main-image block shared by [PUT /api/categories/:id] and
    [PUT /api/products/:id]: [None] is the 400 answer, [Some None] leaves
    the stored image, [Some (Some s)] replaces it. *)
Definition imageUpdate (mainImage : option string) : option (option string) :=
  match mainImage with
  | Some img =>
      if truthyS img then
        if isValidBase64Image img then
          Some (match optimizeBase64Image img with
                | Some optimized => if truthyS optimized then Some optimized
                                    else None
                | None => None
                end)
        else None
      else Some None
  | None => Some None
  end.

(** *** Products *)

(** [GET /api/products/:id] *)
Definition getProduct (db : DB) (id : Z) : Reply Product.t :=
  match findOne (λ p, Z.eqb (Product.id p) id && Product.isActive p)
                (products db) with
  | None => refused 404 "Product not found"
  | Some (_, product) => sent 200 product
  end.

(** The update document [{ isActive: false }] on a product. *)
Definition deactivateProduct (p : Product.t) : Product.t :=
  Product.mk (Product.id p) (Product.oid p) (Product.name p)
    (Product.description p) (Product.price p) (Product.originalPrice p)
    (Product.stock p) (Product.categoryId p) (Product.mainImage p) false.

(** [DELETE /api/products/:id] *)
Definition deleteProduct (db : DB) (id : Z) : DB * Reply string :=
  match findOneAndUpdate (λ p, Z.eqb (Product.id p) id) deactivateProduct
                         (products db) with
  | None => (db, refused 404 "Product not found")
  | Some (l, _) => (setProducts db l, sent 200 "Product deleted successfully")
  end.

Module ProductOption.

(** An entry of [options] and a dynamic option of the product schema. *)
Record Choice := mkChoice { value : string; label : string; price : Q }.

Record t := mk {
  optionName : string;
  optionType : string;
  required : bool;
  options : list Choice
}.

End ProductOption.

(** The method [getCalculatedPrice] of the product schema, on the product's
    [price] and [dynamicOptions]: each option whose selected value names
    one of its choices adds that choice's price, when it is not zero. *)
Definition getCalculatedPrice (price : Q)
    (dynamicOptions : list ProductOption.t)
    (selectedOptions : gmap string string) : Q :=
  fold_left
    (λ totalPrice option,
       match selectedOptions !! ProductOption.optionName option with
       | Some selectedValue =>
           if truthyS selectedValue then
             match List.find (λ opt, String.eqb (ProductOption.value opt)
                                                selectedValue)
                             (ProductOption.options option) with
             | Some selectedOption =>
                 if Qeq_bool (ProductOption.price selectedOption) 0
                 then totalPrice
                 else (totalPrice + ProductOption.price selectedOption)%Q
             | None => totalPrice
             end
           else totalPrice
       | None => totalPrice
       end)
    dynamicOptions price.

(** *** Categories *)

Module CategoryReq.
Record t := mk {
  name : string;
  description : option string;
  mainImage : option string
}.
End CategoryReq.

(** The [updateData] of [PUT /api/categories/:id], as the update stores
    it: the schema trims the name, the description and the image. *)
Definition categoryUpdate (req : CategoryReq.t) (img : option string)
    (c : Category.t) : Category.t :=
  Category.mk (Category.id c) (trim (CategoryReq.name req))
    (trim (orElseS (CategoryReq.description req) ""))
    (default (Category.image c) (trim <$> img))
    (Category.isActive c) (Category.parentId c) (Category.order c)
    (Category.seoTitle c) (Category.seoDescription c) (Category.createdAt c).

(** [PUT /api/categories/:id] *)
Definition putCategory (db : DB) (id : Z) (req : CategoryReq.t)
  : DB * Reply Category.t :=
  match imageUpdate (CategoryReq.mainImage req) with
  | None => (db, refused 400 "صورة غير صحيحة")
  | Some img =>
      match findOneAndUpdate (λ c, Z.eqb (Category.id c) id)
                             (categoryUpdate req img) (categories db) with
      | None => (db, refused 404 "Category not found")
      | Some (l, category) => (setCategories db l, sent 200 category)
      end
  end.

(** *** Identifiers *)

(** [findOne().sort({ id: -1 })], on the identifiers: the greatest one. *)
Definition lastId (ids : list Z) : option Z :=
  foldr (λ i m, Some (match m with Some j => Z.max i j | None => i end))
        None ids.

(** [lastCustomer ? lastCustomer.id + 1 : 1], the identifier that the
    pre-save hook of a schema gives a new document without one. *)
Definition nextIdAfter (ids : list Z) : Z :=
  match lastId ids with Some m => (m + 1)%Z | None => 1%Z end.

(** *** Customers: the one-time code *)

Module Customer.

Record Otp := mkOtp { code : string; expiresAt : Z }.

Inductive Status := active | inactive.

(** The customer schema of [models/Customer.js]; dates are in
    milliseconds. *)
Record t := mk {
  id : Z;
  email : string;
  phone : string;
  name : string;
  city : string;
  totalOrders : Z;
  totalSpent : Q;
  status : Status;
  otp : option Otp
}.

Definition setOtp (c : t) (o : option Otp) : t :=
  mk (id c) (email c) (phone c) (name c) (city c) (totalOrders c)
     (totalSpent c) (status c) o.

(** [Math.floor(1000 + Math.random() * 9000)], for the value [random] of
    [Math.random()]. *)
Definition otpNumber (random : Q) : Z := Qfloor (1000 + random * 9000).

(** The time zone of the host, as the two conversions of ECMAScript
    between a time value and the local time value: [LocalTime] and
    [UTC]. *)
Record Zone := mkZone { LocalTime : Z → Z; UTC : Z → Z }.

(** A zone at a fixed offset from UTC. *)
Definition fixedZone (offset : Z) : Zone :=
  mkZone (λ t, t + offset)%Z (λ t, t - offset)%Z.

(** A zone one hour ahead of UTC until [back], when its clocks go back by
    that hour; a local time that occurs twice is read as the first of the
    two. *)
Definition fallBackZone (back : Z) : Zone :=
  mkZone (λ t, if Z.ltb t back then t + 3600000 else t)%Z
         (λ l, if Z.ltb l (back + 3600000) then l - 3600000 else l)%Z.

(** The method [generateOTP] at time [now]: the code returned and the
    customer.  [expiresAt.setMinutes(expiresAt.getMinutes() + 10)] adds
    the ten minutes to the local time and converts the result back. *)
Definition generateOTP (zone : Zone) (c : t) (random : Q) (now : Z)
  : string * t :=
  let otp := pretty (otpNumber random) in
  let expiresAt := UTC zone (LocalTime zone now + 10 * 60000)%Z in
  (otp, setOtp c (Some (mkOtp otp expiresAt))).

(** The method [verifyOTP] at time [now]: [{ valid, message }] and the
    customer afterwards. *)
Definition verifyOTP (c : t) (now : Z) (inputOTP : string)
  : (bool * string) * t :=
  match otp c with
  | None => ((false, "لم يتم إرسال كود التحقق"), c)
  | Some o =>
      if negb (truthyS (code o)) then
        ((false, "لم يتم إرسال كود التحقق"), c)
      else if Z.ltb (expiresAt o) now then
        ((false, "انتهت صلاحية كود التحقق"), c)
      else if negb (String.eqb (code o) inputOTP) then
        ((false, "كود التحقق غير صحيح"), c)
      else ((true, "تم التحقق بنجاح"), setOtp c None)
  end.

End Customer.

(** *** Wishlist and cart: the other routes *)

(** [GET /api/user/:userId/wishlist/check/:productId]: [!!item]. *)
Definition getUserWishlistCheck (db : DB) (userId : string) (productId : Z)
  : bool :=
  match findOne (Wishlist.sameEntry userId productId) (wishlists db) with
  | Some _ => true
  | None => false
  end.

(** [GET /api/wishlist/check/:productId], with the query's [userId]. *)
Definition getWishlistCheck (db : DB) (userId : option string)
    (productId : Z) : bool :=
  getUserWishlistCheck db (orElseS userId "guest") productId.

(** [DELETE /api/cart] and [DELETE /api/user/:userId/cart]:
    [Cart.deleteMany({ userId })]. *)
Definition deleteUserCart (db : DB) (userId : string) : DB * Reply string :=
  (setCarts db
     (List.filter (λ it, negb (bool_decide (Cart.userId it = userId)))
                  (carts db)),
   sent 200 "Cart cleared successfully").

Definition deleteCart (db : DB) (userId : option string) : DB * Reply string :=
  deleteUserCart db (orElseS userId "guest").

(** The filter [{ userId, productId }] on cart lines. *)
Definition sameProduct (u : string) (p : Z) (it : Cart.t) : bool :=
  bool_decide (Cart.userId it = u) && Z.eqb (Cart.productId it) p.

(** [DELETE /api/user/:userId/cart/product/:productId] *)
Definition deleteUserCartProduct (db : DB) (userId : string) (productId : Z)
  : DB * Reply string :=
  match findOneAndDelete (sameProduct userId productId) (carts db) with
  | None => (db, refused 404 "Cart item not found")
  | Some (l, _) => (setCarts db l, sent 200 "Item removed from cart")
  end.

(** *** Cart migration *)

#[local] Instance Q_eq_dec : EqDecision Q := ltac:(solve_decision).
#[local] Instance Attachments_eq_dec : EqDecision Cart.Attachments :=
  ltac:(solve_decision).
#[local] Instance Cart_eq_dec : EqDecision Cart.t := ltac:(solve_decision).

(** [Cart.deleteOne({ _id: guestItem._id })].  Cart lines carry no [_id]
    here: the line deleted is the first one equal to [guestItem] in every
    field.  The loop takes the guest lines in the order of the collection,
    so that this first line is the guest line at hand
    ([deleteOne_first_guest]). *)
Definition deleteOne (guestItem : Cart.t) (l : list Cart.t) : list Cart.t :=
  match list_find (λ it, it = guestItem) l with
  | Some (i, _) => delete i l
  | None => l
  end.

(** The line created for the user from a guest line. *)
Definition newUserItem (userId : string) (guestItem : Cart.t) : Cart.t :=
  Cart.mk userId (Cart.productId guestItem) (Cart.productName guestItem)
    (Cart.price guestItem) (Cart.quantity guestItem) (Cart.image guestItem)
    (Cart.selectedOptions guestItem) (Cart.optionsPricing guestItem)
    (Cart.attachments guestItem).

(** One round of the loop of [POST /api/migrate-cart]: the cart
    collection, [migratedCount] and [mergedCount] after the guest line
    [guestItem]. *)
Definition migrateItem (userId : string) (st : list Cart.t * nat * nat)
    (guestItem : Cart.t) : list Cart.t * nat * nat :=
  let '(l, migratedCount, mergedCount) := st in
  match findOne (Cart.sameLine userId (Cart.productId guestItem)
                   (Cart.selectedOptions guestItem)) l with
  | Some (i, existingUserItem) =>
      (deleteOne guestItem
         (<[ i := Cart.merge existingUserItem (Cart.quantity guestItem)
                    (Cart.attachments guestItem) ]> l),
       migratedCount, S mergedCount)
  | None =>
      (deleteOne guestItem (l ++ [newUserItem userId guestItem]),
       S migratedCount, mergedCount)
  end.

Definition isGuest (it : Cart.t) : bool :=
  bool_decide (Cart.userId it = "guest").

(** [POST /api/migrate-cart] with body [{ userId }]; the answer carries
    [migratedCount] and [mergedCount], and [migratedCount] only when there
    is no guest line.  Saving a cart line succeeds, as in [addToCart]. *)
Definition postMigrateCart (db : DB) (userId : option string)
  : DB * Reply (nat * option nat) :=
  let user := orElseS userId "" in
  if negb (truthyS user) || String.eqb user "guest" then
    (db, refused 400 "Valid user ID is required")
  else
    let guestCartItems := List.filter isGuest (carts db) in
    match guestCartItems with
    | [] => (db, sent 200 (0%nat, None))
    | _ =>
        let '(l, migratedCount, mergedCount) :=
          fold_left (migrateItem user) guestCartItems
                    (carts db, 0%nat, 0%nat) in
        (setCarts db l, sent 200 (migratedCount, Some mergedCount))
    end.

(** The sum of the quantities of cart lines. *)
Definition totalQuantity (l : list Cart.t) : Z :=
  foldr (λ it s, (Cart.quantity it + s)%Z) 0%Z l.

(** *** Registration *)

Definition lower_ascii (a : ascii) : ascii :=
  let n := nat_of_ascii a in
  if Nat.leb 65 n && Nat.leb n 90 then ascii_of_nat (n + 32) else a.

(** [String.prototype.toLowerCase], on the ASCII letters. *)
Fixpoint toLowerCase (s : string) : string :=
  match s with
  | EmptyString => EmptyString
  | String a r => String (lower_ascii a) (toLowerCase r)
  end.

Module RegisterReq.
Record t := mk {
  email : option string;
  password : option string;
  name : option string;
  phone : option string;
  city : option string
}.
End RegisterReq.

(** [POST /api/auth/register], on the customer collection.  The new
    customer gets its identifier from the pre-save hook of the customer
    schema and the defaults of the schema; the schema has no field for the
    password.  Strings are read as ASCII text: [password.length] is the
    number of characters and [toLowerCase] acts on the letters A to Z. *)
Definition postAuthRegister (customers : list Customer.t)
    (req : RegisterReq.t) : list Customer.t * Reply Customer.t :=
  let email := orElseS (RegisterReq.email req) "" in
  let password := orElseS (RegisterReq.password req) "" in
  let name := orElseS (RegisterReq.name req) "" in
  if negb (truthyS email) || negb (truthyS password) || negb (truthyS name)
  then (customers, refused 400 "الرجاء إدخال جميع البيانات المطلوبة")
  else if Nat.ltb (String.length password) 6
  then (customers,
        refused 400 "كلمة المرور يجب أن تكون 6 أحرف على الأقل")
  else
    match findOne (λ c, String.eqb (Customer.email c) (toLowerCase email))
                  customers with
    | Some _ =>
        (customers,
         refused 409 "يوجد حساب مسجل بهذا البريد الإلكتروني مسبقاً")
    | None =>
        let newCustomer :=
          Customer.mk (nextIdAfter (map Customer.id customers))
            (toLowerCase email) (orElseS (RegisterReq.phone req) "") name
            (orElseS (RegisterReq.city req) "") 0 0 Customer.active None in
        (customers ++ [newCustomer], sent 201 newCustomer)
    end.

(** At most one cart line per user, product and selected-options
    document. *)
Definition uniqueLines (l : list Cart.t) : Prop :=
  NoDup (map (λ it, (Cart.userId it, Cart.productId it,
                     Cart.selectedOptions it)) l).

(** The lines of one user, and the lines that belong neither to the guest
    nor to that user. *)
Definition ownedBy (u : string) (it : Cart.t) : bool :=
  bool_decide (Cart.userId it = u).

Definition ownedByOther (u : string) (it : Cart.t) : bool :=
  negb (isGuest it) && negb (ownedBy u it).


(** An optional number that [||] replaces: [undefined] or [0]. *)
Definition falsyQ (x : option Q) : Prop :=
  x = None ∨ ∃ t, x = Some t ∧ t == 0.

(** * Properties *)

Example calculateDiscount_fixed_scenario :
  Coupon.calculateDiscount Sample.save30 0 100 = Coupon.discount 30.
Proof. reflexivity. Qed.

Example calculateDiscount_below_minimum_scenario :
  Coupon.calculateDiscount Sample.save30 0 40
  = Coupon.error Coupon.belowMinimum.
Proof. reflexivity. Qed.

Example calculateDiscount_clamped_scenario :
  Coupon.calculateDiscount Sample.big150 0 100 = Coupon.discount 100.
Proof. reflexivity. Qed.

(** ** Queries *)

Section Queries.
Context {A : Type} (P : A → bool).

Lemma findOne_Some (l : list A) (i : nat) (x : A) :
  findOne P l = Some (i, x) →
  l !! i = Some x ∧ P x = true
  ∧ ∀ j y, l !! j = Some y → (j < i)%nat → P y = false.
Proof.
  unfold findOne. intros H. apply list_find_Some in H as (Hl & Hp & Hb).
  repeat split; [done..|]. intros j y Hj Hlt.
  specialize (Hb j y Hj Hlt). by destruct (P y).
Qed.

Lemma findOne_None (l : list A) :
  findOne P l = None ↔ ∀ x, x ∈ l → P x = false.
Proof.
  unfold findOne. rewrite list_find_None, Forall_forall. split.
  - intros H x Hx. specialize (H x Hx). by destruct (P x).
  - intros H x Hx. rewrite (H x Hx). done.
Qed.

Lemma findOne_app_new (l : list A) (x : A) :
  findOne P l = None → P x = true →
  findOne P (l ++ [x]) = Some (length l, x).
Proof.
  intros Hn Hx. unfold findOne. apply list_find_Some. split; [|split].
  - by rewrite lookup_app_r, Nat.sub_diag.
  - done.
  - intros j y Hj Hlt. rewrite lookup_app_l in Hj by done.
    rewrite (proj1 (findOne_None l) Hn y); [done|].
    by eapply list_elem_of_lookup_2.
Qed.

Lemma findOne_lt (l : list A) (i : nat) (x : A) :
  findOne P l = Some (i, x) → (i < length l)%nat.
Proof.
  intros H. apply findOne_Some in H as (Hl & _). by eapply lookup_lt_Some.
Qed.
End Queries.

(** ** The discount (C1) *)





(** A subtotal that is not a number gives NaN: the contract wants a
    subtotal that is one. *)
Example amount_of_NaN (c : Coupon.t) :
  Coupon.amount c Coupon.NaN = Coupon.NaN.
Proof. unfold Coupon.amount. by destruct (Coupon.discountType c). Qed.

(** ** The order of the checks (C2) *)

Lemma isExpired_spec (c : Coupon.t) (now : Z) :
  Coupon.isExpired c now = true ↔ expiredAt c now.
Proof.
  unfold Coupon.isExpired, expiredAt. destruct (Coupon.expiresAt c) as [e|].
  - rewrite Z.ltb_lt. split; [by exists e|]. by intros (? & [= <-] & ?).
  - split; [done|]. by intros (? & ? & _).
Qed.

Lemma limitReached_spec (c : Coupon.t) :
  Coupon.limitReached c = true ↔ usedUp c.
Proof.
  unfold Coupon.limitReached, usedUp. destruct (Coupon.maxUsage c) as [m|].
  - rewrite Z.leb_le. split; [by exists m|]. by intros (? & [= <-] & ?).
  - split; [done|]. by intros (? & ? & _).
Qed.

Lemma not_true_false (b : bool) (P : Prop) : (b = true ↔ P) → ¬ P → b = false.
Proof. intros H Hn. destruct b; [|done]. destruct Hn. by apply H. Qed.

(** C2: the checks run in the order activity, expiry, usage limit, minimum
    order amount, and the first that fails gives its own reason; the four
    reasons are distinct.  A coupon with [usedCount >= maxUsage] is granted
    no discount at any subtotal: once it is active and not expired, which
    the checks before the usage limit ask, it is rejected with the
    usage-limit reason whatever the subtotal.  In
    [POST /api/coupons/validate] the activity check is the filter of the
    query: a code that no active coupon has is answered 404, a coupon that
    is found gets the 400 of the first of the three other checks that
    fails, and the reason "coupon inactive" is never sent. *)
Theorem calculateDiscount_fail_fast (c : Coupon.t) (now : Z) (S : Q) :
  (Coupon.isActive c = false →
     Coupon.calculateDiscount c now S = Coupon.error Coupon.inactive)
  ∧ (Coupon.isActive c = true → expiredAt c now →
     Coupon.calculateDiscount c now S = Coupon.error Coupon.expired)
  ∧ (Coupon.isActive c = true → ¬ expiredAt c now → usedUp c →
     Coupon.calculateDiscount c now S
     = Coupon.error Coupon.usageLimitReached)
  ∧ (Coupon.isActive c = true → ¬ expiredAt c now → ¬ usedUp c →
     (S < Coupon.minOrderAmount c)%Q →
     Coupon.calculateDiscount c now S = Coupon.error Coupon.belowMinimum)
  ∧ (Coupon.isActive c = true → ¬ expiredAt c now → ¬ usedUp c →
     (Coupon.minOrderAmount c <= S)%Q →
     ∃ d, Coupon.calculateDiscount c now S = Coupon.discount d)
  ∧ (usedUp c → ∃ r, Coupon.calculateDiscount c now S = Coupon.error r)
  ∧ NoDup [Coupon.inactive; Coupon.expired; Coupon.usageLimitReached;
           Coupon.belowMinimum]
  ∧ (∀ db code,
       (∀ c', c' ∈ coupons db → Coupon.code c' = toUpperCase code →
              Coupon.isActive c' = false) →
       postCouponsValidate db now code S
       = (db, respond 404 (message invalidCoupon)))
  ∧ (∀ db code i,
       findOne (Coupon.activeWithCode (toUpperCase code)) (coupons db)
       = Some (i, c) →
       Coupon.isActive c = true
       ∧ (expiredAt c now →
          postCouponsValidate db now code S
          = (db, respond 400 (message (couponRejected Coupon.expired))))
       ∧ (¬ expiredAt c now → usedUp c →
          postCouponsValidate db now code S
          = (db, respond 400
                   (message (couponRejected Coupon.usageLimitReached))))
       ∧ (¬ expiredAt c now → ¬ usedUp c →
          (S < Coupon.minOrderAmount c)%Q →
          postCouponsValidate db now code S
          = (db, respond 400 (message (couponRejected Coupon.belowMinimum))))
       ∧ (¬ expiredAt c now → ¬ usedUp c →
          (Coupon.minOrderAmount c <= S)%Q →
          ∃ d, postCouponsValidate db now code S
               = (db, respond 200 (couponBody c d))))
  ∧ (∀ db code,
       body (postCouponsValidate db now code S).2
       ≠ message (couponRejected Coupon.inactive)).
Proof.
  assert (Hcalc :
    (Coupon.isActive c = false →
       Coupon.calculateDiscount c now S = Coupon.error Coupon.inactive)
    ∧ (Coupon.isActive c = true → expiredAt c now →
       Coupon.calculateDiscount c now S = Coupon.error Coupon.expired)
    ∧ (Coupon.isActive c = true → ¬ expiredAt c now → usedUp c →
       Coupon.calculateDiscount c now S
       = Coupon.error Coupon.usageLimitReached)
    ∧ (Coupon.isActive c = true → ¬ expiredAt c now → ¬ usedUp c →
       (S < Coupon.minOrderAmount c)%Q →
       Coupon.calculateDiscount c now S = Coupon.error Coupon.belowMinimum)
    ∧ (Coupon.isActive c = true → ¬ expiredAt c now → ¬ usedUp c →
       (Coupon.minOrderAmount c <= S)%Q →
       ∃ d, Coupon.calculateDiscount c now S = Coupon.discount d)).
  { unfold Coupon.calculateDiscount.
    refine (conj _ (conj _ (conj _ (conj _ _)))).
    - by intros ->.
    - intros -> He%isExpired_spec. by rewrite He.
    - intros -> He%(not_true_false _ _ (isExpired_spec c now))
               Hu%limitReached_spec.
      by rewrite He, Hu.
    - intros -> He%(not_true_false _ _ (isExpired_spec c now))
               Hu%(not_true_false _ _ (limitReached_spec c)) Hlt.
      rewrite He, Hu. simpl.
      destruct (Qle_bool (Coupon.minOrderAmount c) S) eqn:Hle; [|done].
      apply Qle_bool_iff in Hle. by apply Qle_not_lt in Hle.
    - intros -> He%(not_true_false _ _ (isExpired_spec c now))
               Hu%(not_true_false _ _ (limitReached_spec c)) Hle.
      rewrite He, Hu. simpl. apply Qle_bool_iff in Hle. rewrite Hle.
      simpl. eauto. }
  destruct Hcalc as (H1 & H2 & H3 & H4 & H5).
  refine (conj H1 (conj H2 (conj H3 (conj H4 (conj H5
            (conj _ (conj _ (conj _ (conj _ _))))))))).
  - intros Hu%limitReached_spec. unfold Coupon.calculateDiscount.
    destruct (Coupon.isActive c); simpl; [|eauto].
    destruct (Coupon.isExpired c now); [eauto|]. rewrite Hu. eauto.
  - repeat (apply NoDup_cons; split;
            [intros Hin; repeat (apply elem_of_cons in Hin as [Hin|Hin];
                                 [discriminate Hin|]);
             by apply elem_of_nil in Hin|]).
    apply NoDup_nil_2.
  - intros db code Hall. unfold postCouponsValidate.
    destruct (findOne _ (coupons db)) as [[i c']|] eqn:Hf; [|done].
    apply findOne_Some in Hf as (Hi & Ha & _).
    apply andb_true_iff in Ha as [Hk Ha].
    apply bool_decide_eq_true in Hk.
    rewrite (Hall c' (list_elem_of_lookup_2 _ _ _ Hi) Hk) in Ha.
    discriminate Ha.
  - intros db code i Hf. unfold postCouponsValidate. rewrite Hf.
    apply findOne_Some in Hf as (_ & Ha & _).
    apply andb_true_iff in Ha as [_ Ha].
    split; [done|]. split; [|split; [|split]].
    + intros He. by rewrite (H2 Ha He).
    + intros He Hu. by rewrite (H3 Ha He Hu).
    + intros He Hu Hlt. by rewrite (H4 Ha He Hu Hlt).
    + intros He Hu Hle. destruct (H5 Ha He Hu Hle) as (d & ->). by exists d.
  - intros db code. unfold postCouponsValidate.
    destruct (findOne _ (coupons db)) as [[i c']|] eqn:Hf; [|done].
    apply findOne_Some in Hf as (_ & Ha & _).
    apply andb_true_iff in Ha as [_ Ha].
    unfold Coupon.calculateDiscount. rewrite Ha. simpl.
    destruct (Coupon.isExpired c' now); [done|].
    destruct (Coupon.limitReached c'); [done|].
    by destruct (negb (Qle_bool (Coupon.minOrderAmount c') S)).
Qed.

Lemma usedUp_ten_after_three : usedUp (Coupon.use (Coupon.use (Coupon.use Sample.ten))).
Proof. exists 5%Z. split; [reflexivity|]. vm_compute. discriminate. Defined.

Lemma not_expired_none (c : Coupon.t) (now : Z) :
  Coupon.isExpired c now = false → ¬ expiredAt c now.
Proof. intros H He%isExpired_spec. congruence. Defined.

Lemma not_usedUp_false (c : Coupon.t) :
  Coupon.limitReached c = false → ¬ usedUp c.
Proof. intros H He%limitReached_spec. congruence. Defined.

Lemma calculateDiscount_fail_fast_witness :
  Coupon.calculateDiscount Sample.retired 0 100 = Coupon.error Coupon.inactive
  ∧ Coupon.calculateDiscount Sample.stale 20 100 = Coupon.error Coupon.expired
  ∧ Coupon.calculateDiscount
      (Coupon.use (Coupon.use (Coupon.use Sample.ten))) 20 100
    = Coupon.error Coupon.usageLimitReached
  ∧ Coupon.calculateDiscount Sample.save30 0 40
    = Coupon.error Coupon.belowMinimum
  ∧ (∃ d, Coupon.calculateDiscount Sample.save30 0 100 = Coupon.discount d)
  ∧ (∃ r, Coupon.calculateDiscount Sample.stale 20 100 = Coupon.error r)
  ∧ postCouponsValidate Sample.db0 5 "stale" 1
    = (Sample.db0,
       respond 400 (message (couponRejected Coupon.usageLimitReached)))
  ∧ postCouponsValidate Sample.db0 20 "stale" 1
    = (Sample.db0, respond 400 (message (couponRejected Coupon.expired))).
Proof.
  pose (used := Coupon.use (Coupon.use (Coupon.use Sample.ten))).
  assert (Hstale : expiredAt Sample.stale 20).
  { exists 10%Z. split; reflexivity. }
  assert (Hup : usedUp Sample.stale).
  { exists 3%Z. split; [reflexivity|]. vm_compute. discriminate. }
  refine (conj _ (conj _ (conj _ (conj _ (conj _ (conj _ (conj _ _))))))).
  - exact (proj1 (calculateDiscount_fail_fast Sample.retired 0 100) eq_refl).
  - exact (proj1 (proj2 (calculateDiscount_fail_fast Sample.stale 20 100))
             eq_refl Hstale).
  - exact (proj1 (proj2 (proj2 (calculateDiscount_fail_fast used 20 100)))
             eq_refl (not_expired_none used 20 eq_refl) usedUp_ten_after_three).
  - exact (proj1 (proj2 (proj2 (proj2
             (calculateDiscount_fail_fast Sample.save30 0 40))))
             eq_refl (not_expired_none Sample.save30 0 eq_refl)
             (not_usedUp_false Sample.save30 eq_refl) eq_refl).
  - exact (proj1 (proj2 (proj2 (proj2 (proj2
             (calculateDiscount_fail_fast Sample.save30 0 100)))))
             eq_refl (not_expired_none Sample.save30 0 eq_refl)
             (not_usedUp_false Sample.save30 eq_refl) ltac:(discriminate)).
  - exact (proj1 (proj2 (proj2 (proj2 (proj2 (proj2
             (calculateDiscount_fail_fast Sample.stale 20 100))))))
             Hup).
  - destruct (calculateDiscount_fail_fast Sample.stale 5 1)
      as (_ & _ & _ & _ & _ & _ & _ & _ & Hr & _).
    destruct (Hr Sample.db0 "stale" 3%nat eq_refl) as (_ & _ & Hu & _).
    exact (Hu (not_expired_none Sample.stale 5 eq_refl) Hup).
  - destruct (calculateDiscount_fail_fast Sample.stale 20 1)
      as (_ & _ & _ & _ & _ & _ & _ & _ & Hr & _).
    destruct (Hr Sample.db0 "stale" 3%nat eq_refl) as (_ & He & _).
    exact (He Hstale).
Defined.

(** ** Coupon usage on the order paths (C3) *)

Lemma applyCoupon_accepted db now code items i coupon d :
  couponAccepted db now code items i coupon d →
  applyCoupon db now code items
  = (setCoupons db (<[ i := Coupon.use coupon ]> (coupons db)), d).
Proof. intros (Ht & Hf & Hc). unfold applyCoupon. by rewrite Ht, Hf, Hc. Qed.

Lemma applyCoupon_unused db now code items :
  couponUnused db now code items →
  applyCoupon db now code items = (db, 0%Q).
Proof.
  unfold applyCoupon.
  intros [Ht | [Hf | (i & coupon & r & Hf & Hc)]].
  - by rewrite Ht.
  - rewrite Hf. by destruct (truthyS code).
  - rewrite Hf, Hc. by destruct (truthyS code).
Qed.

Lemma applyCoupon_cases db now code items :
  (∃ i coupon d, couponAccepted db now code items i coupon d)
  ∨ couponUnused db now code items.
Proof.
  unfold couponAccepted, couponUnused.
  destruct (truthyS code); [|by right; left].
  destruct (findOne _ (coupons db)) as [[i coupon]|]; [|by right; right; left].
  destruct (Coupon.calculateDiscount coupon now (itemsSubtotal items))
    as [r|d] eqn:Hc.
  - right. right. right. by exists i, coupon, r.
  - left. by exists i, coupon, d.
Qed.

Lemma derive_total (o : Order.t) : total_as_claimed (Order.derive o).
Proof.
  unfold total_as_claimed, Order.derive. simpl.
  eexists _, _. split; [done|]. split; [done|]. split; [done|].
  split; [apply Q.le_max_l|].
  intros Hfee Hlt. apply Q.max_l. rewrite Hfee. lra.
Qed.

Lemma postOrders_created validate db now req :
  status (postOrders validate db now req).2 = 201%nat →
  let db1 := (applyCoupon db now (orElseS (OrderReq.couponCode req) "")
                          (OrderReq.items req)).1 in
  validate (orderOf db now req) = true
  ∧ (postOrders validate db now req).2
    = respond 201 (orderBody (orderOf db now req))
  ∧ coupons (postOrders validate db now req).1 = coupons db1
  ∧ orders (postOrders validate db now req).1
    = orders db1 ++ [orderOf db now req].
Proof.
  unfold postOrders, orderOf.
  destruct (applyCoupon _ _ _ _) as [db1 d]. simpl.
  destruct (validate _); simpl; [done|discriminate].
Qed.

Lemma applyCoupon_orders db now code items :
  orders (applyCoupon db now code items).1 = orders db.
Proof.
  destruct (applyCoupon_cases db now code items) as [(i & c & d & H)|H].
  - by rewrite (applyCoupon_accepted _ _ _ _ _ _ _ H).
  - by rewrite (applyCoupon_unused _ _ _ _ H).
Qed.

Lemma postCouponsValidate_readonly db now code totalAmount :
  (postCouponsValidate db now code totalAmount).1 = db.
Proof.
  unfold postCouponsValidate.
  destruct (findOne _ _) as [[i coupon]|]; [|done].
  by destruct (Coupon.calculateDiscount _ _ _).
Qed.

Lemma postCheckout_coupons validate db req :
  coupons (postCheckout validate db req).1 = coupons db.
Proof. unfold postCheckout. by destruct (validate _). Qed.

(** C3, amended: on [POST /api/orders], an order created with a code that
    names an active coupon accepting the items' subtotal raises that
    coupon's [usedCount] by exactly one, in the stored document; an order
    created with no code, an unknown or inactive coupon, or a rejected one
    leaves every coupon as it was, and no [usedCount] goes down.
    [POST /api/coupons/validate] changes nothing, and [POST /api/checkout]
    leaves the coupons as they were. *)
Theorem usedCount_on_order_paths :
  (∀ validate db now req i coupon d,
     status (postOrders validate db now req).2 = 201%nat →
     couponAccepted db now (orElseS (OrderReq.couponCode req) "")
                    (OrderReq.items req) i coupon d →
     coupons (postOrders validate db now req).1
     = <[ i := Coupon.use coupon ]> (coupons db)
     ∧ coupons (postOrders validate db now req).1 !! i
       = Some (Coupon.use coupon)
     ∧ Coupon.usedCount (Coupon.use coupon)
       = (Coupon.usedCount coupon + 1)%Z)
  ∧ (∀ validate db now req,
       status (postOrders validate db now req).2 = 201%nat →
       couponUnused db now (orElseS (OrderReq.couponCode req) "")
                    (OrderReq.items req) →
       coupons (postOrders validate db now req).1 = coupons db)
  ∧ (∀ validate db now req j c,
       status (postOrders validate db now req).2 = 201%nat →
       coupons db !! j = Some c →
       ∃ c', coupons (postOrders validate db now req).1 !! j = Some c'
             ∧ (Coupon.usedCount c ≤ Coupon.usedCount c')%Z)
  ∧ (∀ db now code totalAmount,
       (postCouponsValidate db now code totalAmount).1 = db)
  ∧ (∀ validate db req, coupons (postCheckout validate db req).1 = coupons db).
Proof.
  refine (conj _ (conj _ (conj _ (conj _ _)))).
  - intros validate db now req i coupon d Hs Ha.
    apply postOrders_created in Hs as (_ & _ & -> & _).
    rewrite (applyCoupon_accepted _ _ _ _ _ _ _ Ha). simpl.
    destruct Ha as (_ & Hf%findOne_lt & _).
    split; [done|]. split; [|done]. by apply list_lookup_insert_eq.
  - intros validate db now req Hs Hu.
    apply postOrders_created in Hs as (_ & _ & -> & _).
    by rewrite (applyCoupon_unused _ _ _ _ Hu).
  - intros validate db now req j c Hs Hj.
    apply postOrders_created in Hs as (_ & _ & -> & _).
    destruct (applyCoupon_cases db now (orElseS (OrderReq.couponCode req) "")
                (OrderReq.items req)) as [(i & coupon & d & Ha)|Hu].
    + rewrite (applyCoupon_accepted _ _ _ _ _ _ _ Ha). simpl.
      destruct Ha as (_ & Hf & _).
      pose proof (findOne_lt _ _ _ _ Hf) as Hlt.
      apply findOne_Some in Hf as (Hi & _).
      destruct (decide (i = j)) as [->|Hne].
      * exists (Coupon.use coupon). rewrite list_lookup_insert_eq by done.
        split; [done|]. assert (c = coupon) as -> by congruence. simpl. lia.
      * exists c. rewrite list_lookup_insert_ne by done. split; [done|lia].
    + rewrite (applyCoupon_unused _ _ _ _ Hu). exists c. split; [done|lia].
  - apply postCouponsValidate_readonly.
  - apply postCheckout_coupons.
Qed.

Lemma usedCount_on_order_paths_witness :
  status (postOrders Sample.accept Sample.db0 0 Sample.order100).2 = 201%nat
  ∧ couponAccepted Sample.db0 0 "save30" [Sample.line 100 1] 0 Sample.save30 30
  ∧ couponUnused Sample.db0 0 "save30" [Sample.line 40 1]
  ∧ coupons (postOrders Sample.accept Sample.db0 0 Sample.order100).1 !! 0%nat
    = Some (Coupon.use Sample.save30)
  ∧ Coupon.usedCount (Coupon.use Sample.save30) = 1%Z
  ∧ coupons (postOrders Sample.accept Sample.db0 0 Sample.order40).1
    = coupons Sample.db0
  ∧ ∃ c', coupons (postOrders Sample.accept Sample.db0 0 Sample.order100).1
            !! 1%nat = Some c'
          ∧ (Coupon.usedCount Sample.big150 ≤ Coupon.usedCount c')%Z.
Proof.
  assert (Ha : couponAccepted Sample.db0 0 "save30" [Sample.line 100 1] 0
                              Sample.save30 30).
  { repeat split. }
  assert (Hu : couponUnused Sample.db0 0 "save30" [Sample.line 40 1]).
  { right. right. exists 0%nat, Sample.save30, Coupon.belowMinimum.
    split; reflexivity. }
  destruct usedCount_on_order_paths as (H1 & H2 & H3 & _).
  destruct (H1 Sample.accept Sample.db0 0%Z Sample.order100 0%nat
               Sample.save30 30%Q eq_refl Ha) as (_ & Hl & Hc).
  exact (conj eq_refl (conj Ha (conj Hu (conj Hl (conj Hc
           (conj (H2 Sample.accept Sample.db0 0%Z Sample.order40 eq_refl Hu)
                 (H3 Sample.accept Sample.db0 0%Z Sample.order100 1%nat
                     Sample.big150 eq_refl eq_refl))))))).
Defined.

(** When [order.save()] fails after the coupon block, the answer is 500 and
    the increment stays. *)
Example increment_survives_failed_save :
  status (postOrders (λ _, false) Sample.db0 0 Sample.order100).2 = 500%nat
  ∧ orders (postOrders (λ _, false) Sample.db0 0 Sample.order100).1 = []
  ∧ Coupon.usedCount <$>
      coupons (postOrders (λ _, false) Sample.db0 0 Sample.order100).1
      !! 0%nat
    = Some 1%Z.
Proof. repeat split. Qed.

(** C3 as stated fails on both order paths.  [POST /api/orders] with the
    code save30 and a subtotal of 40, below the coupon's minimum, creates
    the order under that code and leaves [usedCount] at 0; so does
    [POST /api/checkout] with the applied coupon SAVE30. *)
Lemma usedCount_counterexample :
  (status (postOrders Sample.accept Sample.db0 0 Sample.order40).2 = 201%nat
   ∧ (∃ o, body (postOrders Sample.accept Sample.db0 0 Sample.order40).2
           = orderBody o ∧ Order.couponCode o = "save30")
   ∧ ¬ usedCount_incremented Sample.db0
         (postOrders Sample.accept Sample.db0 0 Sample.order40).1 "save30")
  ∧ (status (postCheckout Sample.accept Sample.db0 Sample.checkout999).2
     = 201%nat
     ∧ (∃ o, body (postCheckout Sample.accept Sample.db0 Sample.checkout999).2
             = orderBody o ∧ Order.couponCode o = "SAVE30")
     ∧ ¬ usedCount_incremented Sample.db0
           (postCheckout Sample.accept Sample.db0 Sample.checkout999).1
           "SAVE30").
Proof.
  split; (split; [reflexivity|split; [eexists; split; reflexivity|]]).
  - intros (i & c & c' & Hf & Hl & Hu).
    vm_compute in Hf. injection Hf as <- <-.
    vm_compute in Hl. injection Hl as <-. discriminate Hu.
  - intros (i & c & c' & Hf & Hl & Hu).
    vm_compute in Hf. injection Hf as <- <-.
    vm_compute in Hl. injection Hl as <-. discriminate Hu.
Qed.

(** ** The persisted discount (C4) *)

Lemma postCheckout_created validate db req :
  status (postCheckout validate db req).2 = 201%nat →
  ∃ order,
    (postCheckout validate db req).2 = respond 201 (orderBody order)
    ∧ orders (postCheckout validate db req).1 = orders db ++ [order]
    ∧ Order.subtotal order
      = Some (sumQ Order.lineTotal (map orderItem (CheckoutReq.items req)))
    ∧ Order.deliveryFee order = orderDeliveryFee req
    ∧ Order.couponDiscount order = orderCouponDiscount req
    ∧ total_as_claimed order
    ∧ Order.couponCode order = orElseS (CheckoutReq.appliedCoupon req) "".
Proof.
  unfold postCheckout. destruct (validate _); simpl; [|discriminate].
  intros _. eexists. split; [done|]. split; [done|]. split; [done|].
  split; [done|]. split; [done|]. split; [apply derive_total|done].
Qed.

Lemma postCheckout_response validate (db db' : DB) req :
  (postCheckout validate db req).2 = (postCheckout validate db' req).2.
Proof. unfold postCheckout. by destruct (validate _). Qed.

(** C4, amended: an order created by [POST /api/checkout] stores as
    [couponDiscount] the value the request carries, 0 when it carries none,
    whatever the coupon collection holds: the answer does not depend on the
    database.  An order created by [POST /api/orders], whose request has no
    discount field, stores the calculator's result on the subtotal computed
    from the items when the code names an active coupon that accepts it,
    and 0 otherwise. *)
Theorem persisted_couponDiscount :
  (∀ validate db req,
     status (postCheckout validate db req).2 = 201%nat →
     ∃ order,
       orders (postCheckout validate db req).1 = orders db ++ [order]
       ∧ Order.couponCode order = orElseS (CheckoutReq.appliedCoupon req) ""
       ∧ Order.couponDiscount order
         = orElseQ (CheckoutReq.couponDiscount req) 0)
  ∧ (∀ validate db db' req,
       (postCheckout validate db req).2 = (postCheckout validate db' req).2)
  ∧ (∀ validate db now req i coupon d,
       status (postOrders validate db now req).2 = 201%nat →
       couponAccepted db now (orElseS (OrderReq.couponCode req) "")
                      (OrderReq.items req) i coupon d →
       ∃ order,
         orders (postOrders validate db now req).1 = orders db ++ [order]
         ∧ Order.couponDiscount order = d)
  ∧ (∀ validate db now req,
       status (postOrders validate db now req).2 = 201%nat →
       couponUnused db now (orElseS (OrderReq.couponCode req) "")
                    (OrderReq.items req) →
       ∃ order,
         orders (postOrders validate db now req).1 = orders db ++ [order]
         ∧ Order.couponDiscount order = 0%Q).
Proof.
  refine (conj _ (conj _ (conj _ _))).
  - intros validate db req Hs.
    apply postCheckout_created in Hs
      as (order & _ & Ho & _ & _ & Hd & _ & Hc).
    exists order. by rewrite Ho, Hd, Hc.
  - apply postCheckout_response.
  - intros validate db now req i coupon d Hs Ha.
    apply postOrders_created in Hs as (_ & _ & _ & Ho).
    exists (orderOf db now req). rewrite Ho, applyCoupon_orders.
    split; [done|]. unfold orderOf. simpl.
    by rewrite (applyCoupon_accepted _ _ _ _ _ _ _ Ha).
  - intros validate db now req Hs Hu.
    apply postOrders_created in Hs as (_ & _ & _ & Ho).
    exists (orderOf db now req). rewrite Ho, applyCoupon_orders.
    split; [done|]. unfold orderOf. simpl.
    by rewrite (applyCoupon_unused _ _ _ _ Hu).
Qed.

Lemma persisted_couponDiscount_witness :
  (∃ order,
     orders (postCheckout Sample.accept Sample.db0 Sample.checkout999).1
     = orders Sample.db0 ++ [order]
     ∧ Order.couponCode order = "SAVE30"
     ∧ Order.couponDiscount order = 999%Q)
  ∧ (∃ order,
       orders (postOrders Sample.accept Sample.db0 0 Sample.order100).1
       = orders Sample.db0 ++ [order]
       ∧ Order.couponDiscount order = 30%Q)
  ∧ (∃ order,
       orders (postOrders Sample.accept Sample.db0 0 Sample.order40).1
       = orders Sample.db0 ++ [order]
       ∧ Order.couponDiscount order = 0%Q).
Proof.
  assert (Ha : couponAccepted Sample.db0 0 "save30" [Sample.line 100 1] 0
                              Sample.save30 30).
  { repeat split. }
  assert (Hu : couponUnused Sample.db0 0 "save30" [Sample.line 40 1]).
  { right. right. exists 0%nat, Sample.save30, Coupon.belowMinimum.
    split; reflexivity. }
  destruct persisted_couponDiscount as (H1 & _ & H3 & H4).
  exact (conj (H1 Sample.accept Sample.db0 Sample.checkout999 eq_refl)
          (conj (H3 Sample.accept Sample.db0 0%Z Sample.order100 0%nat
                    Sample.save30 30%Q eq_refl Ha)
                (H4 Sample.accept Sample.db0 0%Z Sample.order40 eq_refl Hu))).
Defined.

(** C4 as stated fails at a checkout that carries the applied coupon SAVE30
    and a discount of 999 for one line of 100: the order is stored with a
    discount of 999, where the calculator grants 30 at the subtotal 100
    computed from the line. *)
Lemma client_discount_counterexample :
  orderSubtotal Sample.checkout999 = 100%Q
  ∧ ∃ o,
      (postCheckout Sample.accept Sample.db0 Sample.checkout999).2
      = respond 201 (orderBody o)
      ∧ orders (postCheckout Sample.accept Sample.db0 Sample.checkout999).1
        = [o]
      ∧ truthyS (Order.couponCode o) = true
      ∧ ¬ discount_recomputed Sample.db0 0 100 o.
Proof.
  split; [reflexivity|]. eexists. split; [reflexivity|].
  split; [reflexivity|]. split; [reflexivity|].
  intros H. specialize (H 0%nat Sample.save30 30%Q eq_refl eq_refl).
  discriminate H.
Qed.

(** ** The persisted total (C5) *)



(** ** Reporting a rejected coupon (C6) *)

(** C6, amended: [POST /api/coupons/validate] answers a code that fails
    validation with a message of its own: 404 "invalid coupon" when no
    active coupon has the code, 400 with the calculator's reason when the
    coupon rejects the amount, and different reasons give different
    messages.  [POST /api/orders] does not report a failed coupon: when the
    code names no active coupon or the coupon rejects the subtotal, the
    order is created under that code with a [couponDiscount] of 0 and the
    answer is 201 with the order. *)
Theorem coupon_rejection_reporting :
  (∀ db now code totalAmount,
     findOne (Coupon.activeWithCode (toUpperCase code)) (coupons db) = None →
     (postCouponsValidate db now code totalAmount).2
     = respond 404 (message invalidCoupon))
  ∧ (∀ db now code totalAmount i coupon r,
       findOne (Coupon.activeWithCode (toUpperCase code)) (coupons db)
       = Some (i, coupon) →
       Coupon.calculateDiscount coupon now totalAmount = Coupon.error r →
       (postCouponsValidate db now code totalAmount).2
       = respond 400 (message (couponRejected r)))
  ∧ (∀ r r', message (couponRejected r) = message (couponRejected r') → r = r')
  ∧ (∀ r, message (couponRejected r) ≠ message invalidCoupon)
  ∧ (∀ validate db now req,
       couponUnused db now (orElseS (OrderReq.couponCode req) "")
                    (OrderReq.items req) →
       validate (orderOf db now req) = true →
       (postOrders validate db now req).2
       = respond 201 (orderBody (orderOf db now req))
       ∧ Order.couponCode (orderOf db now req)
         = orElseS (OrderReq.couponCode req) ""
       ∧ Order.couponDiscount (orderOf db now req) = 0%Q).
Proof.
  refine (conj _ (conj _ (conj _ (conj _ _)))).
  - intros db now code totalAmount Hf. unfold postCouponsValidate.
    by rewrite Hf.
  - intros db now code totalAmount i coupon r Hf Hc.
    unfold postCouponsValidate. by rewrite Hf, Hc.
  - by intros r r' [= ->].
  - by intros r.
  - intros validate db now req Hu Hv.
    assert (Horder : Order.couponDiscount (orderOf db now req) = 0%Q).
    { unfold orderOf. simpl. by rewrite (applyCoupon_unused _ _ _ _ Hu). }
    split; [|by split].
    unfold postOrders. fold (orderOf db now req).
    destruct (applyCoupon _ _ _ _) as [db1 d] eqn:Ha.
    assert (Heq : Order.derive
                    (Order.mk (OrderReq.items req) None
                       (default 0%Q (OrderReq.deliveryFee req)) None
                       (orElseS (OrderReq.couponCode req) "") d None)
                  = orderOf db now req).
    { unfold orderOf. by rewrite Ha. }
    rewrite Heq, Hv. done.
Qed.

Lemma coupon_rejection_reporting_witness :
  (postCouponsValidate Sample.db0 0 "nosuch" 100).2
  = respond 404 (message invalidCoupon)
  ∧ (postCouponsValidate Sample.db0 0 "save30" 40).2
    = respond 400 (message (couponRejected Coupon.belowMinimum))
  ∧ (postOrders Sample.accept Sample.db0 0 Sample.order40).2
    = respond 201 (orderBody (orderOf Sample.db0 0 Sample.order40))
  ∧ Order.couponDiscount (orderOf Sample.db0 0 Sample.order40) = 0%Q.
Proof.
  assert (Hu : couponUnused Sample.db0 0 "save30" [Sample.line 40 1]).
  { right. right. exists 0%nat, Sample.save30, Coupon.belowMinimum.
    split; reflexivity. }
  destruct coupon_rejection_reporting as (H1 & H2 & _ & _ & H5).
  destruct (H5 Sample.accept Sample.db0 0%Z Sample.order40 Hu eq_refl)
    as (Hr & _ & Hd).
  exact (conj (H1 Sample.db0 0%Z "nosuch" 100%Q eq_refl)
          (conj (H2 Sample.db0 0%Z "save30" 40%Q 0%nat Sample.save30
                    Coupon.belowMinimum eq_refl eq_refl)
                (conj Hr Hd))).
Defined.

(** C6 as stated fails on [POST /api/orders] with the code save30 and a
    subtotal of 40: the coupon rejects the subtotal as below its minimum,
    and the answer is 201 with an order whose discount is 0, not the
    rejection. *)
Lemma silent_rejection_counterexample :
  findOne (Coupon.activeWithCode (toUpperCase "save30")) (coupons Sample.db0)
  = Some (0%nat, Sample.save30)
  ∧ Coupon.calculateDiscount Sample.save30 0
      (itemsSubtotal (OrderReq.items Sample.order40))
    = Coupon.error Coupon.belowMinimum
  ∧ ¬ rejection_reported
        (postOrders Sample.accept Sample.db0 0 Sample.order40).2
        Coupon.belowMinimum
  ∧ ∃ o, (postOrders Sample.accept Sample.db0 0 Sample.order40).2
         = respond 201 (orderBody o)
         ∧ Order.couponDiscount o = 0%Q.
Proof.
  split; [reflexivity|]. split; [reflexivity|]. split.
  - intros (Hs & _). discriminate Hs.
  - eexists. split; reflexivity.
Qed.

(** ** The cart merge rule (C7) *)

Lemma sameLine_spec u p o it :
  Cart.sameLine u p o it = true
  ↔ Cart.userId it = u ∧ Cart.productId it = p ∧ Cart.selectedOptions it = o.
Proof.
  unfold Cart.sameLine.
  rewrite !andb_true_iff, !bool_decide_eq_true, Z.eqb_eq. tauto.
Qed.

Lemma sameLine_merge u p o it q a :
  Cart.sameLine u p o (Cart.merge it q a) = Cart.sameLine u p o it.
Proof. done. Qed.

Lemma countDocuments_none {A} (P : A → bool) (l : list A) :
  findOne P l = None → countDocuments P l = 0%nat.
Proof.
  rewrite findOne_None. unfold countDocuments. induction l as [|x l IH].
  - done.
  - intros H. simpl. rewrite (H x) by apply list_elem_of_here.
    apply IH. intros y Hy. apply H. by apply list_elem_of_further.
Qed.

Lemma countDocuments_app {A} (P : A → bool) (l k : list A) :
  countDocuments P (l ++ k) = (countDocuments P l + countDocuments P k)%nat.
Proof. unfold countDocuments. by rewrite List.filter_app, length_app. Qed.

Lemma addToCart_products db userId req :
  products (addToCart db userId req).1 = products db.
Proof.
  unfold addToCart. destruct (findProduct _ _) as [product|]; [|done].
  by destruct (findOne _ _) as [[i it]|].
Qed.

Lemma addToCart_existing db userId req product i existingItem :
  findProduct (products db) (CartReq.productId req) = Some product →
  findOne (Cart.sameLine userId (Product.id product)
             (default [] (CartReq.selectedOptions req))) (carts db)
  = Some (i, existingItem) →
  addToCart db userId req
  = (setCarts db
       (<[ i := Cart.merge existingItem (default 1%Z (CartReq.quantity req))
                  (default Cart.noAttachments (CartReq.attachments req)) ]>
          (carts db)),
     respond 200
       (cartBody (Cart.merge existingItem (default 1%Z (CartReq.quantity req))
                    (default Cart.noAttachments (CartReq.attachments req))))).
Proof. intros Hp Hf. unfold addToCart. by rewrite Hp, Hf. Qed.

Lemma addToCart_new db userId req product :
  findProduct (products db) (CartReq.productId req) = Some product →
  findOne (Cart.sameLine userId (Product.id product)
             (default [] (CartReq.selectedOptions req))) (carts db) = None →
  addToCart db userId req
  = (setCarts db
       (carts db ++
        [Cart.mk userId (Product.id product) (Product.name product)
           (Product.price product) (default 1%Z (CartReq.quantity req))
           (Product.mainImage product)
           (default [] (CartReq.selectedOptions req))
           (default ∅ (CartReq.optionsPricing req))
           (default Cart.noAttachments (CartReq.attachments req))]),
     respond 201
       (cartBody
          (Cart.mk userId (Product.id product) (Product.name product)
             (Product.price product) (default 1%Z (CartReq.quantity req))
             (Product.mainImage product)
             (default [] (CartReq.selectedOptions req))
             (default ∅ (CartReq.optionsPricing req))
             (default Cart.noAttachments (CartReq.attachments req))))).
Proof. intros Hp Hf. unfold addToCart. by rewrite Hp, Hf. Qed.

Lemma sameLine_sameTuple u p o it :
  Cart.sameLine u p o it = true → sameTuple u p o it.
Proof. intros (Hu & Hp & Ho)%sameLine_spec. by rewrite <- Ho. Qed.

(** C7, amended: for an add-to-cart request whose product the handler
    finds (when it finds none the answer is 404 and nothing changes), on
    either route: if a cart line matches the user, the product and the
    selected options, compared as the query compares documents (such a
    line has the same mapping, with the names in the same order), the
    first such line has its quantity raised by the incoming quantity, no
    line is added and the other lines stay; if none matches, one line is
    appended for that user, product and options; so adding the same tuple
    twice, the options in the same order, to a cart without it leaves one
    such line, with the sum of the two quantities. *)
Theorem addToCart_merge (db : DB) (userId : string) (req : CartReq.t) :
  postUserCart db userId req = addToCart db userId req
  ∧ postCart db req = addToCart db (default "guest" (CartReq.userId req)) req
  ∧ (findProduct (products db) (CartReq.productId req) = None →
     addToCart db userId req = (db, respond 404 (message productNotFound)))
  ∧ ∀ product,
      findProduct (products db) (CartReq.productId req) = Some product →
      let q := default 1%Z (CartReq.quantity req) in
      let o := default [] (CartReq.selectedOptions req) in
      let same := Cart.sameLine userId (Product.id product) o in
      (∀ it, same it = true → sameTuple userId (Product.id product) o it)
      ∧ (∀ i existingItem,
           findOne same (carts db) = Some (i, existingItem) →
           ∃ saved,
             carts (addToCart db userId req).1 = <[ i := saved ]> (carts db)
             ∧ carts (addToCart db userId req).1 !! i = Some saved
             ∧ length (carts (addToCart db userId req).1) = length (carts db)
             ∧ Cart.quantity saved = (Cart.quantity existingItem + q)%Z
             ∧ same saved = true
             ∧ status (addToCart db userId req).2 = 200%nat)
      ∧ (findOne same (carts db) = None →
         ∃ cartItem,
           carts (addToCart db userId req).1 = carts db ++ [cartItem]
           ∧ same cartItem = true
           ∧ Cart.quantity cartItem = q
           ∧ status (addToCart db userId req).2 = 201%nat)
      ∧ (findOne same (carts db) = None →
         ∀ req2,
           CartReq.productId req2 = CartReq.productId req →
           default [] (CartReq.selectedOptions req2) = o →
           ∃ line,
             carts (addToCart (addToCart db userId req).1 userId req2).1
             = carts db ++ [line]
             ∧ same line = true
             ∧ Cart.quantity line
               = (q + default 1%Z (CartReq.quantity req2))%Z
             ∧ countDocuments same
                 (carts (addToCart (addToCart db userId req).1 userId req2).1)
               = 1%nat).
Proof.
  split; [done|]. split; [done|]. split.
  { intros Hp. unfold addToCart. by rewrite Hp. }
  intros product Hp q o same.
  split; [intros it; apply sameLine_sameTuple|]. split; [|split].
  - intros i existingItem Hf.
    rewrite (addToCart_existing _ _ _ _ _ _ Hp Hf). simpl.
    pose proof (findOne_lt _ _ _ _ Hf) as Hlt.
    apply findOne_Some in Hf as (_ & Hs & _).
    eexists. split; [done|].
    split; [by apply list_lookup_insert_eq|].
    split; [by rewrite length_insert|]. split; [done|]. split; [|done].
    subst same. by rewrite sameLine_merge.
  - intros Hf. rewrite (addToCart_new _ _ _ _ Hp Hf). simpl.
    eexists. split; [done|]. split; [|done].
    subst same. by apply sameLine_spec.
  - intros Hf req2 Hpid Hopt.
    pose proof (addToCart_new _ _ _ _ Hp Hf) as H1.
    set (cartItem := Cart.mk _ _ _ _ _ _ _ _ _) in H1.
    assert (Hsame : same cartItem = true) by (by apply sameLine_spec).
    assert (Hf2 : findOne same (carts (addToCart db userId req).1)
                  = Some (length (carts db), cartItem)).
    { rewrite H1. simpl. by apply findOne_app_new. }
    assert (Hp2 : findProduct (products (addToCart db userId req).1)
                    (CartReq.productId req2) = Some product).
    { by rewrite addToCart_products, Hpid. }
    subst same o. rewrite <- Hopt in Hf2.
    rewrite (addToCart_existing _ _ _ _ _ _ Hp2 Hf2). simpl.
    rewrite H1. simpl.
    replace (length (carts db)) with (length (carts db) + 0)%nat by lia.
    rewrite insert_app_r. simpl.
    eexists. split; [done|]. rewrite Hopt in *.
    split; [by rewrite sameLine_merge|]. split; [done|].
    rewrite countDocuments_app, (countDocuments_none _ _ Hf).
    unfold countDocuments. simpl. rewrite sameLine_merge, Hsame. done.
Qed.

Lemma addToCart_merge_witness :
  (∃ cartItem,
     carts (addToCart Sample.db0 "guest" (Sample.addGown Sample.sizeM 2)).1
     = carts Sample.db0 ++ [cartItem]
     ∧ Cart.quantity cartItem = 2%Z)
  ∧ (∃ line,
       carts (addToCart
                (addToCart Sample.db0 "guest" (Sample.addGown Sample.sizeM 2)).1
                "guest" (Sample.addGown Sample.sizeM 3)).1
       = carts Sample.db0 ++ [line]
       ∧ Cart.quantity line = (2 + 3)%Z)
  ∧ (∃ saved,
       carts (addToCart
                (addToCart Sample.db0 "guest" (Sample.addGown Sample.sizeM 2)).1
                "guest" (Sample.addGown Sample.sizeM 3)).1 !! 0%nat
       = Some saved
       ∧ Cart.quantity saved = (2 + 3)%Z).
Proof.
  pose (req := Sample.addGown Sample.sizeM 2).
  pose (db1 := (addToCart Sample.db0 "guest" req).1).
  assert (Hp : findProduct (products Sample.db0) (CartReq.productId req)
               = Some Sample.gown) by reflexivity.
  assert (Hn : findOne (Cart.sameLine "guest" (Product.id Sample.gown)
                          (default [] (CartReq.selectedOptions req)))
                       (carts Sample.db0) = None) by reflexivity.
  destruct (addToCart_merge Sample.db0 "guest" req) as (_ & _ & _ & H).
  destruct (H Sample.gown Hp) as (_ & _ & Hnew & Htwice).
  destruct (Hnew Hn) as (cartItem & Hc & _ & Hq & _).
  destruct (Htwice Hn (Sample.addGown Sample.sizeM 3) eq_refl eq_refl)
    as (line & Hl & _ & Hlq & _).
  destruct (addToCart_merge db1 "guest" (Sample.addGown Sample.sizeM 3))
    as (_ & _ & _ & H').
  destruct (H' Sample.gown eq_refl) as (_ & Hex & _).
  assert (Hf : findOne (Cart.sameLine "guest" (Product.id Sample.gown)
                          Sample.sizeM) (carts db1)
               = Some (0%nat, Cart.mk "guest" 1 "Gown" 250 2 "/images/gown.jpg"
                                Sample.sizeM ∅ Cart.noAttachments)).
  { vm_compute. reflexivity. }
  destruct (Hex 0%nat _ Hf) as (saved & _ & Hs & _ & Hsq & _).
  split; [|split].
  - exists cartItem. exact (conj Hc Hq).
  - exists line. exact (conj Hl Hlq).
  - exists saved. exact (conj Hs Hsq).
Defined.

Lemma mapping_sizeColor :
  Cart.mapping Sample.colorSize = Cart.mapping Sample.sizeColor.
Proof.
  unfold Cart.mapping, Sample.colorSize, Sample.sizeColor. simpl.
  apply insert_insert_ne. done.
Qed.

(** C7 as stated fails in two ways.  At a request for product 99, which
    is not in the catalog, the answer is 404 and nothing changes: the
    guest's line for product 99 keeps its quantity, and on a cart without
    such a line none is added.  At a request for the gown with the options
    color and size, on a cart whose line for the gown has size and color,
    the same mapping in the other order, the answer is 201 and the cart
    has two lines, the first with its quantity as before. *)
Lemma merge_rule_counterexample :
  (status (postCart Sample.dbOrphan Sample.addGhost).2 = 404%nat
   ∧ ¬ merged_as_claimed Sample.dbOrphan "guest" 99 Sample.addGhost
         (postCart Sample.dbOrphan Sample.addGhost).1
   ∧ status (postUserCart Sample.db0 "u1" Sample.addGhost).2 = 404%nat
   ∧ ¬ added_as_claimed Sample.db0 "u1" 99 Sample.addGhost
         (postUserCart Sample.db0 "u1" Sample.addGhost).1)
  ∧ (Cart.mapping Sample.colorSize = Cart.mapping Sample.sizeColor
     ∧ status (postCart (postCart Sample.db0
                           (Sample.addGown Sample.sizeColor 2)).1
                 (Sample.addGown Sample.colorSize 3)).2 = 201%nat
     ∧ map (λ it, (Cart.selectedOptions it, Cart.quantity it))
         (carts (postCart (postCart Sample.db0
                             (Sample.addGown Sample.sizeColor 2)).1
                   (Sample.addGown Sample.colorSize 3)).1)
       = [(Sample.sizeColor, 2%Z); (Sample.colorSize, 3%Z)]
     ∧ ¬ merged_as_claimed
           (postCart Sample.db0 (Sample.addGown Sample.sizeColor 2)).1
           "guest" 1 (Sample.addGown Sample.colorSize 3)
           (postCart (postCart Sample.db0
                        (Sample.addGown Sample.sizeColor 2)).1
              (Sample.addGown Sample.colorSize 3)).1).
Proof.
  split.
  - split; [reflexivity|]. split; [|split].
    + intros H. destruct H as (_ & i & it & it' & Hi & _ & Hi' & Hq).
      { exists Sample.orphanLine. split; [apply list_elem_of_here|].
        by repeat split. }
      destruct i as [|i]; [|discriminate Hi].
      injection Hi as <-. injection Hi' as <-. discriminate Hq.
    + reflexivity.
    + intros H. destruct H as (it & Hit).
      { intros it Hit. by apply elem_of_nil in Hit. }
      discriminate Hit.
  - split; [exact mapping_sizeColor|]. split; [reflexivity|].
    split; [reflexivity|].
    intros H. destruct H as (Hlen & _).
    { eexists. split; [apply list_elem_of_here|].
      split; [reflexivity|]. split; [reflexivity|].
      symmetry. exact mapping_sizeColor. }
    discriminate Hlen.
Qed.

(** The scenario of the spec: a line with [size = M], then the same product
    with [size = L], gives two lines. *)
Example two_sizes_two_lines :
  map (λ it, (Cart.selectedOptions it, Cart.quantity it))
      (carts (postCart (postCart Sample.db0 (Sample.addGown Sample.sizeM 1)).1
                (Sample.addGown Sample.sizeL 1)).1)
  = [(Sample.sizeM, 1%Z); (Sample.sizeL, 1%Z)].
Proof. by vm_compute. Qed.

(** ** The snapshot taken by a new cart line (C8) *)

Lemma addToCart_withBody db userId req n p img :
  addToCart db userId (withBody req n p img) = addToCart db userId req.
Proof. done. Qed.

Lemma putProduct_frame db id preq :
  carts (putProduct db id preq).1 = carts db
  ∧ wishlists (putProduct db id preq).1 = wishlists db
  ∧ coupons (putProduct db id preq).1 = coupons db
  ∧ orders (putProduct db id preq).1 = orders db
  ∧ categories (putProduct db id preq).1 = categories db.
Proof.
  unfold putProduct. destruct (mainImageUpdate preq) as [img|]; [|done].
  unfold findOneAndUpdate. by destruct (findOne _ _) as [[i p]|].
Qed.

(** C8: when add-to-cart creates a line, on either route, its price, product
    name and image are those of the product found at that time, whatever
    the request body says; and after any product update the cart holds the
    same lines, so the stored fields of that line are unchanged. *)
Theorem cart_line_snapshot (db : DB) (userId : string) (req : CartReq.t)
    (product : Product.t) :
  findProduct (products db) (CartReq.productId req) = Some product →
  findOne (Cart.sameLine userId (Product.id product)
             (default [] (CartReq.selectedOptions req))) (carts db) = None →
  ∃ cartItem,
    carts (addToCart db userId req).1 = carts db ++ [cartItem]
    ∧ (addToCart db userId req).2 = respond 201 (cartBody cartItem)
    ∧ Cart.price cartItem = Product.price product
    ∧ Cart.productName cartItem = Product.name product
    ∧ Cart.image cartItem = Product.mainImage product
    ∧ (∀ n p img,
         addToCart db userId (withBody req n p img) = addToCart db userId req)
    ∧ postUserCart db userId req = addToCart db userId req
    ∧ postCart db req = addToCart db (default "guest" (CartReq.userId req)) req
    ∧ (∀ id preq,
         carts (putProduct (addToCart db userId req).1 id preq).1
         = carts db ++ [cartItem])
    ∧ (∀ id preq,
         carts (putProduct (addToCart db userId req).1 id preq).1
           !! length (carts db) = Some cartItem).
Proof.
  intros Hp Hf. pose proof (addToCart_new _ _ _ _ Hp Hf) as H1.
  set (cartItem := Cart.mk _ _ _ _ _ _ _ _ _) in H1. exists cartItem.
  split; [by rewrite H1|]. split; [by rewrite H1|].
  do 3 (split; [done|]).
  split; [intros n p img; apply addToCart_withBody|].
  do 2 (split; [done|]). split.
  - intros id preq. rewrite (proj1 (putProduct_frame _ id preq)).
    by rewrite H1.
  - intros id preq. rewrite (proj1 (putProduct_frame _ id preq)), H1. simpl.
    by rewrite lookup_app_r, Nat.sub_diag.
Qed.

Lemma cart_line_snapshot_witness :
  ∃ cartItem,
    carts (addToCart Sample.db0 "guest" (Sample.addGown Sample.sizeM 2)).1
    = [cartItem]
    ∧ Cart.price cartItem = 250%Q
    ∧ Cart.productName cartItem = "Gown"
    ∧ Cart.image cartItem = "/images/gown.jpg"
    ∧ Product.price <$>
        products (putProduct
                    (addToCart Sample.db0 "guest"
                       (Sample.addGown Sample.sizeM 2)).1 1 Sample.reprice).1
      = [999%Q; 350%Q]
    ∧ carts (putProduct
               (addToCart Sample.db0 "guest"
                  (Sample.addGown Sample.sizeM 2)).1 1 Sample.reprice).1
      = [cartItem].
Proof.
  destruct (cart_line_snapshot Sample.db0 "guest"
              (Sample.addGown Sample.sizeM 2) Sample.gown eq_refl eq_refl)
    as (cartItem & Hc & _ & Hp & Hn & Hi & _ & _ & _ & Hput & _).
  exists cartItem.
  exact (conj Hc (conj Hp (conj Hn (conj Hi
           (conj eq_refl (Hput 1%Z Sample.reprice)))))).
Defined.

(** ** The wishlist as a set (C9) *)

Lemma sameEntry_spec u p w :
  Wishlist.sameEntry u p w = true
  ↔ (Wishlist.userId w, Wishlist.productId w) = (u, p).
Proof.
  unfold Wishlist.sameEntry.
  rewrite andb_true_iff, bool_decide_eq_true, Z.eqb_eq. split.
  - by intros [-> ->].
  - by intros [= -> ->].
Qed.

Lemma uniqueEntries_add (l : list Wishlist.t) (w : Wishlist.t) :
  uniqueEntries l →
  findOne (Wishlist.sameEntry (Wishlist.userId w) (Wishlist.productId w)) l
  = None →
  uniqueEntries (l ++ [w]).
Proof.
  unfold uniqueEntries. intros Hu Hf. rewrite map_app. simpl.
  apply NoDup_app. split; [done|]. split; [|apply NoDup_singleton].
  intros k Hk Hw. apply list_elem_of_singleton in Hw as ->.
  apply list_elem_of_fmap in Hk as (w' & Hpair & Hin).
  rewrite findOne_None in Hf. specialize (Hf w' Hin).
  assert (Wishlist.sameEntry (Wishlist.userId w) (Wishlist.productId w) w'
          = true) by (by apply sameEntry_spec).
  congruence.
Qed.

Lemma uniqueEntries_delete (l : list Wishlist.t) (i : nat) :
  uniqueEntries l → uniqueEntries (delete i l).
Proof.
  unfold uniqueEntries. intros Hu.
  eapply sublist_NoDup; [exact Hu|].
  apply (fmap_sublist (λ w, (Wishlist.userId w, Wishlist.productId w))),
        sublist_delete.
Qed.

Lemma postWishlist_unique db req :
  uniqueEntries (wishlists db) →
  uniqueEntries (wishlists (postWishlist db req).1).
Proof.
  intros Hu. unfold postWishlist.
  destruct (findOne _ _) as [[i w]|] eqn:Hf; [done|]. simpl.
  by apply uniqueEntries_add.
Qed.

Lemma postUserWishlist_unique db userId productId :
  uniqueEntries (wishlists db) →
  uniqueEntries (wishlists (postUserWishlist db userId productId).1).
Proof.
  intros Hu. unfold postUserWishlist.
  destruct (findOne _ (products db)) as [[j product]|]; [|done].
  destruct (findOne _ (wishlists db)) as [[i w]|] eqn:Hf; [done|]. simpl.
  by apply uniqueEntries_add.
Qed.

Lemma deleteWishlist_unique db id :
  uniqueEntries (wishlists db) →
  uniqueEntries (wishlists (deleteWishlist db id).1).
Proof.
  intros Hu. unfold deleteWishlist, findOneAndDelete.
  destruct (findOne _ _) as [[i w]|]; [|done]. simpl.
  by apply uniqueEntries_delete.
Qed.

Lemma deleteUserWishlist_unique db userId productId :
  uniqueEntries (wishlists db) →
  uniqueEntries (wishlists (deleteUserWishlist db userId productId).1).
Proof.
  intros Hu. unfold deleteUserWishlist, findOneAndDelete.
  destruct (findOne _ _) as [[i w]|]; [|done]. simpl.
  by apply uniqueEntries_delete.
Qed.

Lemma applyCoupon_wishlists db now code items :
  wishlists (applyCoupon db now code items).1 = wishlists db.
Proof.
  destruct (applyCoupon_cases db now code items) as [(i & c & d & H)|H].
  - by rewrite (applyCoupon_accepted _ _ _ _ _ _ _ H).
  - by rewrite (applyCoupon_unused _ _ _ _ H).
Qed.

Lemma handle_wishlists_unique validate db r :
  uniqueEntries (wishlists db) →
  uniqueEntries (wishlists (handle validate db r).1).
Proof.
  intros Hu. destruct r; simpl.
  - by rewrite postCouponsValidate_readonly.
  - unfold postOrders.
    pose proof (applyCoupon_wishlists db now
                  (orElseS (OrderReq.couponCode req) "") (OrderReq.items req))
      as Hw.
    destruct (applyCoupon _ _ _ _) as [db1 d]. simpl in Hw.
    destruct (validate _); simpl; by rewrite Hw.
  - unfold postCheckout. by destruct (validate _).
  - unfold postCart, addToCart.
    destruct (findProduct _ _); [|done]. by destruct (findOne _ _) as [[??]|].
  - unfold postUserCart, addToCart.
    destruct (findProduct _ _); [|done]. by destruct (findOne _ _) as [[??]|].
  - by apply postWishlist_unique.
  - by apply postUserWishlist_unique.
  - by apply deleteWishlist_unique.
  - by apply deleteUserWishlist_unique.
  - unfold deleteCategory. destruct (Nat.ltb _ _); [done|].
    unfold findOneAndUpdate. by destruct (findOne _ _) as [[??]|].
  - by rewrite (proj1 (proj2 (putProduct_frame _ _ _))).
Qed.

Lemma countDocuments_unique (l : list Wishlist.t) u p :
  uniqueEntries l → (countDocuments (Wishlist.sameEntry u p) l ≤ 1)%nat.
Proof.
  unfold uniqueEntries. induction l as [|w l IH]; simpl; [unfold countDocuments; simpl; lia|].
  intros [Hw Hl]%NoDup_cons. unfold countDocuments in *. simpl.
  destruct (Wishlist.sameEntry u p w) eqn:Hs; [|by apply IH].
  apply sameEntry_spec in Hs. simpl.
  assert (findOne (Wishlist.sameEntry u p) l = None) as Hn.
  { apply findOne_None. intros w' Hin.
    destruct (Wishlist.sameEntry u p w') eqn:Hs'; [|done].
    apply sameEntry_spec in Hs'. destruct Hw.
    apply list_elem_of_fmap. exists w'. split; [congruence|done]. }
  apply countDocuments_none in Hn. unfold countDocuments in Hn.
  rewrite Hn. lia.
Qed.

(** C9, amended: an add-to-wishlist request whose user and product already
    have an entry changes nothing and is answered 400; on
    [POST /api/user/:userId/wishlist] the answer is 404 instead when no
    product has that identifier.  Served from a wishlist with at most one
    entry per user and product, no sequence of requests leaves a wishlist
    with more. *)
Theorem wishlist_is_a_set :
  (∀ db req i w,
     findOne (Wishlist.sameEntry (default "guest" (WishlistReq.userId req))
                (WishlistReq.productId req)) (wishlists db) = Some (i, w) →
     postWishlist db req = (db, respond 400 (message alreadyInWishlist)))
  ∧ (∀ db userId productId i w j product,
       findOne (Wishlist.sameEntry userId productId) (wishlists db)
       = Some (i, w) →
       findOne (λ p, Z.eqb (Product.id p) productId) (products db)
       = Some (j, product) →
       postUserWishlist db userId productId
       = (db, respond 400 (message alreadyInWishlist)))
  ∧ (∀ db userId productId,
       findOne (λ p, Z.eqb (Product.id p) productId) (products db) = None →
       postUserWishlist db userId productId
       = (db, respond 404 (message productNotFound)))
  ∧ (∀ validate db rs,
       uniqueEntries (wishlists db) →
       uniqueEntries (wishlists (run validate db rs)))
  ∧ (∀ validate db rs userId productId,
       uniqueEntries (wishlists db) →
       (countDocuments (Wishlist.sameEntry userId productId)
          (wishlists (run validate db rs)) ≤ 1)%nat).
Proof.
  assert (Hrun : ∀ validate db rs,
            uniqueEntries (wishlists db) →
            uniqueEntries (wishlists (run validate db rs))).
  { intros validate db rs. revert db. unfold run.
    induction rs as [|r rs IH]; intros db Hu; simpl; [done|].
    apply IH. by apply handle_wishlists_unique. }
  refine (conj _ (conj _ (conj _ (conj Hrun _)))).
  - intros db req i w Hf. unfold postWishlist. by rewrite Hf.
  - intros db userId productId i w j product Hf Hp.
    unfold postUserWishlist. by rewrite Hp, Hf.
  - intros db userId productId Hp. unfold postUserWishlist. by rewrite Hp.
  - intros validate db rs userId productId Hu.
    by apply countDocuments_unique, Hrun.
Qed.

Lemma wishlist_is_a_set_witness :
  postWishlist Sample.dbWish Sample.wishGhost
  = (Sample.dbWish, respond 400 (message alreadyInWishlist))
  ∧ postUserWishlist (postUserWishlist Sample.db0 "u1" 1).1 "u1" 1
    = ((postUserWishlist Sample.db0 "u1" 1).1,
       respond 400 (message alreadyInWishlist))
  ∧ postUserWishlist Sample.db0 "u1" 99
    = (Sample.db0, respond 404 (message productNotFound))
  ∧ uniqueEntries
      (wishlists (run Sample.accept Sample.db0
                    [PostWishlist Sample.wishGhost;
                     PostUserWishlist "u1" 1;
                     PostWishlist Sample.wishGhost;
                     DeleteUserWishlist "u1" 1;
                     PostUserWishlist "u1" 1]))
  ∧ (countDocuments (Wishlist.sameEntry "u1" 99)
       (wishlists (run Sample.accept Sample.db0
                     [PostWishlist Sample.wishGhost;
                      PostWishlist Sample.wishGhost])) ≤ 1)%nat.
Proof.
  destruct wishlist_is_a_set as (H1 & H2 & H3 & H4 & H5).
  assert (Hempty : uniqueEntries (wishlists Sample.db0)) by apply NoDup_nil_2.
  refine (conj _ (conj _ (conj _ (conj _ _)))).
  - refine (H1 Sample.dbWish Sample.wishGhost 0%nat
               (Wishlist.mk 1 "u1" 99 "Ghost" 10 "") _).
    vm_compute. reflexivity.
  - refine (H2 (postUserWishlist Sample.db0 "u1" 1).1 "u1" 1%Z 0%nat
               (Wishlist.mk 1 "u1" 1 "Gown" 250 "/images/gown.jpg")
               0%nat Sample.gown _ _); vm_compute; reflexivity.
  - exact (H3 Sample.db0 "u1" 99%Z eq_refl).
  - exact (H4 Sample.accept Sample.db0 _ Hempty).
  - exact (H5 Sample.accept Sample.db0 _ "u1" 99%Z Hempty).
Defined.

(** C9 as stated fails on [POST /api/user/:userId/wishlist] for product 99,
    which user u1 has wished for through [POST /api/wishlist] and which is
    not in the catalog: the answer is 404, not 400. *)
Lemma duplicate_wish_counterexample :
  Sample.dbWish = (handle Sample.accept Sample.db0
                     (PostWishlist Sample.wishGhost)).1
  ∧ findOne (Wishlist.sameEntry "u1" 99) (wishlists Sample.dbWish)
    = Some (0%nat, Wishlist.mk 1 "u1" 99 "Ghost" 10 "")
  ∧ status (postUserWishlist Sample.dbWish "u1" 99).2 = 404%nat
  ∧ ¬ duplicate_rejected Sample.dbWish
        (postUserWishlist Sample.dbWish "u1" 99).1
        (postUserWishlist Sample.dbWish "u1" 99).2.
Proof.
  split; [reflexivity|]. split; [by vm_compute|]. split; [reflexivity|].
  intros (Hs & _). discriminate Hs.
Qed.

(** ** Soft deletion of a category (C10) *)

Lemma elem_of_filter_bool {A} (P : A → bool) (l : list A) (x : A) :
  x ∈ List.filter P l ↔ x ∈ l ∧ P x = true.
Proof. by rewrite !list_elem_of_In, List.filter_In. Qed.

Lemma listed_spec db c :
  c ∈ listed db ↔ c ∈ categories db ∧ Category.isActive c = true.
Proof.
  unfold listed, getCategories. simpl.
  by rewrite merge_sort_Permutation, elem_of_filter_bool.
Qed.

Lemma countDocuments_pos {A} (P : A → bool) (l : list A) (x : A) :
  x ∈ l → P x = true → (0 < countDocuments P l)%nat.
Proof.
  intros Hin Hp. unfold countDocuments.
  assert (x ∈ List.filter P l) as Hf by (by apply elem_of_filter_bool).
  destruct (List.filter P l); [by apply elem_of_nil in Hf|simpl; lia].
Qed.

Lemma deleteCategory_done db categoryId :
  status (deleteCategory db categoryId).2 = 200%nat →
  ∃ i c,
    findOne (λ c, Z.eqb (Category.id c) categoryId) (categories db)
    = Some (i, c)
    ∧ deleteCategory db categoryId
      = (setCategories db (<[ i := Category.deactivate c ]> (categories db)),
         respond 200 (message categoryDeleted)).
Proof.
  unfold deleteCategory. destruct (Nat.ltb _ _); [discriminate|].
  unfold findOneAndUpdate.
  destruct (findOne _ (categories db)) as [[i c]|]; [|discriminate].
  intros _. by exists i, c.
Qed.

Lemma deactivated_hidden (l : list Category.t) (i : nat) (c x : Category.t)
    (categoryId : Z) :
  NoDup (map Category.id l) →
  l !! i = Some c → Category.id c = categoryId →
  x ∈ <[ i := Category.deactivate c ]> l →
  Z.eqb (Category.id x) categoryId && Category.isActive x = false.
Proof.
  intros Hnd Hi Hid Hx. apply list_elem_of_lookup in Hx as (j & Hj).
  destruct (decide (i = j)) as [<-|Hne].
  - rewrite list_lookup_insert_eq in Hj by (by eapply lookup_lt_Some).
    injection Hj as <-. simpl. apply andb_false_r.
  - rewrite list_lookup_insert_ne in Hj by done.
    destruct (Z.eqb (Category.id x) categoryId) eqn:He; [|done].
    apply Z.eqb_eq in He. destruct Hne.
    apply (NoDup_lookup _ i j categoryId Hnd).
    + by rewrite list_lookup_fmap, Hi, <- Hid.
    + by rewrite list_lookup_fmap, Hj, <- He.
Qed.

(** C10: deleting a category that still has an active product is answered
    400 and changes nothing.  A deletion that succeeds keeps the document
    and only sets its [isActive] to false; the document is then absent from
    the answers of [GET /api/categories] and [GET /api/categories/:id], and,
    identifiers being unique, no category with that identifier is listed
    and [GET /api/categories/:id] answers 404. *)
Theorem deleteCategory_soft (db : DB) (categoryId : Z) :
  (∀ p, p ∈ products db → Product.categoryId p = categoryId →
        Product.isActive p = true →
        ∃ n, (0 < n)%nat
             ∧ deleteCategory db categoryId
               = (db, respond 400 (message (cannotDeleteCategory n))))
  ∧ (status (deleteCategory db categoryId).2 = 200%nat →
     ∃ i c,
       let db' := (deleteCategory db categoryId).1 in
       categories db !! i = Some c
       ∧ Category.id c = categoryId
       ∧ categories db' = <[ i := Category.deactivate c ]> (categories db)
       ∧ categories db' !! i = Some (Category.deactivate c)
       ∧ length (categories db') = length (categories db)
       ∧ (Category.isActive (Category.deactivate c) = false
          ∧ Category.id (Category.deactivate c) = Category.id c
          ∧ Category.name (Category.deactivate c) = Category.name c
          ∧ Category.description (Category.deactivate c)
            = Category.description c
          ∧ Category.image (Category.deactivate c) = Category.image c
          ∧ Category.parentId (Category.deactivate c) = Category.parentId c
          ∧ Category.order (Category.deactivate c) = Category.order c
          ∧ Category.seoTitle (Category.deactivate c) = Category.seoTitle c
          ∧ Category.seoDescription (Category.deactivate c)
            = Category.seoDescription c
          ∧ Category.createdAt (Category.deactivate c) = Category.createdAt c)
       ∧ (products db' = products db ∧ coupons db' = coupons db
          ∧ carts db' = carts db ∧ wishlists db' = wishlists db
          ∧ orders db' = orders db)
       ∧ (Category.deactivate c ∉ listed db')
       ∧ getCategory db' categoryId
         ≠ respond 200 (categoryBody (Category.deactivate c))
       ∧ (NoDup (map Category.id (categories db)) →
          (∀ x, x ∈ listed db' → Category.id x ≠ categoryId)
          ∧ getCategory db' categoryId
            = respond 404 (message categoryNotFound))).
Proof.
  split.
  - intros p Hin Hc Ha. unfold deleteCategory.
    set (n := countDocuments _ (products db)).
    assert (0 < n)%nat as Hn.
    { apply (countDocuments_pos _ _ p Hin).
      rewrite Ha, andb_true_r. by apply Z.eqb_eq. }
    exists n. split; [done|].
    by rewrite (proj2 (Nat.ltb_lt 0 n) Hn).
  - intros Hs. apply deleteCategory_done in Hs as (i & c & Hf & ->).
    exists i, c. simpl.
    pose proof (findOne_lt _ _ _ _ Hf) as Hlt.
    apply findOne_Some in Hf as (Hi & Hid%Z.eqb_eq & _).
    do 3 (split; [done|]).
    split; [by apply list_lookup_insert_eq|].
    split; [by rewrite length_insert|].
    split; [done|]. split; [done|]. split; [|split].
    + intros [_ Hact]%listed_spec. discriminate Hact.
    + unfold getCategory.
      destruct (findOne _ _) as [[j x]|] eqn:Hg; [|discriminate].
      apply findOne_Some in Hg as (_ & Hp & _). intros [= ->].
      simpl in Hp. by rewrite andb_false_r in Hp.
    + intros Hnd. split.
      * intros x [Hx Hact]%listed_spec Hxid. simpl in Hx.
        pose proof (deactivated_hidden _ _ _ _ _ Hnd Hi Hid Hx) as Hh.
        rewrite Hact, andb_true_r in Hh. apply Z.eqb_neq in Hh. done.
      * unfold getCategory.
        assert (findOne (λ c0, Z.eqb (Category.id c0) categoryId
                               && Category.isActive c0)
                  (categories
                     (setCategories db
                        (<[ i := Category.deactivate c ]> (categories db))))
                = None) as ->; [|done].
        apply findOne_None. intros x Hx.
        by apply (deactivated_hidden _ _ _ _ _ Hnd Hi Hid Hx).
Qed.

Lemma deleteCategory_soft_witness :
  (∃ n, (0 < n)%nat
        ∧ deleteCategory Sample.db0 2
          = (Sample.db0, respond 400 (message (cannotDeleteCategory n))))
  ∧ status (deleteCategory Sample.db0 3).2 = 200%nat
  ∧ NoDup (map Category.id (categories Sample.db0))
  ∧ categories (deleteCategory Sample.db0 3).1
    = [Sample.robes; Sample.kids; Category.deactivate Sample.caps]
  ∧ (∀ x, x ∈ listed (deleteCategory Sample.db0 3).1 → Category.id x ≠ 3%Z)
  ∧ getCategory (deleteCategory Sample.db0 3).1 3
    = respond 404 (message categoryNotFound).
Proof.
  assert (Hin : Sample.chair ∈ products Sample.db0).
  { apply list_elem_of_further, list_elem_of_here. }
  assert (Hnd : NoDup (map Category.id (categories Sample.db0))).
  { apply (bool_decide_unpack _). vm_compute. exact I. }
  destruct (deleteCategory_soft Sample.db0 3%Z) as (_ & Hdone).
  destruct (Hdone eq_refl)
    as (i & c & _ & _ & Hcats & _ & _ & _ & _ & _ & _ & Hu).
  refine (conj _ (conj eq_refl (conj Hnd (conj eq_refl (Hu Hnd))))).
  exact (proj1 (deleteCategory_soft Sample.db0 2%Z) Sample.chair Hin
               eq_refl eq_refl).
Defined.

(** * Further properties *)

(** ** Images *)

Lemma prefix_app (p s : string) :
  String.prefix p s = true ↔ ∃ rest, s = p +:+ rest.
Proof.
  revert s. induction p as [|a p IH]; intros s.
  - destruct s; (split; [intros _; by eexists|done]).
  - destruct s as [|b s]; simpl; [split; [done|by intros (rest & [=])]|].
    destruct (Ascii.ascii_dec a b) as [->|Hne].
    + rewrite IH. split; intros (rest & H); exists rest; [by rewrite H|].
      by injection H.
    + split; [done|]. intros (rest & [= ? _]). by destruct Hne.
Qed.

(** X1: a string is accepted as an image exactly when it is
    [data:image/], one of jpeg, jpg, png, gif, webp and avif, [;base64,] and
    any rest; [optimizeBase64Image] answers an accepted string with the
    string itself and any other with null. *)
Theorem isValidBase64Image_spec (s : string) :
  (isValidBase64Image s = true
   ↔ ∃ ty rest,
       ty ∈ ["jpeg"; "jpg"; "png"; "gif"; "webp"; "avif"]
       ∧ s = ("data:image/" +:+ ty +:+ ";base64,") +:+ rest)
  ∧ (isValidBase64Image s = true → optimizeBase64Image s = Some s)
  ∧ (isValidBase64Image s = false → optimizeBase64Image s = None)
  ∧ (isValidBase64Image s = true → truthyS s = true).
Proof.
  assert (Hspec : isValidBase64Image s = true
                  ↔ ∃ ty rest,
                      ty ∈ ["jpeg"; "jpg"; "png"; "gif"; "webp"; "avif"]
                      ∧ s = ("data:image/" +:+ ty +:+ ";base64,") +:+ rest).
  { unfold isValidBase64Image. rewrite existsb_exists. split.
    - intros (ty & Hin%list_elem_of_In & (rest & ->)%prefix_app).
      by exists ty, rest.
    - intros (ty & rest & Hin & ->). exists ty.
      split; [by apply list_elem_of_In|]. apply prefix_app. by exists rest. }
  split; [exact Hspec|]. unfold optimizeBase64Image.
  split; [by intros ->|]. split; [by intros ->|].
  intros (ty & rest & _ & ->)%Hspec. done.
Qed.

Lemma isValidBase64Image_spec_witness :
  optimizeBase64Image "data:image/png;base64,iVBOR"
  = Some "data:image/png;base64,iVBOR"
  ∧ optimizeBase64Image "data:image/bmp;base64,Qk0=" = None
  ∧ truthyS "data:image/png;base64,iVBOR" = true.
Proof.
  destruct (isValidBase64Image_spec "data:image/png;base64,iVBOR")
    as (_ & Hv & _ & Ht).
  destruct (isValidBase64Image_spec "data:image/bmp;base64,Qk0=")
    as (_ & _ & Hn & _).
  exact (conj (Hv eq_refl) (conj (Hn eq_refl) (Ht eq_refl))).
Defined.

(** ** Products *)

Lemma fmap_insert_same {A B} (f : A → B) (l : list A) (i : nat) (x y : A) :
  l !! i = Some x → f y = f x → f <$> <[ i := y ]> l = f <$> l.
Proof.
  intros Hi Hf. rewrite list_fmap_insert, Hf.
  apply list_insert_id. by rewrite list_lookup_fmap, Hi.
Qed.

Lemma findOneAndUpdate_fmap {A B} (P : A → bool) (g : A → A) (f : A → B)
    (l l' : list A) (x : A) :
  (∀ y, f (g y) = f y) →
  findOneAndUpdate P g l = Some (l', x) → f <$> l' = f <$> l.
Proof.
  intros Hf. unfold findOneAndUpdate.
  destruct (findOne P l) as [[i y]|] eqn:Hfind; [|discriminate].
  intros [= <- _]. apply findOne_Some in Hfind as (Hi & _).
  by eapply fmap_insert_same.
Qed.

Lemma findOne_insert_same {A} (P : A → bool) (l : list A) (i : nat)
    (x y : A) :
  findOne P l = Some (i, x) → P y = true →
  findOne P (<[ i := y ]> l) = Some (i, y).
Proof.
  intros Hf Hy. pose proof (findOne_lt _ _ _ _ Hf) as Hlt.
  apply findOne_Some in Hf as (Hi & _ & Hbefore).
  unfold findOne. apply list_find_Some.
  split; [by apply list_lookup_insert_eq|]. split; [done|].
  intros j z Hj Hji. rewrite list_lookup_insert_ne in Hj by lia.
  rewrite (Hbefore j z Hj Hji). done.
Qed.

(** X2: [PUT /api/products/:id] keeps the sequence of identifiers, [_id]s
    and [isActive] flags of the products, so it neither creates nor deletes
    nor restores a product; a main image that is not an accepted image is
    answered 400 and an unknown identifier 404, both with no change. *)
Theorem putProduct_keeps_identity (db : DB) (id : Z) (req : ProductReq.t) :
  (λ p, (Product.id p, Product.oid p, Product.isActive p))
    <$> products (putProduct db id req).1
  = (λ p, (Product.id p, Product.oid p, Product.isActive p)) <$> products db
  ∧ (∀ img, ProductReq.mainImage req = Some img → truthyS img = true →
            isValidBase64Image img = false →
            putProduct db id req
            = (db, respond 400 (message invalidMainImage)))
  ∧ (findOne (λ p, Z.eqb (Product.id p) id) (products db) = None →
     (putProduct db id req).1 = db
     ∧ (status (putProduct db id req).2 = 400%nat
        ∨ (putProduct db id req).2 = respond 404 (message productNotFound))).
Proof.
  split; [|split].
  - unfold putProduct. destruct (mainImageUpdate req) as [img|]; [|done].
    destruct (findOneAndUpdate _ _ _) as [[l p]|] eqn:Hu; [|done]. simpl.
    eapply findOneAndUpdate_fmap; [|exact Hu]. by intros [].
  - intros img Hm Ht Hv. unfold putProduct, mainImageUpdate.
    by rewrite Hm, Ht, Hv.
  - intros Hf. unfold putProduct.
    destruct (mainImageUpdate req) as [img|]; [|split; [done|by left]].
    unfold findOneAndUpdate. rewrite Hf. split; [done|by right].
Qed.

Lemma putProduct_keeps_identity_witness :
  putProduct Sample.db0 1
    (ProductReq.mk "Gown" None 250 None 10 1 (Some "gown.bmp"))
  = (Sample.db0, respond 400 (message invalidMainImage))
  ∧ (putProduct Sample.db0 5 Sample.reprice).1 = Sample.db0
  ∧ (status (putProduct Sample.db0 5 Sample.reprice).2 = 400%nat
     ∨ (putProduct Sample.db0 5 Sample.reprice).2
       = respond 404 (message productNotFound)).
Proof.
  pose (bad := ProductReq.mk "Gown" None 250 None 10 1 (Some "gown.bmp")).
  destruct (putProduct_keeps_identity Sample.db0 1 bad) as (_ & H400 & _).
  destruct (putProduct_keeps_identity Sample.db0 5 Sample.reprice)
    as (_ & _ & H404).
  exact (conj (H400 "gown.bmp" eq_refl eq_refl eq_refl) (H404 eq_refl)).
Defined.

Lemma reverse_reverse (s : string) : reverse (reverse s) = s.
Proof.
  unfold reverse.
  by rewrite String.list_ascii_of_string_of_list_ascii, rev_involutive,
    String.string_of_list_ascii_of_string.
Qed.

Lemma dropAll_None (ws : list string) (n : nat) (s : string) :
  dropFirst ws s = None → dropAll ws n s = s.
Proof. intros H. destruct n; [done|]. simpl. by rewrite H. Qed.

Lemma trim_plain (s : string) :
  startsWithSpace s = false → endsWithSpace s = false → trim s = s.
Proof.
  unfold startsWithSpace, endsWithSpace, trim, trimStart, trimEnd.
  destruct (dropFirst whiteSpace s) eqn:H1; [discriminate|].
  destruct (dropFirst (map reverse whiteSpace) (reverse s)) eqn:H2;
    [discriminate|].
  intros _ _. rewrite (dropAll_None _ _ _ H1), (dropAll_None _ _ _ H2).
  apply reverse_reverse.
Qed.

(** X3: the product answered by a successful [PUT /api/products/:id] is
    stored; it carries the name of the request without the white space
    around it, the name itself when it neither starts nor ends with white
    space; it carries the price of the request, and an original price only
    when the request has one above zero. *)
Theorem putProduct_stored (db : DB) (id : Z) (req : ProductReq.t)
    (p : Product.t) :
  (putProduct db id req).2 = respond 200 (productBody p) →
  p ∈ products (putProduct db id req).1
  ∧ Product.id p = id
  ∧ Product.name p = trim (ProductReq.name req)
  ∧ (startsWithSpace (ProductReq.name req) = false →
     endsWithSpace (ProductReq.name req) = false →
     Product.name p = ProductReq.name req)
  ∧ Product.price p = ProductReq.price req
  ∧ (∀ o, Product.originalPrice p = Some o →
          (0 < o)%Q ∧ ProductReq.originalPrice req = Some o)
  ∧ (∀ o, ProductReq.originalPrice req = Some o → (o <= 0)%Q →
          Product.originalPrice p = None).
Proof.
  unfold putProduct. destruct (mainImageUpdate req) as [img|]; [|discriminate].
  unfold findOneAndUpdate.
  destruct (findOne _ (products db)) as [[i p0]|] eqn:Hf; [|discriminate].
  simpl. intros [= <-].
  pose proof (findOne_lt _ _ _ _ Hf) as Hlt.
  apply findOne_Some in Hf as (_ & Hid%Z.eqb_eq & _).
  split; [|split; [done|split; [done|split; [|split; [done|split]]]]].
  - eapply list_elem_of_lookup_2. by apply list_lookup_insert_eq.
  - intros H1 H2. unfold updateData. simpl. by apply trim_plain.
  - intros o. unfold updateData. simpl.
    destruct (ProductReq.originalPrice req) as [o'|]; [|discriminate].
    destruct (Qle_bool o' 0) eqn:Hle; [discriminate|]. intros [= ->].
    split; [|done]. apply Qnot_le_lt. intros H%Qle_bool_iff. congruence.
  - intros o Ho Hle%Qle_bool_iff. unfold updateData. simpl.
    by rewrite Ho, Hle.
Qed.

Lemma putProduct_stored_witness :
  ∃ p, (putProduct Sample.db0 17
          (ProductReq.mk " Chair 2 " None 400 None 25 2 None)).2
       = respond 200 (productBody p)
       ∧ p ∈ products (putProduct Sample.db0 17
                         (ProductReq.mk " Chair 2 " None 400 None 25 2
                            None)).1
       ∧ Product.name p = "Chair 2" ∧ Product.price p = 400%Q.
Proof.
  eexists. split; [reflexivity|].
  destruct (putProduct_stored Sample.db0 17
              (ProductReq.mk " Chair 2 " None 400 None 25 2 None) _ eq_refl)
    as (Hin & _ & Hn & _ & Hp & _).
  exact (conj Hin (conj Hn Hp)).
Defined.

Lemma deleteProduct_done db id :
  statusOf (deleteProduct db id).2 = 200%nat →
  ∃ i p,
    findOne (λ p, Z.eqb (Product.id p) id) (products db) = Some (i, p)
    ∧ deleteProduct db id
      = (setProducts db (<[ i := deactivateProduct p ]> (products db)),
         sent 200 "Product deleted successfully").
Proof.
  unfold deleteProduct, findOneAndUpdate.
  destruct (findOne _ (products db)) as [[i p]|]; [|discriminate].
  intros _. by exists i, p.
Qed.

Lemma deactivated_product_hidden (l : list Product.t) (i : nat)
    (p x : Product.t) (id : Z) :
  NoDup (map Product.id l) →
  l !! i = Some p → Product.id p = id →
  x ∈ <[ i := deactivateProduct p ]> l →
  Z.eqb (Product.id x) id && Product.isActive x = false.
Proof.
  intros Hnd Hi Hid Hx. apply list_elem_of_lookup in Hx as (j & Hj).
  destruct (decide (i = j)) as [<-|Hne].
  - rewrite list_lookup_insert_eq in Hj by (by eapply lookup_lt_Some).
    injection Hj as <-. simpl. apply andb_false_r.
  - rewrite list_lookup_insert_ne in Hj by done.
    destruct (Z.eqb (Product.id x) id) eqn:He; [|done].
    apply Z.eqb_eq in He. destruct Hne.
    apply (NoDup_lookup _ i j id Hnd).
    + by rewrite list_lookup_fmap, Hi, <- Hid.
    + by rewrite list_lookup_fmap, Hj, <- He.
Qed.

(** X4: after a successful [DELETE /api/products/:id] the product is kept
    with [isActive] false; identifiers being unique,
    [GET /api/products/:id] answers 404; but the product search of
    add-to-cart, which does not look at [isActive], still finds it, so a
    request to add it to a cart is not answered 404. *)
Theorem deleted_product_still_found (db : DB) (id : Z) :
  statusOf (deleteProduct db id).2 = 200%nat →
  ∃ p,
    findProduct (products (deleteProduct db id).1) (numId id) = Some p
    ∧ Product.id p = id ∧ Product.isActive p = false
    ∧ length (products (deleteProduct db id).1) = length (products db)
    ∧ (∀ userId req,
         CartReq.productId req = numId id →
         status (addToCart (deleteProduct db id).1 userId req).2 = 200%nat
         ∨ status (addToCart (deleteProduct db id).1 userId req).2 = 201%nat)
    ∧ (NoDup (map Product.id (products db)) →
       getProduct (deleteProduct db id).1 id = refused 404 "Product not found").
Proof.
  intros (i & p & Hf & ->)%deleteProduct_done. simpl.
  exists (deactivateProduct p).
  pose proof (findOne_insert_same _ _ _ _ (deactivateProduct p) Hf) as Hf'.
  apply findOne_Some in Hf as (Hi & Hid & _).
  assert (Hfind : findProduct (<[ i := deactivateProduct p ]> (products db))
                              (numId id) = Some (deactivateProduct p)).
  { unfold findProduct. by rewrite (Hf' Hid). }
  split; [done|]. split; [by apply Z.eqb_eq|]. split; [done|].
  split; [by rewrite length_insert|]. split.
  - intros userId req Hreq. unfold addToCart. simpl. rewrite Hreq, Hfind.
    destruct (findOne _ (carts db)) as [[j it]|]; simpl; auto.
  - intros Hnd. unfold getProduct. simpl.
    assert (findOne (λ p0, Z.eqb (Product.id p0) id && Product.isActive p0)
              (<[ i := deactivateProduct p ]> (products db)) = None) as ->;
      [|done].
    apply findOne_None. intros x Hx. apply Z.eqb_eq in Hid.
    by apply (deactivated_product_hidden _ _ _ _ _ Hnd Hi Hid Hx).
Qed.

Lemma deleted_product_still_found_witness :
  getProduct (deleteProduct Sample.db0 1).1 1
  = refused 404 "Product not found"
  ∧ (status (addToCart (deleteProduct Sample.db0 1).1 "guest"
               (Sample.addGown Sample.sizeM 1)).2 = 200%nat
     ∨ status (addToCart (deleteProduct Sample.db0 1).1 "guest"
                 (Sample.addGown Sample.sizeM 1)).2 = 201%nat).
Proof.
  assert (Hnd : NoDup (map Product.id (products Sample.db0))).
  { apply (bool_decide_unpack _). vm_compute. exact I. }
  destruct (deleted_product_still_found Sample.db0 1 eq_refl)
    as (p & _ & _ & _ & _ & Hadd & Hget).
  exact (conj (Hget Hnd)
              (Hadd "guest" (Sample.addGown Sample.sizeM 1) eq_refl)).
Defined.

(** ** Categories *)

Lemma countDocuments_pos_inv {A} (P : A → bool) (l : list A) :
  (0 < countDocuments P l)%nat → ∃ x, x ∈ l ∧ P x = true.
Proof.
  unfold countDocuments. destruct (List.filter P l) as [|x k] eqn:Hf.
  - simpl. lia.
  - intros _. exists x. apply elem_of_filter_bool. rewrite Hf.
    apply list_elem_of_here.
Qed.

(** X5: [DELETE /api/categories/:id] answers 400 exactly when some active
    product has that category; otherwise it answers 200 or 404. *)
Theorem deleteCategory_blocked_iff (db : DB) (categoryId : Z) :
  (status (deleteCategory db categoryId).2 = 400%nat
   ↔ ∃ p, p ∈ products db ∧ Product.categoryId p = categoryId
          ∧ Product.isActive p = true)
  ∧ (status (deleteCategory db categoryId).2 = 400%nat
     ∨ status (deleteCategory db categoryId).2 = 200%nat
     ∨ (deleteCategory db categoryId).2
       = respond 404 (message categoryNotFound)).
Proof.
  unfold deleteCategory.
  set (P := λ p, Z.eqb (Product.categoryId p) categoryId && Product.isActive p).
  destruct (Nat.ltb 0 (countDocuments P (products db))) eqn:Hlt.
  - split; [|by left]. split; [|done]. intros _.
    apply Nat.ltb_lt, countDocuments_pos_inv in Hlt as (p & Hin & Hp).
    exists p. apply andb_true_iff in Hp as [Hc%Z.eqb_eq Ha]. done.
  - assert (Hno : ¬ ∃ p, p ∈ products db ∧ Product.categoryId p = categoryId
                        ∧ Product.isActive p = true).
    { intros (p & Hin & Hc & Ha). apply Nat.ltb_ge in Hlt.
      assert (0 < countDocuments P (products db))%nat; [|lia].
      apply (countDocuments_pos P _ p Hin). unfold P.
      rewrite Ha, andb_true_r. by apply Z.eqb_eq. }
    unfold findOneAndUpdate.
    destruct (findOne _ (categories db)) as [[i c]|]; simpl.
    + split; [|by right; left]. split; [discriminate|done].
    + split; [|by right; right]. split; [discriminate|done].
Qed.

Lemma putCategory_cases db id req :
  (putCategory db id req).1 = db
  ∨ ∃ i c img,
      categories db !! i = Some c
      ∧ (putCategory db id req).1
        = setCategories db
            (<[ i := categoryUpdate req img c ]> (categories db)).
Proof.
  unfold putCategory.
  destruct (imageUpdate _) as [img|]; [|by left].
  unfold findOneAndUpdate.
  destruct (findOne _ (categories db)) as [[i c]|] eqn:Hf; [|by left].
  right. exists i, c, img. by apply findOne_Some in Hf as (Hi & _).
Qed.

(** X6: [PUT /api/categories/:id] keeps the sequence of identifiers,
    [isActive] flags and creation dates of the categories: it cannot bring
    back a deleted category, and the identifiers listed by
    [GET /api/categories] are the same before and after.  An image that is
    not an accepted image is answered 400 with no change. *)
Theorem putCategory_keeps_visibility (db : DB) (id : Z)
    (req : CategoryReq.t) :
  (λ c, (Category.id c, Category.isActive c, Category.createdAt c))
    <$> categories (putCategory db id req).1
  = (λ c, (Category.id c, Category.isActive c, Category.createdAt c))
    <$> categories db
  ∧ (∀ x, (∃ c, c ∈ listed (putCategory db id req).1 ∧ Category.id c = x)
          ↔ (∃ c, c ∈ listed db ∧ Category.id c = x))
  ∧ (∀ img, CategoryReq.mainImage req = Some img → truthyS img = true →
            isValidBase64Image img = false →
            putCategory db id req = (db, refused 400 "صورة غير صحيحة")).
Proof.
  assert (Hmap : (λ c, (Category.id c, Category.isActive c,
                        Category.createdAt c))
                   <$> categories (putCategory db id req).1
                 = (λ c, (Category.id c, Category.isActive c,
                          Category.createdAt c)) <$> categories db).
  { destruct (putCategory_cases db id req) as [->|(i & c & img & Hi & ->)];
      [done|]. simpl. by eapply fmap_insert_same. }
  split; [done|]. split.
  - assert (Hvis : ∀ d x,
              (∃ c, c ∈ listed d ∧ Category.id c = x)
              ↔ (x, true) ∈ (λ c, (Category.id c, Category.isActive c))
                             <$> categories d).
    { intros d x. rewrite list_elem_of_fmap. split.
      - intros (c & [Hin Ha]%listed_spec & <-). exists c. by rewrite Ha.
      - intros (c & [= -> Ha] & Hin). exists c. split; [|done].
        by apply listed_spec. }
    intros x. rewrite !Hvis.
    assert ((λ c, (Category.id c, Category.isActive c))
              <$> categories (putCategory db id req).1
            = (λ c, (Category.id c, Category.isActive c)) <$> categories db)
      as ->; [|done].
    apply (f_equal (fmap (λ t : Z * bool * Z, t.1))) in Hmap.
    by rewrite <- !list_fmap_compose in Hmap.
  - intros img Hm Ht Hv. unfold putCategory, imageUpdate.
    by rewrite Hm, Ht, Hv.
Qed.

Lemma putCategory_keeps_visibility_witness :
  putCategory Sample.db0 1 (CategoryReq.mk "Robes" None (Some "robes.svg"))
  = (Sample.db0, refused 400 "صورة غير صحيحة").
Proof.
  exact (proj2 (proj2 (putCategory_keeps_visibility Sample.db0 1
                         (CategoryReq.mk "Robes" None (Some "robes.svg"))))
               "robes.svg" eq_refl eq_refl eq_refl).
Defined.

Lemma deleteCategory_blocked_iff_witness :
  status (deleteCategory Sample.db0 1).2 = 400%nat
  ∧ ¬ status (deleteCategory Sample.db0 3).2 = 400%nat.
Proof.
  split.
  - apply (proj1 (deleteCategory_blocked_iff Sample.db0 1)).
    exists Sample.gown. split; [apply list_elem_of_here|done].
  - intros H.
    apply (proj1 (deleteCategory_blocked_iff Sample.db0 3)) in H
      as (p & Hin & Hc & _).
    repeat (apply elem_of_cons in Hin as [->|Hin]; [discriminate Hc|]).
    by apply elem_of_nil in Hin.
Defined.

(** ** Category update: what is stored *)

(** X26: the category answered by a successful [PUT /api/categories/:id]
    is the one stored under the identifier of the request.  Its name and
    its description are those of the request without the white space
    around them, the description empty when the request has none; its
    image is the image of the request, when it has one, without the white
    space after it, and the image stored before otherwise; its SEO fields,
    parent and order are those stored before. *)
Theorem putCategory_stored (db : DB) (id : Z) (req : CategoryReq.t)
    (c : Category.t) :
  (putCategory db id req).2 = sent 200 c →
  c ∈ categories (putCategory db id req).1
  ∧ Category.id c = id
  ∧ Category.name c = trim (CategoryReq.name req)
  ∧ Category.description c
    = trim (orElseS (CategoryReq.description req) "")
  ∧ ∃ old,
      old ∈ categories db ∧ Category.id old = id
      ∧ (∀ img, CategoryReq.mainImage req = Some img → truthyS img = true →
                isValidBase64Image img = true
                ∧ Category.image c = trim img)
      ∧ (orElseS (CategoryReq.mainImage req) "" = "" →
         Category.image c = Category.image old)
      ∧ Category.seoTitle c = Category.seoTitle old
      ∧ Category.seoDescription c = Category.seoDescription old
      ∧ Category.parentId c = Category.parentId old
      ∧ Category.order c = Category.order old.
Proof.
  unfold putCategory.
  destruct (imageUpdate (CategoryReq.mainImage req)) as [upd|] eqn:Himg;
    [|discriminate].
  unfold findOneAndUpdate.
  destruct (findOne _ (categories db)) as [[i old]|] eqn:Hf; [|discriminate].
  simpl. intros [= <-].
  pose proof (findOne_lt _ _ _ _ Hf) as Hlt.
  apply findOne_Some in Hf as (Hi & Hid%Z.eqb_eq & _).
  split; [eapply list_elem_of_lookup_2; by apply list_lookup_insert_eq|].
  split; [done|]. split; [done|]. split; [done|].
  exists old. split; [by eapply list_elem_of_lookup_2|]. split; [done|].
  split; [|split; [|done]].
  - intros img Hm Ht. unfold imageUpdate in Himg. rewrite Hm, Ht in Himg.
    unfold optimizeBase64Image in Himg.
    destruct (isValidBase64Image img); [|discriminate].
    rewrite Ht in Himg. injection Himg as <-. done.
  - intros Hnone. unfold imageUpdate in Himg.
    destruct (CategoryReq.mainImage req) as [img|]; simpl in *.
    + destruct (truthyS img); [by subst img|]. by injection Himg as <-.
    + by injection Himg as <-.
Qed.

Lemma putCategory_stored_witness :
  ∃ c, (putCategory Sample.db0 2
          (CategoryReq.mk " Kids wear " None
             (Some "data:image/png;base64,AAAA "))).2 = sent 200 c
       ∧ Category.name c = "Kids wear"
       ∧ Category.image c = "data:image/png;base64,AAAA".
Proof.
  eexists. split; [reflexivity|].
  destruct (putCategory_stored Sample.db0 2
              (CategoryReq.mk " Kids wear " None
                 (Some "data:image/png;base64,AAAA ")) _ eq_refl)
    as (_ & _ & Hn & _ & old & _ & _ & Hi & _).
  exact (conj Hn (proj2 (Hi _ eq_refl eq_refl))).
Defined.

(** ** Fresh identifiers *)

Lemma lastId_None (ids : list Z) : lastId ids = None ↔ ids = [].
Proof. destruct ids; simpl; [done|]. split; discriminate. Qed.

Lemma lastId_max (ids : list Z) (m : Z) :
  lastId ids = Some m → m ∈ ids ∧ ∀ i, i ∈ ids → (i ≤ m)%Z.
Proof.
  revert m. induction ids as [|i ids IH]; intros m; simpl; [discriminate|].
  destruct (lastId ids) as [j|] eqn:Hl.
  - intros [= <-]. destruct (IH j eq_refl) as (Hin & Hmax). split.
    + destruct (Z.max_spec i j) as [[_ ->]|[_ ->]];
        [by apply list_elem_of_further|apply list_elem_of_here].
    + intros k [->|Hk]%elem_of_cons; [lia|]. specialize (Hmax k Hk). lia.
  - intros [= <-]. apply lastId_None in Hl as ->.
    split; [apply list_elem_of_here|].
    intros k [->|Hk]%elem_of_cons; [lia|by apply elem_of_nil in Hk].
Qed.

Lemma nextIdAfter_fresh (ids : list Z) (i : Z) :
  i ∈ ids → (i < nextIdAfter ids)%Z.
Proof.
  intros Hi. unfold nextIdAfter. destruct (lastId ids) as [m|] eqn:Hl.
  - destruct (lastId_max _ _ Hl) as (_ & Hmax). specialize (Hmax i Hi). lia.
  - apply lastId_None in Hl as ->. by apply elem_of_nil in Hi.
Qed.

(** ** The calculated price *)

(** One round of the [forEach] of [getCalculatedPrice]. *)
Lemma getCalculatedPrice_cons price o opts sel :
  getCalculatedPrice price (o :: opts) sel
  = getCalculatedPrice (getCalculatedPrice price [o] sel) opts sel.
Proof. done. Qed.

Lemma getCalculatedPrice_one_ge price o sel :
  (∀ ch, ch ∈ ProductOption.options o → (0 <= ProductOption.price ch)%Q) →
  (price <= getCalculatedPrice price [o] sel)%Q.
Proof.
  intros Hpos. unfold getCalculatedPrice. simpl.
  destruct (sel !! ProductOption.optionName o) as [v|]; [|apply Qle_refl].
  destruct (truthyS v); [|apply Qle_refl].
  destruct (List.find _ _) as [ch|] eqn:Hfind; [|apply Qle_refl].
  destruct (Qeq_bool (ProductOption.price ch) 0); [apply Qle_refl|].
  apply List.find_some in Hfind as [Hin%list_elem_of_In _].
  specialize (Hpos ch Hin). lra.
Qed.

(** X11: the calculated price is the product's price when nothing is
    selected or the product has no options, and it is never below the
    product's price when no choice has a negative price. *)
Theorem getCalculatedPrice_bounds (price : Q)
    (dynamicOptions : list ProductOption.t)
    (selectedOptions : gmap string string) :
  getCalculatedPrice price dynamicOptions ∅ = price
  ∧ getCalculatedPrice price [] selectedOptions = price
  ∧ ((∀ o ch, o ∈ dynamicOptions → ch ∈ ProductOption.options o →
              (0 <= ProductOption.price ch)%Q) →
     (price <= getCalculatedPrice price dynamicOptions selectedOptions)%Q).
Proof.
  split; [|split; [done|]].
  - induction dynamicOptions as [|o opts IH]; [done|].
    rewrite getCalculatedPrice_cons.
    assert (getCalculatedPrice price [o] ∅ = price) as ->; [|done].
    unfold getCalculatedPrice. simpl. by rewrite lookup_empty.
  - revert price. induction dynamicOptions as [|o opts IH]; intros price Hpos.
    + apply Qle_refl.
    + rewrite getCalculatedPrice_cons.
      eapply Qle_trans; [apply (getCalculatedPrice_one_ge price o)|apply IH].
      * intros ch Hch. apply (Hpos o ch); [apply list_elem_of_here|done].
      * intros o' ch Ho'. apply Hpos. by apply list_elem_of_further.
Qed.

Lemma getCalculatedPrice_bounds_witness :
  (250 <= getCalculatedPrice 250
            [ProductOption.mk "size" "select" true
               [ProductOption.mkChoice "M" "M" 0;
                ProductOption.mkChoice "XL" "XL" 25]]
            {[ "size" := "XL" ]})%Q
  ∧ getCalculatedPrice 250
      [ProductOption.mk "size" "select" true
         [ProductOption.mkChoice "M" "M" 0;
          ProductOption.mkChoice "XL" "XL" 25]]
      {[ "size" := "XL" ]} == 275.
Proof.
  split; [|by vm_compute].
  refine (proj2 (proj2 (getCalculatedPrice_bounds 250 _ _)) _).
  intros o ch Ho Hch.
  apply list_elem_of_singleton in Ho as ->. simpl in Hch.
  repeat (apply elem_of_cons in Hch as [->|Hch]; [discriminate|]).
  by apply elem_of_nil in Hch.
Defined.

(** X12: the calculated price depends on the selection only through the
    values selected for the product's own options: a selection under any
    other name changes nothing. *)
Theorem getCalculatedPrice_own_options (price : Q)
    (dynamicOptions : list ProductOption.t)
    (selectedOptions : gmap string string) :
  (∀ other,
     (∀ o, o ∈ dynamicOptions →
           selectedOptions !! ProductOption.optionName o
           = other !! ProductOption.optionName o) →
     getCalculatedPrice price dynamicOptions selectedOptions
     = getCalculatedPrice price dynamicOptions other)
  ∧ (∀ k v,
       (∀ o, o ∈ dynamicOptions → ProductOption.optionName o ≠ k) →
       getCalculatedPrice price dynamicOptions (<[ k := v ]> selectedOptions)
       = getCalculatedPrice price dynamicOptions selectedOptions).
Proof.
  assert (Hagree : ∀ other,
            (∀ o, o ∈ dynamicOptions →
                  selectedOptions !! ProductOption.optionName o
                  = other !! ProductOption.optionName o) →
            getCalculatedPrice price dynamicOptions selectedOptions
            = getCalculatedPrice price dynamicOptions other).
  { intros other. revert price.
    induction dynamicOptions as [|o opts IH]; intros price Hsame; [done|].
    rewrite (getCalculatedPrice_cons price o opts selectedOptions),
            (getCalculatedPrice_cons price o opts other).
    assert (getCalculatedPrice price [o] selectedOptions
            = getCalculatedPrice price [o] other) as ->.
    { unfold getCalculatedPrice. simpl.
      by rewrite (Hsame o) by apply list_elem_of_here. }
    apply IH. intros o' Ho'. apply Hsame. by apply list_elem_of_further. }
  split; [exact Hagree|].
  intros k v Hk. symmetry. apply Hagree. intros o Ho.
  by rewrite lookup_insert_ne by (symmetry; by apply Hk).
Qed.

Lemma getCalculatedPrice_own_options_witness :
  getCalculatedPrice 250
    [ProductOption.mk "size" "select" true
       [ProductOption.mkChoice "XL" "XL" 25]]
    (<[ "color" := "XL" ]> {[ "size" := "XL" ]})
  = getCalculatedPrice 250
      [ProductOption.mk "size" "select" true
         [ProductOption.mkChoice "XL" "XL" 25]]
      {[ "size" := "XL" ]}.
Proof.
  apply (proj2 (getCalculatedPrice_own_options 250 _ {[ "size" := "XL" ]})).
  intros o Ho. apply list_elem_of_singleton in Ho as ->. discriminate.
Defined.

(** ** The one-time code *)

Lemma otpNumber_range (random : Q) :
  (0 <= random)%Q → (random < 1)%Q →
  (1000 ≤ Customer.otpNumber random ≤ 9999)%Z.
Proof.
  intros H0 H1. unfold Customer.otpNumber. split.
  - assert (Qfloor (inject_Z 1000) ≤ Qfloor (1000 + random * 9000))%Z as H.
    { apply Qfloor_resp_le. change (inject_Z 1000) with 1000%Q. lra. }
    by rewrite Qfloor_Z in H.
  - assert (Qfloor (1000 + random * 9000) < 10000)%Z; [|lia].
    rewrite Zlt_Qlt. eapply Qle_lt_trans; [apply Qfloor_le|].
    change (inject_Z 10000) with 10000%Q. lra.
Qed.

Lemma div10_bounds (x a b : N) :
  (10 * a ≤ x)%N → (x < 10 * b)%N → (a ≤ N.div x 10 ∧ N.div x 10 < b)%N.
Proof.
  intros Ha Hb. split.
  - by apply N.div_le_lower_bound.
  - by apply N.Div0.div_lt_upper_bound.
Qed.

Lemma pretty_four_digits (n : Z) :
  (1000 ≤ n ≤ 9999)%Z → String.length (pretty n) = 4%nat.
Proof.
  intros Hn. destruct n as [|p|p]; [lia| |lia].
  unfold pretty, pretty_Z, pretty, pretty_positive, pretty, pretty_N.
  destruct (decide (N.pos p = 0%N)) as [|_]; [done|].
  set (x := N.pos p). assert (1000 ≤ x ∧ x < 10000)%N as [Hx1 Hx2]
    by (unfold x; lia).
  clearbody x.
  destruct (div10_bounds x 100 1000) as [Ha1 Ha2]; [done..|].
  destruct (div10_bounds (N.div x 10) 10 100) as [Hb1 Hb2]; [done..|].
  destruct (div10_bounds (N.div (N.div x 10) 10) 1 10) as [Hc1 Hc2]; [done..|].
  destruct (div10_bounds (N.div (N.div (N.div x 10) 10) 10) 0 1) as [_ Hd];
    [lia..|].
  rewrite (pretty_N_go_step x) by lia.
  rewrite (pretty_N_go_step (N.div x 10)) by lia.
  rewrite (pretty_N_go_step (N.div (N.div x 10) 10)) by lia.
  rewrite (pretty_N_go_step (N.div (N.div (N.div x 10) 10) 10)) by lia.
  apply N.lt_1_r in Hd. rewrite Hd. by rewrite pretty_N_go_0.
Qed.

Lemma length_truthy (s : string) : (0 < String.length s)%nat → truthyS s = true.
Proof. destruct s; simpl; [lia|done]. Qed.

(** X13: for every value of [Math.random()], which is in [0, 1), the code
    made by [generateOTP] is a number from 1000 to 9999 in decimal, four
    characters long.  It is stored with the expiry that is ten minutes
    later on the local clock: ten minutes after the call in a zone at a
    fixed offset from UTC, and another instant when the clocks change in
    between. *)
Theorem generateOTP_four_digits (zone : Customer.Zone) (c : Customer.t)
    (random : Q) (now : Z) :
  (0 <= random)%Q → (random < 1)%Q →
  (1000 ≤ Customer.otpNumber random ≤ 9999)%Z
  ∧ (Customer.generateOTP zone c random now).1
    = pretty (Customer.otpNumber random)
  ∧ String.length (Customer.generateOTP zone c random now).1 = 4%nat
  ∧ Customer.otp (Customer.generateOTP zone c random now).2
    = Some (Customer.mkOtp (Customer.generateOTP zone c random now).1
              (Customer.UTC zone (Customer.LocalTime zone now + 600000)%Z))
  ∧ (∀ offset,
       Customer.otp
         (Customer.generateOTP (Customer.fixedZone offset) c random now).2
       = Some (Customer.mkOtp (Customer.generateOTP zone c random now).1
                              (now + 600000)%Z)).
Proof.
  intros H0 H1. pose proof (otpNumber_range random H0 H1) as Hr.
  split; [done|]. split; [done|]. split; [by apply pretty_four_digits|].
  split; [done|]. intros offset. unfold Customer.generateOTP. simpl.
  do 3 f_equal. lia.
Qed.

Lemma generateOTP_four_digits_witness :
  (1000 ≤ Customer.otpNumber (1 # 2) ≤ 9999)%Z
  ∧ (Customer.generateOTP (Customer.fixedZone 0)
       (Customer.mk 1 "a@b.c" "" "A" "" 0 0 Customer.active None) (1 # 2) 0).1
    = "5500".
Proof.
  destruct (generateOTP_four_digits (Customer.fixedZone 0)
              (Customer.mk 1 "a@b.c" "" "A" "" 0 0 Customer.active None)
              (1 # 2) 0) as (Hr & Hc & _); [discriminate|reflexivity|].
  exact (conj Hr Hc).
Defined.

(** Five minutes before the clocks go back an hour, the expiry is seventy
    minutes after the call. *)
Example generateOTP_clocks_go_back (c : Customer.t) (random : Q) (back : Z) :
  Customer.expiresAt <$>
    Customer.otp (Customer.generateOTP (Customer.fallBackZone back) c random
                    (back - 5 * 60000)).2
  = Some (back - 5 * 60000 + 70 * 60000)%Z.
Proof.
  unfold Customer.generateOTP. simpl. f_equal.
  repeat match goal with
         | |- context [Z.ltb ?a ?b] => destruct (Z.ltb_spec a b)
         end; lia.
Qed.

(** X14: a code made by [generateOTP] is accepted by [verifyOTP] until the
    expiry stored with it, the last millisecond included, and accepting it
    removes it, so that it is accepted once; after that expiry the right
    code is refused, and at any time any other input is refused, both
    leaving the code in place.  In a zone at a fixed offset from UTC the
    expiry is ten minutes after the call. *)
Theorem otp_one_time (zone : Customer.Zone) (c : Customer.t) (random : Q)
    (now t : Z) :
  (0 <= random)%Q → (random < 1)%Q →
  let code := (Customer.generateOTP zone c random now).1 in
  let c1 := (Customer.generateOTP zone c random now).2 in
  let expiry := Customer.UTC zone (Customer.LocalTime zone now + 600000)%Z in
  Customer.otp c1 = Some (Customer.mkOtp code expiry)
  ∧ ((t ≤ expiry)%Z →
     (Customer.verifyOTP c1 t code).1.1 = true
     ∧ Customer.otp (Customer.verifyOTP c1 t code).2 = None
     ∧ ∀ t' input,
         (Customer.verifyOTP (Customer.verifyOTP c1 t code).2 t' input).1.1
         = false)
  ∧ ((expiry < t)%Z →
     (Customer.verifyOTP c1 t code).1.1 = false
     ∧ (Customer.verifyOTP c1 t code).2 = c1)
  ∧ (∀ input, input ≠ code →
       (Customer.verifyOTP c1 t input).1.1 = false
       ∧ (Customer.verifyOTP c1 t input).2 = c1)
  ∧ (∀ offset, zone = Customer.fixedZone offset →
               expiry = (now + 600000)%Z).
Proof.
  intros H0 H1 code c1 expiry.
  assert (Htruthy : truthyS code = true).
  { apply length_truthy.
    unfold code. simpl.
    rewrite (pretty_four_digits _ (otpNumber_range random H0 H1)). lia. }
  assert (Hotp : Customer.otp c1 = Some (Customer.mkOtp code expiry))
    by done.
  split; [done|].
  unfold Customer.verifyOTP. rewrite Hotp. simpl. rewrite Htruthy. simpl.
  split; [|split; [|split]].
  - intros Ht. destruct (Z.ltb_spec expiry t); [lia|].
    rewrite String.eqb_refl. simpl. done.
  - intros Ht. destruct (Z.ltb_spec expiry t); [|lia]. done.
  - intros input Hne. destruct (Z.ltb expiry t); [done|].
    destruct (String.eqb_spec code input); [by destruct Hne|done].
  - intros offset ->. unfold expiry. simpl. lia.
Qed.

Lemma otp_one_time_witness :
  (Customer.verifyOTP
     (Customer.generateOTP (Customer.fixedZone 7200000)
        (Customer.mk 1 "a@b.c" "" "A" "" 0 0 Customer.active None)
        (1 # 2) 0).2 600000 "5500").1.1 = true
  ∧ (Customer.verifyOTP
       (Customer.generateOTP (Customer.fixedZone 7200000)
          (Customer.mk 1 "a@b.c" "" "A" "" 0 0 Customer.active None)
          (1 # 2) 0).2 600001 "5500").1.1 = false
  ∧ (Customer.verifyOTP
       (Customer.generateOTP (Customer.fixedZone 7200000)
          (Customer.mk 1 "a@b.c" "" "A" "" 0 0 Customer.active None)
          (1 # 2) 0).2 5 "1234").1.1 = false.
Proof.
  pose (z := Customer.fixedZone 7200000).
  pose (c := Customer.mk 1 "a@b.c" "" "A" "" 0 0 Customer.active None).
  assert (H0 : (0 <= 1 # 2)%Q) by discriminate.
  assert (H1 : (1 # 2 < 1)%Q) by reflexivity.
  destruct (otp_one_time z c (1 # 2) 0 600000 H0 H1) as (_ & Hok & _).
  destruct (otp_one_time z c (1 # 2) 0 600001 H0 H1) as (_ & _ & Hlate & _).
  destruct (otp_one_time z c (1 # 2) 0 5 H0 H1) as (_ & _ & _ & Hwrong & _).
  refine (conj (proj1 (Hok _)) (conj (proj1 (Hlate _))
            (proj1 (Hwrong "1234" _)))).
  - vm_compute. discriminate.
  - reflexivity.
  - discriminate.
Defined.

(** ** Wishlist: check after add and after remove *)

Lemma delete_lookup_other {A} (l : list A) (i j : nat) (x : A) :
  delete i l !! j = Some x → ∃ k, k ≠ i ∧ l !! k = Some x.
Proof.
  intros H. destruct (decide (j < i)%nat).
  - exists j. rewrite list_lookup_delete_lt in H by done. split; [lia|done].
  - exists (S j). rewrite list_lookup_delete_ge in H by lia. split; [lia|done].
Qed.

Lemma findOne_delete_unique {A B} (P : A → bool) (key : A → B)
    (l : list A) (i : nat) (x : A) :
  NoDup (map key l) →
  (∀ y z, P y = true → P z = true → key y = key z) →
  findOne P l = Some (i, x) →
  findOne P (delete i l) = None.
Proof.
  intros Hnd Hkey Hf. apply findOne_Some in Hf as (Hi & Hx & _).
  apply findOne_None. intros y Hy.
  apply list_elem_of_lookup in Hy as (j & Hj).
  apply delete_lookup_other in Hj as (k & Hne & Hk).
  destruct (P y) eqn:Hp; [|done]. destruct Hne.
  apply (NoDup_lookup _ k i (key x) Hnd).
  - rewrite list_lookup_fmap, Hk. simpl. by rewrite (Hkey y x Hp Hx).
  - by rewrite list_lookup_fmap, Hi.
Qed.

Lemma new_entry_found (l : list Wishlist.t) (w : Wishlist.t) u p :
  Wishlist.userId w = u → Wishlist.productId w = p →
  findOne (Wishlist.sameEntry u p) l = None →
  findOne (Wishlist.sameEntry u p) (l ++ [w]) = Some (length l, w).
Proof.
  intros <- <- Hf. apply findOne_app_new; [done|]. by apply sameEntry_spec.
Qed.

(** X15: after an add-to-wishlist answered 201 or 400, on either route,
    the check of that user and product says true; after a removal answered
    200, entries being unique per user and product, it says false; and a
    removal is answered 404 exactly when the check says false. *)
Theorem wishlist_check_round_trip (db : DB) (userId : string)
    (productId : Z) :
  (status (postUserWishlist db userId productId).2 = 201%nat
   ∨ status (postUserWishlist db userId productId).2 = 400%nat →
   getUserWishlistCheck (postUserWishlist db userId productId).1
                        userId productId = true)
  ∧ (∀ req,
       WishlistReq.userId req = Some userId →
       WishlistReq.productId req = productId →
       getUserWishlistCheck (postWishlist db req).1 userId productId = true)
  ∧ (uniqueEntries (wishlists db) →
     status (deleteUserWishlist db userId productId).2 = 200%nat →
     getUserWishlistCheck (deleteUserWishlist db userId productId).1
                          userId productId = false)
  ∧ (status (deleteUserWishlist db userId productId).2 = 404%nat
     ↔ getUserWishlistCheck db userId productId = false).
Proof.
  refine (conj _ (conj _ (conj _ _))).
  - unfold postUserWishlist, getUserWishlistCheck.
    destruct (findOne _ (products db)) as [[j product]|];
      [|by intros [|]].
    destruct (findOne _ (wishlists db)) as [[i w]|] eqn:Hf.
    + intros _. simpl. by rewrite Hf.
    + intros _. simpl.
      set (w := Wishlist.mk _ _ _ _ _ _).
      by rewrite (new_entry_found (wishlists db) w userId productId
                    eq_refl eq_refl Hf).
  - intros req Hu Hp. unfold postWishlist, getUserWishlistCheck.
    rewrite Hu, Hp. simpl.
    destruct (findOne _ (wishlists db)) as [[i w]|] eqn:Hf.
    + simpl. by rewrite Hf.
    + simpl. set (w := Wishlist.mk _ _ _ _ _ _).
      by rewrite (new_entry_found (wishlists db) w userId productId
                    eq_refl eq_refl Hf).
  - intros Hu. unfold deleteUserWishlist, findOneAndDelete,
      getUserWishlistCheck.
    destruct (findOne _ (wishlists db)) as [[i w]|] eqn:Hf; [|discriminate].
    intros _. simpl.
    rewrite (findOne_delete_unique _
               (λ w, (Wishlist.userId w, Wishlist.productId w)) _ i w Hu);
      [done| |done].
    intros y z Hy%sameEntry_spec Hz%sameEntry_spec. congruence.
  - unfold deleteUserWishlist, findOneAndDelete, getUserWishlistCheck.
    by destruct (findOne _ (wishlists db)) as [[i w]|].
Qed.

Lemma wishlist_check_round_trip_witness :
  getUserWishlistCheck (postUserWishlist Sample.db0 "u1" 1).1 "u1" 1 = true
  ∧ getUserWishlistCheck
      (deleteUserWishlist (postUserWishlist Sample.db0 "u1" 1).1 "u1" 1).1
      "u1" 1 = false
  ∧ status (deleteUserWishlist Sample.db0 "u1" 1).2 = 404%nat.
Proof.
  pose (db1 := (postUserWishlist Sample.db0 "u1" 1).1).
  assert (Hu : uniqueEntries (wishlists db1)).
  { apply (bool_decide_unpack _). vm_compute. exact I. }
  destruct (wishlist_check_round_trip Sample.db0 "u1" 1)
    as (Hadd & _ & _ & H404).
  destruct (wishlist_check_round_trip db1 "u1" 1) as (_ & _ & Hdel & _).
  exact (conj (Hadd (or_introl eq_refl))
          (conj (Hdel Hu eq_refl) (proj2 H404 eq_refl))).
Defined.

(** ** Cart: clearing, uniqueness and removal *)

Lemma applyCoupon_carts db now code items :
  carts (applyCoupon db now code items).1 = carts db.
Proof.
  destruct (applyCoupon_cases db now code items) as [(i & c & d & H)|H].
  - by rewrite (applyCoupon_accepted _ _ _ _ _ _ _ H).
  - by rewrite (applyCoupon_unused _ _ _ _ H).
Qed.

(** X16: an order created by [POST /api/orders] removes from the cart
    exactly the lines of the request's user, the guest when the request
    names none, and keeps the lines of every other user in their order;
    [POST /api/checkout] does not touch the cart. *)
Theorem order_clears_cart (validate : Order.t → bool) (db : DB) (now : Z)
    (req : OrderReq.t) :
  (status (postOrders validate db now req).2 = 201%nat →
   let user := orElseS (OrderReq.userId req) "guest" in
   (∀ it, it ∈ carts (postOrders validate db now req).1
          ↔ it ∈ carts db ∧ Cart.userId it ≠ user)
   ∧ carts (postOrders validate db now req).1
     = List.filter (λ it, negb (bool_decide (Cart.userId it = user)))
                   (carts db)
   ∧ carts (deleteUserCart db user).1
     = carts (postOrders validate db now req).1)
  ∧ (∀ creq, carts (postCheckout validate db creq).1 = carts db).
Proof.
  split.
  - unfold postOrders.
    pose proof (applyCoupon_carts db now
                  (orElseS (OrderReq.couponCode req) "") (OrderReq.items req))
      as Hc.
    destruct (applyCoupon _ _ _ _) as [db1 d]. simpl in Hc.
    destruct (validate _); simpl; [|discriminate]. intros _.
    rewrite Hc. split; [|done].
    intros it. rewrite elem_of_filter_bool, negb_true_iff,
      bool_decide_eq_false. done.
  - intros creq. unfold postCheckout. by destruct (validate _).
Qed.

Lemma order_clears_cart_witness :
  carts (postOrders Sample.accept
           (addToCart (addToCart Sample.db0 "guest"
                         (Sample.addGown Sample.sizeM 1)).1
              "u1" (Sample.addGown Sample.sizeM 2)).1 0 Sample.order100).1
  = carts (addToCart Sample.db0 "u1" (Sample.addGown Sample.sizeM 2)).1.
Proof.
  pose (db2 := (addToCart (addToCart Sample.db0 "guest"
                             (Sample.addGown Sample.sizeM 1)).1
                  "u1" (Sample.addGown Sample.sizeM 2)).1).
  destruct (order_clears_cart Sample.accept db2 0 Sample.order100)
    as (H & _).
  destruct (H eq_refl) as (_ & -> & _). by vm_compute.
Defined.

Lemma uniqueLines_add (l : list Cart.t) (it : Cart.t) :
  uniqueLines l →
  findOne (Cart.sameLine (Cart.userId it) (Cart.productId it)
             (Cart.selectedOptions it)) l = None →
  uniqueLines (l ++ [it]).
Proof.
  unfold uniqueLines. intros Hu Hf. rewrite map_app. simpl.
  apply NoDup_app. split; [done|]. split; [|apply NoDup_singleton].
  intros k Hk Hw. apply list_elem_of_singleton in Hw as ->.
  apply list_elem_of_fmap in Hk as (it' & Hkey & Hin).
  rewrite findOne_None in Hf. specialize (Hf it' Hin).
  assert (Cart.sameLine (Cart.userId it) (Cart.productId it)
            (Cart.selectedOptions it) it' = true); [|congruence].
  apply sameLine_spec. by injection Hkey.
Qed.

(** X17: add-to-cart keeps the cart free of duplicates, as the query sees
    them: when no two lines have the same user, product and
    selected-options document (the same options in the same order) before
    a request, on either route, none have after it; and when the request's
    product is found, exactly one line is then that of the request.  Two
    lines whose options are the same mapping in different orders are not
    duplicates in this sense. *)
Theorem addToCart_unique (db : DB) (userId : string) (req : CartReq.t) :
  uniqueLines (carts db) →
  uniqueLines (carts (addToCart db userId req).1)
  ∧ uniqueLines (carts (postCart db req).1)
  ∧ ∀ product,
      findProduct (products db) (CartReq.productId req) = Some product →
      countDocuments
        (Cart.sameLine userId (Product.id product)
           (default [] (CartReq.selectedOptions req)))
        (carts (addToCart db userId req).1) = 1%nat.
Proof.
  assert (Hgen : ∀ u, uniqueLines (carts db) →
                      uniqueLines (carts (addToCart db u req).1)).
  { intros u Hu. unfold addToCart.
    destruct (findProduct _ _) as [product|]; [|done].
    destruct (findOne _ (carts db)) as [[i it]|] eqn:Hf; simpl.
    - unfold uniqueLines. apply findOne_Some in Hf as (Hi & _).
      by rewrite (fmap_insert_same _ _ _ it).
    - by apply uniqueLines_add. }
  intros Hu. split; [by apply Hgen|]. split; [by apply Hgen|].
  intros product Hp.
  set (same := Cart.sameLine _ _ _).
  assert (Hone : ∀ l i it, uniqueLines l → l !! i = Some it →
                           same it = true → countDocuments same l = 1%nat).
  { intros l i it Hl Hi Hs.
    rewrite <- (take_drop_middle l i it Hi) in Hl |- *.
    rewrite countDocuments_app. unfold countDocuments at 2. simpl.
    rewrite Hs. simpl. fold (countDocuments same (drop (S i) l)).
    unfold uniqueLines in Hl. rewrite map_app in Hl. simpl in Hl.
    apply NoDup_app in Hl as (_ & Hdisj & Hr).
    apply NoDup_cons in Hr as [Hnot _].
    assert (Hkey : ∀ y, same y = true →
              (Cart.userId y, Cart.productId y, Cart.selectedOptions y)
              = (Cart.userId it, Cart.productId it, Cart.selectedOptions it)).
    { intros y Hy. apply sameLine_spec in Hy as (-> & -> & ->).
      apply sameLine_spec in Hs as (-> & -> & ->). done. }
    rewrite (countDocuments_none same (take i l)),
            (countDocuments_none same (drop (S i) l)); [done| |].
    - apply findOne_None. intros y Hy.
      destruct (same y) eqn:Hsy; [|done]. destruct Hnot.
      apply list_elem_of_fmap. exists y. by rewrite (Hkey y Hsy).
    - apply findOne_None. intros y Hy.
      destruct (same y) eqn:Hsy; [|done].
      destruct (Hdisj (Cart.userId it, Cart.productId it,
                       Cart.selectedOptions it)).
      + apply list_elem_of_fmap. exists y. by rewrite (Hkey y Hsy).
      + apply list_elem_of_here. }
  destruct (findOne same (carts db)) as [[i it]|] eqn:Hf.
  - pose proof (Hgen userId Hu) as Hu'.
    rewrite (addToCart_existing _ _ _ _ _ _ Hp Hf) in Hu' |- *. simpl in *.
    pose proof (findOne_lt _ _ _ _ Hf) as Hlt.
    apply findOne_Some in Hf as (_ & Hs & _).
    eapply Hone; [done|by apply list_lookup_insert_eq|].
    subst same. by rewrite sameLine_merge.
  - pose proof (Hgen userId Hu) as Hu'.
    rewrite (addToCart_new _ _ _ _ Hp Hf) in Hu' |- *. simpl in *.
    eapply (Hone _ (length (carts db))); [done| |].
    + by rewrite lookup_app_r, Nat.sub_diag.
    + by apply sameLine_spec.
Qed.

Lemma addToCart_unique_witness :
  uniqueLines
    (carts (addToCart
              (addToCart Sample.db0 "guest" (Sample.addGown Sample.sizeM 2)).1
              "guest" (Sample.addGown Sample.sizeM 3)).1)
  ∧ countDocuments (Cart.sameLine "guest" 1 Sample.sizeM)
      (carts (addToCart
                (addToCart Sample.db0 "guest"
                   (Sample.addGown Sample.sizeM 2)).1
                "guest" (Sample.addGown Sample.sizeM 3)).1) = 1%nat.
Proof.
  pose (db1 := (addToCart Sample.db0 "guest"
                  (Sample.addGown Sample.sizeM 2)).1).
  assert (H0 : uniqueLines (carts Sample.db0)) by apply NoDup_nil_2.
  destruct (addToCart_unique Sample.db0 "guest"
              (Sample.addGown Sample.sizeM 2) H0) as (H1 & _).
  destruct (addToCart_unique db1 "guest" (Sample.addGown Sample.sizeM 3) H1)
    as (H2 & _ & Hc).
  exact (conj H2 (Hc Sample.gown eq_refl)).
Defined.

Lemma countDocuments_cons {A} (P : A → bool) (x : A) (l : list A) :
  countDocuments P (x :: l)
  = ((if P x then 1 else 0) + countDocuments P l)%nat.
Proof. unfold countDocuments. simpl. by destruct (P x). Qed.

(** X18: [DELETE /api/user/:userId/cart/product/:productId] is answered
    404, with no change, exactly when the user has no line for the
    product; otherwise it is answered 200 and removes the first line of
    that user and product, and that line only: the lines before it, none
    of which is of that user and product, and all lines after it stay, in
    their order, and nothing but the cart changes. *)
Theorem deleteUserCartProduct_one (db : DB) (userId : string)
    (productId : Z) :
  (statusOf (deleteUserCartProduct db userId productId).2 = 404%nat
   ↔ countDocuments (sameProduct userId productId) (carts db) = 0%nat)
  ∧ (statusOf (deleteUserCartProduct db userId productId).2 = 404%nat
     ∨ statusOf (deleteUserCartProduct db userId productId).2 = 200%nat)
  ∧ (statusOf (deleteUserCartProduct db userId productId).2 = 404%nat →
     (deleteUserCartProduct db userId productId).1 = db)
  ∧ (statusOf (deleteUserCartProduct db userId productId).2 = 200%nat →
     ∃ before it after,
       carts db = before ++ it :: after
       ∧ sameProduct userId productId it = true
       ∧ (∀ x, x ∈ before → sameProduct userId productId x = false)
       ∧ carts (deleteUserCartProduct db userId productId).1
         = before ++ after
       ∧ products (deleteUserCartProduct db userId productId).1
         = products db
       ∧ wishlists (deleteUserCartProduct db userId productId).1
         = wishlists db
       ∧ orders (deleteUserCartProduct db userId productId).1 = orders db
       ∧ coupons (deleteUserCartProduct db userId productId).1
         = coupons db).
Proof.
  unfold deleteUserCartProduct, findOneAndDelete.
  destruct (findOne _ (carts db)) as [[i x]|] eqn:Hf; simpl.
  - apply findOne_Some in Hf as (Hi & Hx & Hb).
    split; [|split; [by right|split; [discriminate|]]].
    + split; [discriminate|]. intros H0.
      pose proof (countDocuments_pos _ _ x
                    (list_elem_of_lookup_2 _ _ _ Hi) Hx). lia.
    + intros _. exists (take i (carts db)), x, (drop (S i) (carts db)).
      split; [by rewrite take_drop_middle|]. split; [done|].
      split; [|by rewrite delete_take_drop].
      intros y Hy. apply list_elem_of_lookup in Hy as (j & Hj).
      pose proof (lookup_lt_Some _ _ _ Hj) as Hlt.
      rewrite length_take in Hlt.
      rewrite lookup_take_lt in Hj by lia.
      apply (Hb j y Hj). lia.
  - split; [|split; [by left|split; [done|discriminate]]].
    split; [|done]. intros _. by apply countDocuments_none.
Qed.

Lemma deleteUserCartProduct_one_witness :
  statusOf (deleteUserCartProduct Sample.db0 "guest" 1).2 = 404%nat
  ∧ ∃ before it after,
      carts (postCart (postCart Sample.db0
                         (Sample.addGown Sample.sizeM 1)).1
               (Sample.addGown Sample.sizeL 1)).1
      = before ++ it :: after
      ∧ carts (deleteUserCartProduct
                 (postCart (postCart Sample.db0
                              (Sample.addGown Sample.sizeM 1)).1
                    (Sample.addGown Sample.sizeL 1)).1 "guest" 1).1
        = before ++ after.
Proof.
  pose (db2 := (postCart (postCart Sample.db0
                            (Sample.addGown Sample.sizeM 1)).1
                  (Sample.addGown Sample.sizeL 1)).1).
  destruct (deleteUserCartProduct_one Sample.db0 "guest" 1) as (H404 & _).
  destruct (deleteUserCartProduct_one db2 "guest" 1) as (_ & _ & _ & H200).
  destruct (H200 eq_refl) as (before & it & after & Hc & _ & _ & Hd & _).
  split; [exact (proj2 H404 eq_refl)|].
  exists before, it, after. exact (conj Hc Hd).
Defined.

(** ** Cart migration *)

Lemma deleteOne_cons_eq (g : Cart.t) (l : list Cart.t) :
  deleteOne g (g :: l) = l.
Proof. unfold deleteOne. simpl. by rewrite decide_True. Qed.

Lemma deleteOne_cons_ne (g a : Cart.t) (l : list Cart.t) :
  a ≠ g → deleteOne g (a :: l) = a :: deleteOne g l.
Proof.
  intros Hne. unfold deleteOne. simpl. rewrite decide_False by done.
  by destruct (list_find _ l) as [[i y]|].
Qed.

Lemma deleteOne_first_guest (g : Cart.t) (l rest : list Cart.t) :
  List.filter isGuest l = g :: rest →
  ∃ l1 l2,
    l = l1 ++ g :: l2 ∧ List.filter isGuest l1 = []
    ∧ List.filter isGuest l2 = rest ∧ deleteOne g l = l1 ++ l2.
Proof.
  induction l as [|a l IH]; simpl; [discriminate|].
  destruct (isGuest a) eqn:Ha.
  - intros [= -> <-]. exists [], l. by rewrite deleteOne_cons_eq.
  - intros Hf. destruct (IH Hf) as (l1 & l2 & -> & H1 & H2 & Hd).
    exists (a :: l1), l2. simpl. rewrite Ha.
    repeat split; [done..|].
    rewrite deleteOne_cons_ne, Hd; [done|].
    intros ->. assert (isGuest g = true); [|congruence].
    assert (g ∈ List.filter isGuest (l1 ++ g :: l2)) as Hin
      by (rewrite Hf; apply list_elem_of_here).
    by apply elem_of_filter_bool in Hin as [_ ?].
Qed.

Lemma filter_insert_false {A} (P : A → bool) (l : list A) (i : nat)
    (x y : A) :
  l !! i = Some x → P x = false → P y = false →
  List.filter P (<[ i := y ]> l) = List.filter P l.
Proof.
  intros Hi Hx Hy.
  rewrite insert_take_drop by (by eapply lookup_lt_Some).
  rewrite <- (take_drop_middle l i x Hi) at 3.
  rewrite !List.filter_app. simpl. by rewrite Hx, Hy.
Qed.

Lemma totalQuantity_app (l k : list Cart.t) :
  totalQuantity (l ++ k) = (totalQuantity l + totalQuantity k)%Z.
Proof. induction l as [|a l IH]; simpl; [done|]. rewrite IH. lia. Qed.

Lemma totalQuantity_insert (l : list Cart.t) (i : nat) (x y : Cart.t) :
  l !! i = Some x →
  totalQuantity (<[ i := y ]> l)
  = (totalQuantity l - Cart.quantity x + Cart.quantity y)%Z.
Proof.
  intros Hi. rewrite insert_take_drop by (by eapply lookup_lt_Some).
  rewrite <- (take_drop_middle l i x Hi) at 3.
  rewrite !totalQuantity_app. simpl. lia.
Qed.

Lemma totalQuantity_split (u : string) (l : list Cart.t) :
  u ≠ "guest" →
  totalQuantity l
  = (totalQuantity (List.filter isGuest l)
     + totalQuantity (List.filter (ownedBy u) l)
     + totalQuantity (List.filter (ownedByOther u) l))%Z.
Proof.
  intros Hu. induction l as [|a l IH]; simpl; [done|].
  unfold ownedByOther, isGuest, ownedBy in *.
  destruct (bool_decide_reflect (Cart.userId a = "guest")) as [Hg|Hg];
    destruct (bool_decide_reflect (Cart.userId a = u)) as [Hw|Hw];
    simpl; try lia.
  congruence.
Qed.

Lemma pred_false_of (Q : Cart.t → bool) (user : string) (it : Cart.t) :
  (∀ it, Q it = true → Cart.userId it ≠ "guest" ∧ Cart.userId it ≠ user) →
  Cart.userId it = "guest" ∨ Cart.userId it = user → Q it = false.
Proof.
  intros HQ Hit. destruct (Q it) eqn:Hq; [|done].
  destruct (HQ it Hq) as [Hg Hu]. by destruct Hit.
Qed.

Lemma migrateItem_step (user : string) (l : list Cart.t) (m n : nat)
    (g : Cart.t) (rest : list Cart.t) :
  user ≠ "guest" → List.filter isGuest l = g :: rest →
  List.filter isGuest (migrateItem user (l, m, n) g).1.1 = rest
  ∧ totalQuantity (migrateItem user (l, m, n) g).1.1 = totalQuantity l
  ∧ ((migrateItem user (l, m, n) g).1.2 + (migrateItem user (l, m, n) g).2
     = S (m + n))%nat
  ∧ ∀ Q : Cart.t → bool,
      (∀ it, Q it = true →
             Cart.userId it ≠ "guest" ∧ Cart.userId it ≠ user) →
      List.filter Q (migrateItem user (l, m, n) g).1.1 = List.filter Q l.
Proof.
  intros Hu Hgs.
  assert (Hg : Cart.userId g = "guest").
  { assert (g ∈ List.filter isGuest l) as Hin
      by (rewrite Hgs; apply list_elem_of_here).
    apply elem_of_filter_bool in Hin as [_ Hin].
    by apply bool_decide_eq_true in Hin. }
  assert (Hnot : ∀ it, Cart.userId it = user → isGuest it = false).
  { intros it Hit. unfold isGuest. apply bool_decide_eq_false. congruence. }
  unfold migrateItem.
  destruct (findOne _ l) as [[i e]|] eqn:Hf; simpl.
  - apply findOne_Some in Hf as (Hi & (He & _ & _)%sameLine_spec & _).
    set (y := Cart.merge e (Cart.quantity g) (Cart.attachments g)).
    assert (Hy : Cart.userId y = user) by done.
    assert (Hgs1 : List.filter isGuest (<[ i := y ]> l) = g :: rest).
    { rewrite (filter_insert_false _ _ _ e); auto. }
    destruct (deleteOne_first_guest _ _ _ Hgs1)
      as (a & b & Hl1 & Ha & Hb & ->).
    split; [by rewrite List.filter_app, Ha, Hb|]. split; [|split; [lia|]].
    + pose proof (totalQuantity_insert l i e y Hi) as Ht.
      rewrite Hl1, totalQuantity_app in Ht. simpl in Ht.
      rewrite totalQuantity_app. lia.
    + intros Q HQ.
      rewrite <- (filter_insert_false Q l i e y Hi);
        [|eapply pred_false_of; eauto..].
      rewrite Hl1, !List.filter_app. simpl.
      by rewrite (pred_false_of Q user g HQ (or_introl Hg)).
  - set (y := newUserItem user g).
    assert (Hy : Cart.userId y = user) by done.
    assert (Hgs1 : List.filter isGuest (l ++ [y]) = g :: rest).
    { rewrite List.filter_app. simpl. rewrite (Hnot y Hy).
      by rewrite app_nil_r. }
    destruct (deleteOne_first_guest _ _ _ Hgs1)
      as (a & b & Hl1 & Ha & Hb & ->).
    split; [by rewrite List.filter_app, Ha, Hb|]. split; [|split; [lia|]].
    + pose proof (totalQuantity_app l [y]) as Ht.
      rewrite Hl1, totalQuantity_app in Ht. simpl in Ht.
      rewrite totalQuantity_app. lia.
    + intros Q HQ.
      assert (List.filter Q (l ++ [y]) = List.filter Q l) as <-.
      { rewrite List.filter_app. simpl.
        rewrite (pred_false_of Q user y HQ (or_intror Hy)).
        by rewrite app_nil_r. }
      rewrite Hl1, !List.filter_app. simpl.
      by rewrite (pred_false_of Q user g HQ (or_introl Hg)).
Qed.

Lemma migrate_fold (user : string) (gs : list Cart.t) :
  user ≠ "guest" →
  ∀ l m n,
    List.filter isGuest l = gs →
    List.filter isGuest (fold_left (migrateItem user) gs (l, m, n)).1.1 = []
    ∧ totalQuantity (fold_left (migrateItem user) gs (l, m, n)).1.1
      = totalQuantity l
    ∧ ((fold_left (migrateItem user) gs (l, m, n)).1.2
       + (fold_left (migrateItem user) gs (l, m, n)).2
       = m + n + length gs)%nat
    ∧ ∀ Q : Cart.t → bool,
        (∀ it, Q it = true →
               Cart.userId it ≠ "guest" ∧ Cart.userId it ≠ user) →
        List.filter Q (fold_left (migrateItem user) gs (l, m, n)).1.1
        = List.filter Q l.
Proof.
  intros Hu. induction gs as [|g rest IH]; intros l m n Hgs;
    cbn [fold_left].
  - simpl. split; [done|]. split; [done|]. split; [lia|]. done.
  - destruct (migrateItem_step user l m n g rest Hu Hgs)
      as (H1 & H2 & H3 & H4).
    destruct (migrateItem user (l, m, n) g) as [[l' m'] n']. simpl in *.
    destruct (IH l' m' n' H1) as (I1 & I2 & I3 & I4).
    split; [done|]. split; [congruence|]. split; [lia|].
    intros Q HQ. by rewrite (I4 Q HQ), (H4 Q HQ).
Qed.

Lemma postMigrateCart_facts (db : DB) (user : string) :
  truthyS user = true → user ≠ "guest" →
  ∃ m n,
    (postMigrateCart db (Some user)).2 = sent 200 (m, n)
    ∧ (m + default 0 n = countDocuments isGuest (carts db))%nat
    ∧ List.filter isGuest (carts (postMigrateCart db (Some user)).1) = []
    ∧ totalQuantity (carts (postMigrateCart db (Some user)).1)
      = totalQuantity (carts db)
    ∧ (∀ Q : Cart.t → bool,
         (∀ it, Q it = true →
                Cart.userId it ≠ "guest" ∧ Cart.userId it ≠ user) →
         List.filter Q (carts (postMigrateCart db (Some user)).1)
         = List.filter Q (carts db))
    ∧ products (postMigrateCart db (Some user)).1 = products db
    ∧ wishlists (postMigrateCart db (Some user)).1 = wishlists db
    ∧ orders (postMigrateCart db (Some user)).1 = orders db
    ∧ coupons (postMigrateCart db (Some user)).1 = coupons db.
Proof.
  intros Ht Hu. unfold postMigrateCart, countDocuments.
  assert (orElseS (Some user) "" = user) as ->
    by (unfold orElseS; by rewrite Ht).
  rewrite Ht, (proj2 (String.eqb_neq user "guest") Hu).
  cbn [negb orb].
  destruct (List.filter isGuest (carts db)) as [|g rest] eqn:Hgs.
  - exists 0%nat, None. cbn [fst snd]. by rewrite Hgs.
  - destruct (migrate_fold user (g :: rest) Hu (carts db) 0%nat 0%nat Hgs)
      as (H1 & H2 & H3 & H4).
    destruct (fold_left _ _ _) as [[l' m'] n']. simpl in *.
    exists m', (Some n'). repeat split; done.
Qed.

(** X20: [POST /api/migrate-cart] answers 400, with no change, a request
    without user, with an empty one or with the guest.  For any other user
    it answers 200; afterwards no guest line is left, the lines of every
    third user are the same in the same order, nothing but the cart has
    changed, and [migratedCount] and [mergedCount] (0 when the answer has
    none) add up to the number of guest lines there were. *)
Theorem postMigrateCart_moves (db : DB) :
  (∀ userId,
     orElseS userId "" = "" ∨ orElseS userId "" = "guest" →
     postMigrateCart db userId = (db, refused 400 "Valid user ID is required"))
  ∧ (∀ user,
       truthyS user = true → user ≠ "guest" →
       ∃ migratedCount mergedCount,
         (postMigrateCart db (Some user)).2
         = sent 200 (migratedCount, mergedCount)
         ∧ (migratedCount + default 0 mergedCount
            = countDocuments isGuest (carts db))%nat
         ∧ countDocuments isGuest
             (carts (postMigrateCart db (Some user)).1) = 0%nat
         ∧ List.filter (ownedByOther user)
             (carts (postMigrateCart db (Some user)).1)
           = List.filter (ownedByOther user) (carts db)
         ∧ products (postMigrateCart db (Some user)).1 = products db
         ∧ wishlists (postMigrateCart db (Some user)).1 = wishlists db
         ∧ orders (postMigrateCart db (Some user)).1 = orders db
         ∧ coupons (postMigrateCart db (Some user)).1 = coupons db).
Proof.
  split.
  - intros userId H. unfold postMigrateCart.
    destruct H as [-> | ->]; done.
  - intros user Ht Hu.
    destruct (postMigrateCart_facts db user Ht Hu)
      as (m & n & Hr & Hc & Hg & _ & HQ & Hp & Hw & Ho & Hcp).
    exists m, n. split; [done|]. split; [done|].
    split; [unfold countDocuments; by rewrite Hg|].
    split; [|done]. apply HQ. intros it Hit. unfold ownedByOther in Hit.
    apply andb_true_iff in Hit as [Hg' Hu'].
    apply negb_true_iff, bool_decide_eq_false in Hg'.
    apply negb_true_iff, bool_decide_eq_false in Hu'. done.
Qed.

Lemma postMigrateCart_moves_witness :
  postMigrateCart Sample.db0 (Some "guest")
  = (Sample.db0, refused 400 "Valid user ID is required")
  ∧ ∃ migratedCount mergedCount,
      (postMigrateCart
         (postUserCart (postCart (postCart Sample.db0
                                    (Sample.addGown Sample.sizeM 2)).1
                          (Sample.addGown Sample.sizeL 1)).1
            "u1" (Sample.addGown Sample.sizeM 3)).1 (Some "u1")).2
      = sent 200 (migratedCount, mergedCount)
      ∧ (migratedCount + default 0 mergedCount = 2)%nat.
Proof.
  pose (db3 := (postUserCart (postCart (postCart Sample.db0
                                          (Sample.addGown Sample.sizeM 2)).1
                                (Sample.addGown Sample.sizeL 1)).1
                  "u1" (Sample.addGown Sample.sizeM 3)).1).
  destruct (postMigrateCart_moves Sample.db0) as [H400 _].
  destruct (postMigrateCart_moves db3) as [_ H200].
  destruct (H200 "u1" eq_refl ltac:(discriminate))
    as (m & n & Hr & Hc & _).
  split; [exact (H400 (Some "guest") (or_intror eq_refl))|].
  exists m, n. split; [exact Hr|]. etrans; [exact Hc|]. by vm_compute.
Defined.

(** X21: a migration keeps the sum of the quantities of the cart lines:
    after it the user's lines hold what the user's and the guest's lines
    held together. *)
Theorem postMigrateCart_quantity (db : DB) (user : string) :
  truthyS user = true → user ≠ "guest" →
  totalQuantity (carts (postMigrateCart db (Some user)).1)
  = totalQuantity (carts db)
  ∧ totalQuantity
      (List.filter (ownedBy user) (carts (postMigrateCart db (Some user)).1))
    = (totalQuantity (List.filter (ownedBy user) (carts db))
       + totalQuantity (List.filter isGuest (carts db)))%Z.
Proof.
  intros Ht Hu.
  destruct (postMigrateCart_facts db user Ht Hu)
    as (m & n & _ & _ & Hg & Htot & HQ & _).
  split; [done|].
  assert (Hother : List.filter (ownedByOther user)
                     (carts (postMigrateCart db (Some user)).1)
                   = List.filter (ownedByOther user) (carts db)).
  { apply HQ. intros it Hit. unfold ownedByOther in Hit.
    apply andb_true_iff in Hit as [Hg' Hu'].
    apply negb_true_iff, bool_decide_eq_false in Hg'.
    apply negb_true_iff, bool_decide_eq_false in Hu'. done. }
  pose proof (totalQuantity_split user (carts db) Hu) as H0.
  pose proof (totalQuantity_split user
                (carts (postMigrateCart db (Some user)).1) Hu) as H1.
  rewrite Hg, Hother in H1. simpl in H1. lia.
Qed.

Lemma postMigrateCart_quantity_witness :
  totalQuantity
    (List.filter (ownedBy "u1")
       (carts (postMigrateCart
                 (postUserCart (postCart (postCart Sample.db0
                                            (Sample.addGown Sample.sizeM 2)).1
                                  (Sample.addGown Sample.sizeL 1)).1
                    "u1" (Sample.addGown Sample.sizeM 3)).1 (Some "u1")).1))
  = 6%Z.
Proof.
  pose (db3 := (postUserCart (postCart (postCart Sample.db0
                                          (Sample.addGown Sample.sizeM 2)).1
                                (Sample.addGown Sample.sizeL 1)).1
                  "u1" (Sample.addGown Sample.sizeM 3)).1).
  destruct (postMigrateCart_quantity db3 "u1" eq_refl ltac:(discriminate))
    as [_ H].
  etrans; [exact H|]. by vm_compute.
Defined.


(** ** Registration *)

Lemma truthyS_toLowerCase (s : string) :
  truthyS (toLowerCase s) = truthyS s.
Proof. by destruct s. Qed.

Lemma postAuthRegister_cases (customers : list Customer.t)
    (req : RegisterReq.t) :
  (∃ st msg,
      (st = 400 ∨ st = 409)%nat
      ∧ postAuthRegister customers req = (customers, refused st msg)
      ∧ (st = 409%nat →
         ∃ c, c ∈ customers
              ∧ Customer.email c
                = toLowerCase (orElseS (RegisterReq.email req) "")))
  ∨ (∃ c,
        postAuthRegister customers req = (customers ++ [c], sent 201 c)
        ∧ Customer.email c = toLowerCase (orElseS (RegisterReq.email req) "")
        ∧ Customer.id c = nextIdAfter (map Customer.id customers)
        ∧ (∀ c', c' ∈ customers → Customer.email c' ≠ Customer.email c)
        ∧ truthyS (orElseS (RegisterReq.email req) "") = true).
Proof.
  unfold postAuthRegister.
  destruct (truthyS (orElseS (RegisterReq.email req) "")) eqn:He;
    [|left; exists 400%nat; eexists; split; [by left|]; split; done].
  destruct (truthyS (orElseS (RegisterReq.password req) ""));
    [|left; exists 400%nat; eexists; split; [by left|]; split; done].
  destruct (truthyS (orElseS (RegisterReq.name req) ""));
    [|left; exists 400%nat; eexists; split; [by left|]; split; done].
  cbn [negb orb].
  destruct (Nat.ltb _ 6);
    [left; exists 400%nat; eexists; split; [by left|]; split; done|].
  destruct (findOne _ customers) as [[i c]|] eqn:Hf.
  - left. exists 409%nat. eexists. split; [by right|]. split; [done|].
    intros _. apply findOne_Some in Hf as (Hi & Hc & _).
    exists c. split; [by eapply list_elem_of_lookup_2|].
    by apply String.eqb_eq in Hc.
  - right. eexists. split; [done|]. simpl. repeat split.
    intros c' Hc' Heq.
    pose proof (proj1 (findOne_None _ _) Hf c' Hc') as Hn. simpl in Hn.
    apply String.eqb_neq in Hn. done.
Qed.

(** X22: [POST /api/auth/register] keeps the customers apart: when no two
    customers share an e-mail or an identifier, none do afterwards.  It
    changes the collection only with a 201 answer, and then by adding, after
    the others, one customer under the e-mail of the request in lower
    case. *)
Theorem postAuthRegister_unique (customers : list Customer.t)
    (req : RegisterReq.t) :
  NoDup (map Customer.email customers) →
  NoDup (map Customer.id customers) →
  NoDup (map Customer.email (postAuthRegister customers req).1)
  ∧ NoDup (map Customer.id (postAuthRegister customers req).1)
  ∧ (statusOf (postAuthRegister customers req).2 ≠ 201%nat →
     (postAuthRegister customers req).1 = customers)
  ∧ (statusOf (postAuthRegister customers req).2 = 201%nat →
     ∃ c, (postAuthRegister customers req).1 = customers ++ [c]
          ∧ Customer.email c
            = toLowerCase (orElseS (RegisterReq.email req) "")).
Proof.
  intros He Hi.
  destruct (postAuthRegister_cases customers req)
    as [(st & msg & Hst & -> & _) | (c & -> & Hce & Hci & Hnew & _)]; simpl.
  - split; [done|]. split; [done|]. split; [done|].
    intros ->. by destruct Hst.
  - rewrite !map_app. simpl.
    split; [|split; [|split; [done|by exists c]]].
    + apply NoDup_app. split; [done|]. split; [|apply NoDup_singleton].
      intros e Hin ->%list_elem_of_singleton.
      apply list_elem_of_fmap in Hin as (c' & Heq & Hc').
      by apply (Hnew c' Hc').
    + apply NoDup_app. split; [done|]. split; [|apply NoDup_singleton].
      intros i Hin ->%list_elem_of_singleton.
      apply nextIdAfter_fresh in Hin. lia.
Qed.

Lemma postAuthRegister_unique_witness :
  NoDup (map Customer.email
           (postAuthRegister []
              (RegisterReq.mk (Some "Ann@X.org") (Some "secret1")
                 (Some "Ann") None None)).1)
  ∧ ∃ c, (postAuthRegister []
            (RegisterReq.mk (Some "Ann@X.org") (Some "secret1")
               (Some "Ann") None None)).1 = [c]
         ∧ Customer.email c = "ann@x.org".
Proof.
  destruct (postAuthRegister_unique []
              (RegisterReq.mk (Some "Ann@X.org") (Some "secret1")
                 (Some "Ann") None None)
              (NoDup_nil_2 : NoDup (map Customer.email []))
              (NoDup_nil_2 : NoDup (map Customer.id [])))
    as (H1 & _ & _ & H4).
  split; [exact H1|]. exact (H4 eq_refl).
Defined.

(** X23: after a registration has been answered 201, no request under an
    e-mail with the same lower-case form is accepted, whatever its case
    and its other fields: it is answered 400 or 409 and the customers stay
    as they are. *)
Theorem register_twice_refused (customers : list Customer.t)
    (req req' : RegisterReq.t) :
  statusOf (postAuthRegister customers req).2 = 201%nat →
  toLowerCase (orElseS (RegisterReq.email req') "")
  = toLowerCase (orElseS (RegisterReq.email req) "") →
  (postAuthRegister (postAuthRegister customers req).1 req').1
  = (postAuthRegister customers req).1
  ∧ (statusOf (postAuthRegister (postAuthRegister customers req).1 req').2
     = 400%nat
     ∨ statusOf (postAuthRegister (postAuthRegister customers req).1 req').2
       = 409%nat).
Proof.
  intros H201 Hsame.
  destruct (postAuthRegister_cases customers req)
    as [(st & msg & Hst & Hr & _) | (c & Hr & Hce & _)].
  { rewrite Hr in H201. simpl in H201. subst st. by destruct Hst. }
  rewrite Hr. simpl.
  destruct (postAuthRegister_cases (customers ++ [c]) req')
    as [(st & msg & Hst & -> & _) | (c2 & _ & Hce2 & _ & Hnew & _)].
  - by simpl.
  - exfalso. apply (Hnew c); [set_solver|]. congruence.
Qed.

Lemma register_twice_refused_witness :
  statusOf
    (postAuthRegister
       (postAuthRegister []
          (RegisterReq.mk (Some "Ann@X.org") (Some "secret1")
             (Some "Ann") None None)).1
       (RegisterReq.mk (Some "ann@x.ORG") (Some "another")
          (Some "Bob") None None)).2 = 400%nat
  ∨ statusOf
      (postAuthRegister
         (postAuthRegister []
            (RegisterReq.mk (Some "Ann@X.org") (Some "secret1")
               (Some "Ann") None None)).1
         (RegisterReq.mk (Some "ann@x.ORG") (Some "another")
            (Some "Bob") None None)).2 = 409%nat.
Proof.
  exact (proj2 (register_twice_refused []
                  (RegisterReq.mk (Some "Ann@X.org") (Some "secret1")
                     (Some "Ann") None None)
                  (RegisterReq.mk (Some "ann@x.ORG") (Some "another")
                     (Some "Bob") None None)
                  eq_refl eq_refl)).
Defined.


(** ** The product search and the fall-back subtotal *)




Lemma fold_left_sum_ext {A B} (f : B → Q) (g : A → B) (h : A → Q)
    (l : list A) :
  (∀ x, x ∈ l → f (g x) = h x) →
  ∀ acc, fold_left (λ sum x, sum + f x)%Q (map g l) acc
         = fold_left (λ sum x, sum + h x)%Q l acc.
Proof.
  induction l as [|x l IH]; intros H acc; [done|]. simpl.
  rewrite (H x (list_elem_of_here _ _)). apply IH.
  intros y Hy. apply H. by apply list_elem_of_further.
Qed.

Lemma orElseQ_falsy (x : option Q) (d : Q) : falsyQ x → orElseQ x d = d.
Proof.
  intros [-> | (t & -> & Ht)]; [done|]. simpl.
  by rewrite (proj2 (Qeq_bool_iff t 0) Ht).
Qed.

(** X25: when a checkout request carries no subtotal and its lines carry
    no [totalPrice], the subtotal stored with the order is the sum of
    [price * quantity] over the lines of the request, the subtotal that
    [POST /api/orders] computes from the same lines. *)
Theorem checkout_fallback_subtotal (validate : Order.t → bool) (db : DB)
    (req : CheckoutReq.t) :
  falsyQ (CheckoutReq.subtotal req) →
  (∀ item, item ∈ CheckoutReq.items req → falsyQ (Order.totalPrice item)) →
  orderSubtotal req = itemsSubtotal (CheckoutReq.items req)
  ∧ (status (postCheckout validate db req).2 = 201%nat →
     ∃ order,
       orders (postCheckout validate db req).1 = orders db ++ [order]
       ∧ Order.subtotal order
         = Some (itemsSubtotal (CheckoutReq.items req))).
Proof.
  intros Hs Hitems.
  assert (Heq : orderSubtotal req = itemsSubtotal (CheckoutReq.items req)).
  { unfold orderSubtotal, totalPrices, itemsSubtotal, sumQ.
    rewrite (orElseQ_falsy _ _ Hs). apply fold_left_sum_ext.
    intros item Hitem. simpl. by apply orElseQ_falsy, Hitems. }
  split; [done|]. intros H201.
  apply postCheckout_created in H201 as (order & _ & Ho & Hsub & _).
  exists order. split; [done|]. rewrite Hsub. f_equal.
  unfold itemsSubtotal, sumQ. apply fold_left_sum_ext.
  intros item Hitem. unfold Order.lineTotal. simpl.
  by apply orElseQ_falsy, Hitems.
Qed.

Lemma checkout_fallback_subtotal_witness :
  orderSubtotal
    (CheckoutReq.mk [Sample.line 100 2; Sample.line 40 1] None None None
       None None None)
  = itemsSubtotal [Sample.line 100 2; Sample.line 40 1].
Proof.
  refine (proj1 (checkout_fallback_subtotal Sample.accept Sample.db0
                   (CheckoutReq.mk [Sample.line 100 2; Sample.line 40 1]
                      None None None None None None)
                   (or_introl eq_refl) _)).
  intros item Hitem. left.
  apply elem_of_cons in Hitem as [-> | Hitem]; [done|].
  apply elem_of_cons in Hitem as [-> | Hitem]; [done|].
  by apply elem_of_nil in Hitem.
Defined.
